(** * Plugin registry generator and manifest validator

    A shallow embedding of the two scripts of [apps-repository-template/scripts]:
    [generate-registry.py] and [validate-plugins.py].

    Both scripts work on whatever [json.load] returns, so the embedding starts
    with the Python values a JSON document parses to and with the handful of
    built-in operations the scripts apply to them.  An operation that raises
    in Python returns [Raise] here; the scripts' [try]/[except] blocks become
    matches on that result.

    The file system is what the scripts read of it: the entries of
    [plugins/] in the order [iterdir()] yields them, and for each
    [plugin.json] what [open] and [json.load] give.  A printed line is kept
    as the data it shows, and a written registry as the document handed to
    [json.dump].

    Standard output and [registry.json] are UTF-8 streams, and the disk takes
    what is written.  A string read from a manifest may hold a surrogate code
    point (JSON has the escape for it), which UTF-8 does not encode: [print]
    and [json.dump(..., ensure_ascii=False)] then raise [UnicodeEncodeError].
    The names of files and directories and the messages of exceptions are
    text that prints: a file name inside a message is shown escaped. *)

From Stdlib Require Import ZArith NArith Ascii String DecimalString List Bool Lia.
From Stdlib Require Import Floats.SpecFloat.
From Stdlib Require Import Sorting.Sorted Sorting.Permutation.
Import ListNotations.

Set Implicit Arguments.
Set Warnings "-register-all".

(** ** Python values *)

Module Py.

(** A Python [str] is a sequence of Unicode code points. *)
Definition pystr := list N.

(** The text of an ASCII literal of the source. *)
Definition py (s : string) : pystr := map N_of_ascii (list_ascii_of_string s).

(** What [json.load] returns: [dict], [list], [str], [int], [float], [bool]
    or [None].  A [dict] keeps its keys in insertion order; the parser has
    already resolved repeated keys, and [dict_lookup] reads the first
    binding of a key. *)
Inductive value :=
| VNone
| VBool (b : bool)
| VInt (z : Z)
| VFloat (f : spec_float)
| VStr (s : pystr)
| VList (l : list value)
| VDict (d : list (pystr * value)).

(** The exceptions the scripts can meet.  [JSONDecodeError] and [ReadError]
    carry [str(e)]; [ReadError] stands for any other exception that [open] or
    [json.load] raises (a missing or unreadable file, undecodable bytes).
    [UnicodeEncodeError] is what [print] and the write of [registry.json]
    raise on text the stream cannot encode. *)
Inductive exn :=
| AttributeError
| TypeError
| KeyError
| UnicodeEncodeError
| JSONDecodeError (msg : pystr)
| ReadError (msg : pystr).

Inductive result (A : Type) :=
| Ok (a : A)
| Raise (e : exn).
Arguments Ok {A} a.
Arguments Raise {A} e.

Definition bind {A B : Type} (m : result A) (k : A -> result B) : result B :=
  match m with
  | Ok a => k a
  | Raise e => Raise e
  end.

Declare Scope py_scope.
Delimit Scope py_scope with py.
Notation "x <- m ;; k" := (bind m (fun x => k))
  (at level 61, m at next level, right associativity) : py_scope.
Local Open Scope py_scope.

(** Takes every [bind] of a hypothesis [... = Ok _] apart: each bound
    computation has returned some [a], by an equation [Ha]. *)
Ltac invert_binds :=
  repeat match goal with
         | H : bind ?m _ = Ok _ |- _ =>
             let a := fresh "a" in
             let Ha := fresh "Ha" in
             destruct m as [a |] eqn:Ha; [cbn [bind] in H | discriminate H]
         | H : Ok _ = Ok _ |- _ => injection H as H
         end.

(** What the interpreter and its Unicode tables decide and the scripts do not:
    the text [str()] gives a float, a list or a dict, the characters beyond
    ASCII that [int()] reads as white space or as a decimal digit, the
    interpreter's limit on the number of digits [int()] converts (0 where
    there is none), and the error handler of standard output: [strict], or
    [surrogateescape] as in the C locale, which writes the surrogates
    U+DC80 to U+DCFF as the bytes they stand for. *)
Record runtime := {
  repr_composite : value -> pystr;
  unicode_isspace : N -> bool;
  unicode_todecimal : N -> option N;
  int_max_str_digits : N;
  stdout_surrogateescape : bool
}.

(** *** Strings *)

Fixpoint str_eqb (s t : pystr) : bool :=
  match s, t with
  | [], [] => true
  | a :: s', b :: t' => N.eqb a b && str_eqb s' t'
  | _, _ => false
  end.

(** [<] and [==] on [str] compare code point by code point. *)
Fixpoint str_compare (s t : pystr) : comparison :=
  match s, t with
  | [], [] => Eq
  | [], _ :: _ => Lt
  | _ :: _, [] => Gt
  | a :: s', b :: t' =>
      match N.compare a b with
      | Eq => str_compare s' t'
      | c => c
      end
  end.

Definition str_ltb (s t : pystr) : bool :=
  match str_compare s t with Lt => true | _ => false end.

Fixpoint is_prefix (p s : pystr) : bool :=
  match p, s with
  | [], _ => true
  | a :: p', b :: s' => N.eqb a b && is_prefix p' s'
  | _ :: _, [] => false
  end.

(** *** Encoding

    The surrogate code points U+D800 to U+DFFF are what UTF-8 does not
    encode. *)
Definition is_surrogate (c : N) : bool := ((55296 <=? c) && (c <=? 57343))%N.

(** Text that a UTF-8 file opened with the default (strict) error handler
    takes: [f.write(s)] raises [UnicodeEncodeError] otherwise. *)
Definition encodable (s : pystr) : bool :=
  forallb (fun c => negb (is_surrogate c)) s.

(** Text that [print] writes to standard output: [print(s)] raises
    [UnicodeEncodeError] otherwise, and prints nothing. *)
Definition printable (rt : runtime) (s : pystr) : bool :=
  forallb
    (fun c =>
       negb (is_surrogate c)
       || (stdout_surrogateescape rt && ((56448 <=? c) && (c <=? 56575))%N))
    s.

(** [needle in s] for two strings. *)
Fixpoint is_substring (needle s : pystr) : bool :=
  is_prefix needle s ||
  match s with
  | [] => false
  | _ :: s' => is_substring needle s'
  end.

(** [s.split(sep)] for a one-character separator: never empty, and an empty
    piece for every separator at an end or next to another one. *)
Fixpoint split_on (sep : N) (s : pystr) : list pystr :=
  match s with
  | [] => [[]]
  | c :: s' =>
      if N.eqb c sep then [] :: split_on sep s'
      else match split_on sep s' with
           | piece :: pieces => (c :: piece) :: pieces
           | [] => [[c]]
           end
  end.

(** [sep.join(pieces)]. *)
Fixpoint join (sep : pystr) (pieces : list pystr) : pystr :=
  match pieces with
  | [] => []
  | [p] => p
  | p :: rest => p ++ sep ++ join sep rest
  end.

Definition str_of_Z (z : Z) : pystr := py (NilZero.string_of_int (Z.to_int z)).
Definition str_of_nat (n : nat) : pystr := str_of_Z (Z.of_nat n).

(** *** int() on a string

    [int(s)] reads optional white space, an optional sign, decimal digits
    that single underscores may separate, and optional white space; anything
    else is a [ValueError], here [None].  Characters beyond ASCII are first
    turned into a space or an ASCII digit where the Unicode tables say so. *)
Inductive int_char :=
| CSpace
| CPlus
| CMinus
| CUnderscore
| CDigit (d : Z)
| COther.

Definition classify (rt : runtime) (c : N) : int_char :=
  (if (48 <=? c) && (c <=? 57) then CDigit (Z.of_N (c - 48))
   else if c =? 43 then CPlus
   else if c =? 45 then CMinus
   else if c =? 95 then CUnderscore
   else if ((9 <=? c) && (c <=? 13)) || (c =? 32) then CSpace
   else if c <=? 127 then COther
   else if unicode_isspace rt c then CSpace
   else match unicode_todecimal rt c with
        | Some d => if d <=? 9 then CDigit (Z.of_N d) else COther
        | None => COther
        end)%N.

Fixpoint skip_spaces (cs : list int_char) : list int_char :=
  match cs with
  | CSpace :: cs' => skip_spaces cs'
  | _ => cs
  end.

(** The digits after the first one: [acc] is the value and [n] the number of
    digits read so far, [after_underscore] says that the previous character
    was an underscore.  Returns the value, the digit count and what is left. *)
Fixpoint scan_digits (cs : list int_char) (acc : Z) (n : N) (after_underscore : bool)
  : option (Z * N * list int_char) :=
  match cs with
  | CDigit d :: cs' => scan_digits cs' (10 * acc + d)%Z (n + 1)%N false
  | CUnderscore :: cs' =>
      if after_underscore then None else scan_digits cs' acc n true
  | _ => if after_underscore then None else Some (acc, n, cs)
  end.

Definition too_many_digits (rt : runtime) (n : N) : bool :=
  ((640 <? n) && (0 <? int_max_str_digits rt) && (int_max_str_digits rt <? n))%N.

Definition py_int (rt : runtime) (s : pystr) : option Z :=
  let cs := skip_spaces (map (classify rt) s) in
  let '(negative, cs) :=
    match cs with
    | CPlus :: cs' => (false, cs')
    | CMinus :: cs' => (true, cs')
    | _ => (false, cs)
    end in
  match cs with
  | CDigit d :: cs' =>
      match scan_digits cs' d 1%N false with
      | Some (z, n, rest) =>
          if too_many_digits rt n then None
          else match skip_spaces rest with
               | [] => Some (if negative then (- z)%Z else z)
               | _ :: _ => None
               end
      | None => None
      end
  | _ => None
  end.

(** *** Numbers *)

(** The order of an [int] and a [float], compared exactly; [None] for a NaN. *)
Definition Z_float_compare (z : Z) (f : spec_float) : option comparison :=
  match f with
  | S754_nan => None
  | S754_zero _ => Some (z ?= 0)%Z
  | S754_infinity negative => Some (if negative then Gt else Lt)
  | S754_finite negative m e =>
      let v := if negative then Z.neg m else Z.pos m in
      Some (if (0 <=? e)%Z then (z ?= v * 2 ^ e)%Z else (z * 2 ^ (- e) ?= v)%Z)
  end.

Inductive number :=
| NInt (z : Z)
| NFloat (f : spec_float).

(** [bool] is a subclass of [int]: [True] is 1 and [False] is 0. *)
Definition as_number (v : value) : option number :=
  match v with
  | VBool b => Some (NInt (if b then 1 else 0)%Z)
  | VInt z => Some (NInt z)
  | VFloat f => Some (NFloat f)
  | _ => None
  end.

Definition number_compare (a b : number) : option comparison :=
  match a, b with
  | NInt x, NInt y => Some (x ?= y)%Z
  | NFloat f, NFloat g => SFcompare f g
  | NInt x, NFloat g => Z_float_compare x g
  | NFloat f, NInt y => option_map CompOpp (Z_float_compare y f)
  end.

Definition number_eqb (a b : number) : bool :=
  match number_compare a b with Some Eq => true | _ => false end.

Definition number_ltb (a b : number) : bool :=
  match number_compare a b with Some Lt => true | _ => false end.

(** *** Operations on values *)

Fixpoint dict_lookup (key : pystr) (d : list (pystr * value)) : option value :=
  match d with
  | [] => None
  | (k, v) :: d' => if str_eqb key k then Some v else dict_lookup key d'
  end.

Definition dict_has (key : pystr) (d : list (pystr * value)) : bool :=
  match dict_lookup key d with Some _ => true | None => false end.

(** [a is b or a == b], which is how a list looks for an item and how two
    lists or two dicts compare theirs.  The one value that is not equal to
    itself is the NaN, and every NaN of a parsed document is the one object
    the parser keeps for it. *)
Fixpoint py_same (a b : value) {struct a} : bool :=
  match a, b with
  | VNone, VNone => true
  | VStr s, VStr t => str_eqb s t
  | VFloat S754_nan, VFloat S754_nan => true
  | VList l, VList m =>
      (fix all_same (l m : list value) : bool :=
         match l, m with
         | [], [] => true
         | x :: l', y :: m' => py_same x y && all_same l' m'
         | _, _ => false
         end) l m
  | VDict d, VDict e =>
      Nat.eqb (length d) (length e) &&
      (fix all_in (d : list (pystr * value)) : bool :=
         match d with
         | [] => true
         | (k, x) :: d' =>
             match dict_lookup k e with
             | Some y => py_same x y && all_in d'
             | None => false
             end
         end) d
  | _, _ =>
      match as_number a, as_number b with
      | Some x, Some y => number_eqb x y
      | _, _ => false
      end
  end.

(** [==]. *)
Definition py_eq (a b : value) : bool :=
  match a, b with
  | VFloat S754_nan, VFloat S754_nan => false
  | _, _ => py_same a b
  end.

(** [a < b]: numbers with numbers, strings with strings, lists with lists
    (at the first position where the items are neither the same object nor
    equal); a [TypeError] otherwise. *)
Fixpoint py_lt (a b : value) {struct a} : result bool :=
  match a, b with
  | VStr s, VStr t => Ok (str_ltb s t)
  | VList l, VList m =>
      (fix first_difference (l m : list value) : result bool :=
         match l, m with
         | [], [] => Ok false
         | [], _ :: _ => Ok true
         | _ :: _, [] => Ok false
         | x :: l', y :: m' =>
             if py_same x y then first_difference l' m' else py_lt x y
         end) l m
  | _, _ =>
      match as_number a, as_number b with
      | Some x, Some y => Ok (number_ltb x y)
      | _, _ => Raise TypeError
      end
  end.

(** Truth value, as [not v] and [if v] test it. *)
Definition truthy (v : value) : bool :=
  match v with
  | VNone => false
  | VBool b => b
  | VInt z => negb (z =? 0)%Z
  | VFloat f => match f with S754_zero _ => false | _ => true end
  | VStr s => negb (Nat.eqb (length s) 0)
  | VList l => negb (Nat.eqb (length l) 0)
  | VDict d => negb (Nat.eqb (length d) 0)
  end.

(** [key in c] for a string [key]: a key of a dict, an element of a list, a
    substring of a string. *)
Definition py_contains (key : pystr) (c : value) : result bool :=
  match c with
  | VDict d => Ok (dict_has key d)
  | VList l => Ok (existsb (py_eq (VStr key)) l)
  | VStr s => Ok (is_substring key s)
  | _ => Raise TypeError
  end.

(** [c[key]] for a string [key]. *)
Definition py_getitem (c : value) (key : pystr) : result value :=
  match c with
  | VDict d =>
      match dict_lookup key d with
      | Some v => Ok v
      | None => Raise KeyError
      end
  | _ => Raise TypeError
  end.

(** [c.get(key, default)]; only a dict has the method. *)
Definition py_get (c : value) (key : pystr) (default : value) : result value :=
  match c with
  | VDict d =>
      match dict_lookup key d with
      | Some v => Ok v
      | None => Ok default
      end
  | _ => Raise AttributeError
  end.

(** [len(v)]. *)
Definition py_len (v : value) : result nat :=
  match v with
  | VStr s => Ok (length s)
  | VList l => Ok (length l)
  | VDict d => Ok (length d)
  | _ => Raise TypeError
  end.

(** [v.split('.')]; only a string has the method. *)
Definition py_split_dots (v : value) : result (list pystr) :=
  match v with
  | VStr s => Ok (split_on 46 s)
  | _ => Raise AttributeError
  end.

(** The items [list.extend(v)] appends: the elements of a list, the
    characters of a string, the keys of a dict. *)
Definition py_iter (v : value) : result (list value) :=
  match v with
  | VList l => Ok l
  | VStr s => Ok (map (fun c => VStr [c]) s)
  | VDict d => Ok (map (fun kv => VStr (fst kv)) d)
  | _ => Raise TypeError
  end.

(** [str(v)], which is what an f-string puts in place of [{v}]. *)
Definition py_str (rt : runtime) (v : value) : pystr :=
  match v with
  | VStr s => s
  | VNone => py "None"
  | VBool true => py "True"
  | VBool false => py "False"
  | VInt z => str_of_Z z
  | _ => repr_composite rt v
  end.

End Py.

(** ** list.sort(key=...)

    [list.sort] is stable and compares with [<] only; it raises as soon as one
    comparison raises.  It is modelled by a stable insertion: every element in
    turn goes behind the elements that are not greater than it.  Where [<] is
    a total preorder on the keys (strings; numbers without a NaN) this is the
    one stable sorted arrangement, whatever the order in which the interpreter
    compares; and a key that [<] orders with nothing ([None], an object)
    raises in every sort of two elements or more, since every element is
    compared at least once.  On other keys (a NaN among numbers, lists) the
    interpreter's choice of comparisons decides the arrangement and whether
    the sort raises, and this model does not follow it: what is proved of the
    order below is proved for string keys. *)

Module ListSort.
Import Py.
Local Open Scope py_scope.

Section Sort.
Variable A : Type.
Variable key : A -> value.

Fixpoint insert (x : A) (sorted : list A) : result (list A) :=
  match sorted with
  | [] => Ok [x]
  | y :: rest =>
      less <- py_lt (key x) (key y) ;;
      if less then Ok (x :: y :: rest)
      else (rest' <- insert x rest ;; Ok (y :: rest'))
  end.

(** One turn of the insertion: the sorted prefix so far, or the exception
    that has ended the sort, and the next element. *)
Definition step (sorted : result (list A)) (x : A) : result (list A) :=
  s <- sorted ;; insert x s.

Definition sort (l : list A) : result (list A) := fold_left step l (Ok []).

(** The key is a string. *)
Definition str_key (x : A) : Prop := exists s, key x = VStr s.

(** Both keys are strings, and the first is not greater than the second. *)
Definition key_le (x y : A) : Prop :=
  exists s t, key x = VStr s /\ key y = VStr t /\ str_compare s t <> Gt.



End Sort.

End ListSort.

(** ** The plugins directory *)

Module Files.
Import Py.

(** What [open(manifest_file)] followed by [json.load(f)] gives for a
    [plugin.json] that exists: an exception that is not a JSON error, a
    [json.JSONDecodeError], or the parsed document.  [msg] is [str(e)],
    text that standard output encodes. *)
Inductive manifest :=
| Unreadable (msg : pystr)
| Malformed (msg : pystr)
| Document (data : value).

(** An entry of [plugins/]: a plain file, or a directory with or without a
    [plugin.json]. *)
Inductive kind :=
| PlainFile
| Directory (plugin_json : option manifest).

(** The name is a file name that decodes to text standard output
    encodes. *)
Record dirent := {
  dirent_name : pystr;
  dirent_kind : kind
}.

(** [PLUGINS_DIR.iterdir()], in the order the file system yields. *)
Definition listing := list dirent.

Definition read_manifest (file : manifest) : result value :=
  match file with
  | Unreadable msg => Raise (ReadError msg)
  | Malformed msg => Raise (JSONDecodeError msg)
  | Document data => Ok data
  end.

End Files.

(** ** generate-registry.py *)

Module GenerateRegistry.
Import Py Files.
Local Open Scope py_scope.

Definition REPO_URL : pystr := py "https://github.com/Stumpf-works/stumpfworks-nas-apps".

(** A registry entry: the dict literal of [load_plugin_manifest], key by key. *)
Record entry := {
  entry_id : value;
  entry_name : value;
  entry_version : value;
  entry_author : value;
  entry_description : value;
  entry_icon : value;
  entry_category : value;
  entry_repository_url : pystr;
  entry_download_url : pystr;
  entry_homepage : value;
  entry_min_nas_version : value;
  entry_require_docker : value;
  entry_required_ports : value;
  entry_screenshots : list value;
  entry_tags : list value
}.

Record registry := {
  registry_version : pystr;
  registry_updated : pystr;
  registry_repository : pystr;
  registry_plugins : list entry
}.

(** A manifest path [plugins/<plugin_dir>/plugin.json] with what reading it
    gives. *)
Definition manifest_path := (pystr * manifest)%type.

Definition find_plugin_manifests (plugins_dir : listing) : list manifest_path :=
  flat_map
    (fun plugin_dir =>
       match dirent_kind plugin_dir with
       | Directory (Some file) => [(dirent_name plugin_dir, file)]
       | Directory None => []
       | PlainFile => []
       end)
    plugins_dir.

Definition repository_url_of (plugin_dir : pystr) : pystr :=
  REPO_URL ++ py "/tree/main/plugins/" ++ plugin_dir.

Definition download_url_of (plugin_dir version : pystr) : pystr :=
  REPO_URL ++ py "/releases/download/" ++ plugin_dir ++ py "-v" ++ version
    ++ py "/" ++ plugin_dir ++ py "-v" ++ version ++ py ".tar.gz".

Definition load_plugin_manifest (rt : runtime) (manifest_file : manifest_path)
  : result entry :=
  let (plugin_dir, file) := manifest_file in
  data <- read_manifest file ;;
  plugin_id <- py_get data (py "id") VNone ;;
  version <- py_get data (py "version") (VStr (py "1.0.0")) ;;
  let repository_url := repository_url_of plugin_dir in
  let download_url := download_url_of plugin_dir (py_str rt version) in
  name <- py_get data (py "name") VNone ;;
  author <- py_get data (py "author") VNone ;;
  description <- py_get data (py "description") VNone ;;
  icon <- py_get data (py "icon") (VStr [128268%N]) ;;
  category <- py_get data (py "category") (VStr (py "utilities")) ;;
  links <- py_get data (py "links") (VDict []) ;;
  homepage <- py_get links (py "homepage") (VStr repository_url) ;;
  requires <- py_get data (py "requires") (VDict []) ;;
  min_nas_version <- py_get requires (py "minNasVersion") (VStr (py "0.1.0")) ;;
  requires <- py_get data (py "requires") (VDict []) ;;
  require_docker <- py_get requires (py "docker") (VBool false) ;;
  requires <- py_get data (py "requires") (VDict []) ;;
  required_ports <- py_get requires (py "ports") (VList []) ;;
  declared <- py_contains (py "tags") data ;;
  tags <- (if declared
           then (declared_tags <- py_getitem data (py "tags") ;;
                 more <- py_iter declared_tags ;;
                 Ok (category :: more))
           else Ok [category]) ;;
  Ok {| entry_id := plugin_id;
        entry_name := name;
        entry_version := version;
        entry_author := author;
        entry_description := description;
        entry_icon := icon;
        entry_category := category;
        entry_repository_url := repository_url;
        entry_download_url := download_url;
        entry_homepage := homepage;
        entry_min_nas_version := min_nas_version;
        entry_require_docker := require_docker;
        entry_required_ports := required_ports;
        entry_screenshots := [];
        entry_tags := tags |}.

(** The lines the script prints. *)
Inductive line :=
| Found (manifests : nat)
| Loaded (name version : value)
| ErrorLoading (plugin_dir : pystr) (e : exn)
| Generated (plugins : nat).

(** Whether [print] takes the line [Loaded name version]: the name and the
    version as [str()] shows them are the parts that come from the manifest. *)
Definition loaded_prints (rt : runtime) (name version : value) : bool :=
  printable rt (py_str rt name) && printable rt (py_str rt version).

(** The body of the loop for one manifest: the entry appended to [plugins],
    if the manifest loads, and the line printed.  The [print] of the loaded
    line stands inside the [try], behind the [append]: when it raises, the
    entry stays and the [except] clause prints its line for the exception.
    That line shows the path of the manifest and the exception's message,
    which print. *)
Definition load_one (rt : runtime) (manifest : manifest_path)
  : list entry * line :=
  match load_plugin_manifest rt manifest with
  | Ok entry =>
      ([entry],
       if loaded_prints rt (entry_name entry) (entry_version entry)
       then Loaded (entry_name entry) (entry_version entry)
       else ErrorLoading (fst manifest) UnicodeEncodeError)
  | Raise e => ([], ErrorLoading (fst manifest) e)
  end.

(** The loop of [generate_registry]: the entries appended to [plugins] and the
    lines printed, manifest after manifest. *)
Fixpoint load_all (rt : runtime) (manifests : list manifest_path)
  : list entry * list line :=
  match manifests with
  | [] => ([], [])
  | manifest :: rest =>
      let (plugins, printed) := load_all rt rest in
      let (appended, shown) := load_one rt manifest in
      (appended ++ plugins, shown :: printed)
  end.

(** Whether [json.dump(..., ensure_ascii=False)] can write the value to
    [registry.json]: every string in it, the keys of objects included, must
    be text the file encodes. *)
Fixpoint value_writable (v : value) : bool :=
  match v with
  | VStr s => encodable s
  | VList l =>
      (fix all_writable (l : list value) : bool :=
         match l with
         | [] => true
         | x :: l' => value_writable x && all_writable l'
         end) l
  | VDict d =>
      (fix all_writable (d : list (pystr * value)) : bool :=
         match d with
         | [] => true
         | (k, x) :: d' => encodable k && value_writable x && all_writable d'
         end) d
  | _ => true
  end.

Definition entry_writable (e : entry) : bool :=
  value_writable (entry_id e)
  && value_writable (entry_name e)
  && value_writable (entry_version e)
  && value_writable (entry_author e)
  && value_writable (entry_description e)
  && value_writable (entry_icon e)
  && value_writable (entry_category e)
  && encodable (entry_repository_url e)
  && encodable (entry_download_url e)
  && value_writable (entry_homepage e)
  && value_writable (entry_min_nas_version e)
  && value_writable (entry_require_docker e)
  && value_writable (entry_required_ports e)
  && value_writable (VList (entry_screenshots e))
  && value_writable (VList (entry_tags e)).

(** One run: what was printed, every document written to [registry.json] in
    full, and the value returned or the exception that ended the run.  A run
    that the write ends with [UnicodeEncodeError] has opened the file and
    left the beginning of a document in it. *)
Record execution := {
  stdout : list line;
  written : list registry;
  returned : result registry
}.

(** [utcnow] is [datetime.utcnow().isoformat()] at the time of the run, a
    text of digits and punctuation.  The sort and the write stand outside
    every [try]. *)
Definition generate_registry (rt : runtime) (plugins_dir : listing) (utcnow : pystr)
  : execution :=
  let manifests := find_plugin_manifests plugins_dir in
  let (plugins, printed) := load_all rt manifests in
  let printed := Found (length manifests) :: printed in
  match ListSort.sort entry_name plugins with
  | Raise e => {| stdout := printed; written := []; returned := Raise e |}
  | Ok plugins =>
      let registry := {| registry_version := py "1.0.0";
                         registry_updated := utcnow ++ py "Z";
                         registry_repository := REPO_URL;
                         registry_plugins := plugins |} in
      if forallb entry_writable plugins
      then {| stdout := printed ++ [Generated (length plugins)];
              written := [registry];
              returned := Ok registry |}
      else {| stdout := printed; written := []; returned := Raise UnicodeEncodeError |}
  end.

End GenerateRegistry.

(** ** validate-plugins.py *)

Module ValidatePlugins.
Import Py Files.
Local Open Scope py_scope.

Definition REQUIRED_FIELDS : list pystr :=
  map py ["id"; "name"; "version"; "author"; "description"; "icon"; "category"]%string.

Definition VALID_CATEGORIES : list pystr :=
  map py ["storage"; "media"; "communication"; "development"; "monitoring";
          "networking"; "productivity"; "security"; "utilities"]%string.

Definition parses_as_int (rt : runtime) (part : pystr) : bool :=
  match py_int rt part with
  | Some _ => true
  | None => false
  end.

Definition validate_semver (rt : runtime) (version : value) : result bool :=
  parts <- py_split_dots version ;;
  if length parts <? 3 then Ok false
  else Ok (forallb (parses_as_int rt) (firstn 3 parts)).

Definition validate_plugin_id (plugin_id : value) : result bool :=
  if negb (truthy plugin_id) then Ok false
  else (parts <- py_split_dots plugin_id ;; Ok (3 <=? length parts)).

(** The messages, as the f-strings build them. *)
Definition missing_field_error (field : pystr) : pystr :=
  py "Missing required field: " ++ field.

Definition id_format_error (rt : runtime) (plugin_id : value) : pystr :=
  py "Invalid plugin ID format: " ++ py_str rt plugin_id
    ++ py " (should be reverse domain notation)".

Definition version_warning (rt : runtime) (version : value) : pystr :=
  py "Version " ++ py_str rt version ++ py " doesn't follow semantic versioning".

Definition category_error (rt : runtime) (category : value) : pystr :=
  py "Invalid category: " ++ py_str rt category ++ py ". Must be one of: "
    ++ join (py ", ") VALID_CATEGORIES.

Definition short_description_warning (desc_len : nat) : pystr :=
  py "Description is very short (" ++ str_of_nat desc_len ++ py " characters)".

Definition long_description_warning (desc_len : nat) : pystr :=
  py "Description is very long (" ++ str_of_nat desc_len ++ py " characters)".

Definition name_error : pystr := py "Plugin name is too short".

Definition author_warning : pystr :=
  py "Author field should not contain email (use links section instead)".

(** [category in VALID_CATEGORIES]. *)
Definition valid_category (category : value) : bool :=
  existsb (fun valid => py_eq (VStr valid) category) VALID_CATEGORIES.

(** The loop over [REQUIRED_FIELDS]. *)
Fixpoint check_required (fields : list pystr) (data : value) (errors : list pystr)
  : result (list pystr) :=
  match fields with
  | [] => Ok errors
  | field :: rest =>
      present <- py_contains field data ;;
      check_required rest data
        (if present then errors else errors ++ [missing_field_error field])
  end.

(** A rule of the form [if key in data and ...: lst.append(...)]: [rule]
    gets [data[key]] and the list, and returns the list as the rule leaves
    it. *)
Definition when_present (key : pystr) (data : value) (lst : list pystr)
    (rule : value -> result (list pystr)) : result (list pystr) :=
  present <- py_contains key data ;;
  if present then (field <- py_getitem data key ;; rule field) else Ok lst.

(** The rules applied to a parsed document, in the order of the source;
    returns [(errors, warnings)]. *)
Definition validate_document (rt : runtime) (data : value)
  : result (list pystr * list pystr) :=
  let warnings : list pystr := [] in
  errors <- check_required REQUIRED_FIELDS data [] ;;
  errors <- when_present (py "id") data errors (fun plugin_id =>
      ok <- validate_plugin_id plugin_id ;;
      Ok (if ok then errors else errors ++ [id_format_error rt plugin_id])) ;;
  warnings <- when_present (py "version") data warnings (fun version =>
      ok <- validate_semver rt version ;;
      Ok (if ok then warnings else warnings ++ [version_warning rt version])) ;;
  errors <- when_present (py "category") data errors (fun category =>
      Ok (if valid_category category then errors
          else errors ++ [category_error rt category])) ;;
  warnings <- when_present (py "description") data warnings (fun description =>
      desc_len <- py_len description ;;
      Ok (if desc_len <? 20 then warnings ++ [short_description_warning desc_len]
          else if 200 <? desc_len then warnings ++ [long_description_warning desc_len]
          else warnings)) ;;
  errors <- when_present (py "name") data errors (fun name =>
      name_len <- py_len name ;;
      Ok (if name_len <? 3 then errors ++ [name_error] else errors)) ;;
  warnings <- when_present (py "author") data warnings (fun author =>
      has_at <- py_contains (py "@") author ;;
      Ok (if has_at then warnings ++ [author_warning] else warnings)) ;;
  Ok (errors, warnings).

(** [validate_plugin_manifest]: the two [except] clauses of the read, then
    the rules. *)
Definition validate_plugin_manifest (rt : runtime) (manifest_file : manifest)
  : result (list pystr * list pystr) :=
  match manifest_file with
  | Malformed msg => Ok ([py "Invalid JSON: " ++ msg], [])
  | Unreadable msg => Ok ([py "Error reading file: " ++ msg], [])
  | Document data => validate_document rt data
  end.

(** The lines the script prints. *)
Inductive line :=
| Validating
| MissingManifest (plugin_dir : pystr)
| ErrorsOf (plugin_dir : pystr) (errors : list pystr)
| WarningsOf (plugin_dir : pystr) (warnings : list pystr)
| Valid (plugin_dir : pystr)
| Summary (checked errors warnings : nat)
| ValidationFailed
| AllValid.

(** What [main] has accumulated: the lines printed, [all_errors] and
    [all_warnings]. *)
Record tally := {
  stdout : list line;
  all_errors : list pystr;
  all_warnings : list pystr
}.

Definition report (plugin_dir : pystr) (errors warnings : list pystr) : list line :=
  (if negb (Nat.eqb (length errors) 0) then [ErrorsOf plugin_dir errors] else [])
  ++ (if negb (Nat.eqb (length warnings) 0) then [WarningsOf plugin_dir warnings] else [])
  ++ (if Nat.eqb (length errors) 0 && Nat.eqb (length warnings) 0
      then [Valid plugin_dir] else []).

(** The messages of a block that get printed: all of them, or those before
    the first one that [print] raises on. *)
Fixpoint printed_before (rt : runtime) (messages : list pystr) : list pystr :=
  match messages with
  | [] => []
  | message :: rest =>
      if printable rt message then message :: printed_before rt rest else []
  end.

(** The loop of [main]: the tally when the loop ends, and the exception that
    ended it early, if one did.  Nothing catches what the validation of a
    manifest raises, nor what [print] raises on a message: the errors of a
    plugin are printed before they are added to [all_errors], and so are its
    warnings. *)
Fixpoint main_loop (rt : runtime) (plugins_dir : listing) (t : tally)
  : tally * option exn :=
  match plugins_dir with
  | [] => (t, None)
  | plugin_dir :: rest =>
      match dirent_kind plugin_dir with
      | PlainFile => main_loop rt rest t
      | Directory None =>
          main_loop rt rest
            {| stdout := stdout t ++ [MissingManifest (dirent_name plugin_dir)];
               all_errors := all_errors t;
               all_warnings := all_warnings t
                 ++ [dirent_name plugin_dir ++ py ": Missing plugin.json"] |}
      | Directory (Some manifest_file) =>
          match validate_plugin_manifest rt manifest_file with
          | Raise e => (t, Some e)
          | Ok (errors, warnings) =>
              if negb (forallb (printable rt) errors)
              then ({| stdout := stdout t
                         ++ [ErrorsOf (dirent_name plugin_dir) (printed_before rt errors)];
                       all_errors := all_errors t;
                       all_warnings := all_warnings t |},
                    Some UnicodeEncodeError)
              else if negb (forallb (printable rt) warnings)
              then ({| stdout := stdout t
                         ++ (if negb (Nat.eqb (length errors) 0)
                             then [ErrorsOf (dirent_name plugin_dir) errors] else [])
                         ++ [WarningsOf (dirent_name plugin_dir)
                               (printed_before rt warnings)];
                       all_errors := all_errors t ++ errors;
                       all_warnings := all_warnings t |},
                    Some UnicodeEncodeError)
              else
                main_loop rt rest
                  {| stdout := stdout t ++ report (dirent_name plugin_dir) errors warnings;
                     all_errors := all_errors t ++ errors;
                     all_warnings := all_warnings t ++ warnings |}
          end
      end
  end.

(** How the process ends: [sys.exit(code)], or a traceback for an exception
    nothing caught. *)
Inductive ending :=
| Exit (code : Z)
| Traceback (e : exn).

(** The status the shell sees; the interpreter ends with status 1 after an
    uncaught exception. *)
Definition exit_status (e : ending) : Z :=
  match e with
  | Exit code => code
  | Traceback _ => 1
  end.

Record execution := {
  final : tally;
  ended : ending
}.

(** [main]: the loop, then the summary and [sys.exit]; the exception that
    has ended the loop ends the process with a traceback. *)
Definition main (rt : runtime) (plugins_dir : listing) : execution :=
  let start := {| stdout := [Validating]; all_errors := []; all_warnings := [] |} in
  match main_loop rt plugins_dir start with
  | (t, Some e) => {| final := t; ended := Traceback e |}
  | (t, None) =>
      let summary :=
        Summary (length plugins_dir) (length (all_errors t)) (length (all_warnings t)) in
      if negb (Nat.eqb (length (all_errors t)) 0)
      then {| final := {| stdout := stdout t ++ [summary; ValidationFailed];
                          all_errors := all_errors t;
                          all_warnings := all_warnings t |};
              ended := Exit 1 |}
      else {| final := {| stdout := stdout t ++ [summary; AllValid];
                          all_errors := all_errors t;
                          all_warnings := all_warnings t |};
              ended := Exit 0 |}
  end.

End ValidatePlugins.

(** ** Vocabulary of the statements *)

Module Statements.
Import Py Files.
Local Open Scope py_scope.

Definition is_str (v : value) : bool :=
  match v with
  | VStr _ => true
  | _ => false
  end.

(** The values [len()] and [in] accept. *)
Definition is_sized (v : value) : bool :=
  match v with
  | VStr _ | VList _ | VDict _ => true
  | _ => false
  end.

Definition lookup_or (key : pystr) (d : list (pystr * value)) (default : value) : value :=
  match dict_lookup key d with
  | Some v => v
  | None => default
  end.

(** *** The registry *)

(** Ascending order of two entries' names: both are strings and the first is
    not greater than the second, code point by code point. *)
Definition name_le (a b : GenerateRegistry.entry) : Prop :=
  exists s t,
    GenerateRegistry.entry_name a = VStr s /\
    GenerateRegistry.entry_name b = VStr t /\
    str_compare s t <> Gt.

(** A manifest that loads, with a string for its name and for its version. *)
Definition loads_as (rt : runtime) (manifest_file : GenerateRegistry.manifest_path)
    (version : pystr) (e : GenerateRegistry.entry) : Prop :=
  exists d name,
    snd manifest_file = Document (VDict d) /\
    dict_lookup (py "name") d = Some (VStr name) /\
    dict_lookup (py "version") d = Some (VStr version) /\
    GenerateRegistry.load_plugin_manifest rt manifest_file = Ok e.

Definition valid_manifest (rt : runtime) (manifest_file : GenerateRegistry.manifest_path)
  : Prop :=
  exists version e, loads_as rt manifest_file version e.

(** The entry carries the two URLs of the templates for this directory name
    and version. *)
Definition has_template_urls (plugin_dir version : pystr) (e : GenerateRegistry.entry)
  : Prop :=
  GenerateRegistry.entry_repository_url e
    = GenerateRegistry.REPO_URL ++ py "/tree/main/plugins/" ++ plugin_dir /\
  GenerateRegistry.entry_download_url e
    = GenerateRegistry.REPO_URL ++ py "/releases/download/"
        ++ plugin_dir ++ py "-v" ++ version ++ py "/"
        ++ plugin_dir ++ py "-v" ++ version ++ py ".tar.gz".

(** The tags of an entry built from the document [d]: the category, then
    what iterating over the declared tags yields. *)
Definition tags_follow_category (d : list (pystr * value)) (e : GenerateRegistry.entry)
  : Prop :=
  GenerateRegistry.entry_category e = lookup_or (py "category") d (VStr (py "utilities")) /\
  match dict_lookup (py "tags") d with
  | None => GenerateRegistry.entry_tags e = [GenerateRegistry.entry_category e]
  | Some declared =>
      exists items,
        py_iter declared = Ok items /\
        GenerateRegistry.entry_tags e = GenerateRegistry.entry_category e :: items
  end.

(** The plugins of the repository, in the specification's words: the
    directories of [plugins/] that hold a [plugin.json]. *)
Definition is_plugin (plugin_dir : dirent) : bool :=
  match dirent_kind plugin_dir with
  | Directory (Some _) => true
  | _ => false
  end.

Definition plugin_dirs (plugins_dir : listing) : listing :=
  filter is_plugin plugins_dir.

(** A manifest no string of which holds a surrogate, the keys of its objects
    included. *)
Definition manifest_writable (file : manifest) : bool :=
  match file with
  | Document data => GenerateRegistry.value_writable data
  | _ => false
  end.

(** A plugin directory with a valid manifest: the manifest loads, its name
    and its version are strings, and neither the manifest nor the name of
    the directory holds a surrogate. *)
Definition valid_plugin (rt : runtime) (plugin_dir : dirent) (version : pystr)
    (e : GenerateRegistry.entry) : Prop :=
  exists file,
    dirent_kind plugin_dir = Directory (Some file) /\
    loads_as rt (dirent_name plugin_dir, file) version e /\
    manifest_writable file = true /\
    encodable (dirent_name plugin_dir) = true.

(** Two runs that differ in nothing but the timestamp. *)
Definition same_but_updated (x y : GenerateRegistry.execution) : Prop :=
  GenerateRegistry.stdout x = GenerateRegistry.stdout y /\
  match GenerateRegistry.returned x, GenerateRegistry.returned y with
  | Ok r, Ok s =>
      GenerateRegistry.written x = [r] /\
      GenerateRegistry.written y = [s] /\
      GenerateRegistry.registry_version r = GenerateRegistry.registry_version s /\
      GenerateRegistry.registry_repository r = GenerateRegistry.registry_repository s /\
      GenerateRegistry.registry_plugins r = GenerateRegistry.registry_plugins s
  | Raise e, Raise f =>
      e = f /\ GenerateRegistry.written x = [] /\ GenerateRegistry.written y = []
  | _, _ => False
  end.

(** *** The validator, rule by rule

    What each rule adds for a document that is a dict [d]. *)

Definition rule (d : list (pystr * value)) (key : pystr)
    (f : value -> result (list pystr)) : result (list pystr) :=
  match dict_lookup key d with
  | Some v => f v
  | None => Ok []
  end.

Definition missing_errors (d : list (pystr * value)) : list pystr :=
  map ValidatePlugins.missing_field_error
    (filter (fun field => negb (dict_has field d)) ValidatePlugins.REQUIRED_FIELDS).

Definition id_errors (rt : runtime) (d : list (pystr * value)) : result (list pystr) :=
  rule d (py "id") (fun plugin_id =>
    ok <- ValidatePlugins.validate_plugin_id plugin_id ;;
    Ok (if ok then [] else [ValidatePlugins.id_format_error rt plugin_id])).

Definition version_warnings (rt : runtime) (d : list (pystr * value))
  : result (list pystr) :=
  rule d (py "version") (fun version =>
    ok <- ValidatePlugins.validate_semver rt version ;;
    Ok (if ok then [] else [ValidatePlugins.version_warning rt version])).

Definition category_errors (rt : runtime) (d : list (pystr * value)) : list pystr :=
  match dict_lookup (py "category") d with
  | Some category =>
      if ValidatePlugins.valid_category category then []
      else [ValidatePlugins.category_error rt category]
  | None => []
  end.

Definition description_warnings (d : list (pystr * value)) : result (list pystr) :=
  rule d (py "description") (fun description =>
    desc_len <- py_len description ;;
    Ok (if desc_len <? 20 then [ValidatePlugins.short_description_warning desc_len]
        else if 200 <? desc_len then [ValidatePlugins.long_description_warning desc_len]
        else [])).

Definition name_errors (d : list (pystr * value)) : result (list pystr) :=
  rule d (py "name") (fun name =>
    name_len <- py_len name ;;
    Ok (if name_len <? 3 then [ValidatePlugins.name_error] else [])).

Definition author_warnings (d : list (pystr * value)) : result (list pystr) :=
  rule d (py "author") (fun author =>
    has_at <- py_contains (py "@") author ;;
    Ok (if has_at then [ValidatePlugins.author_warning] else [])).

(** The documents on which no rule raises: each field a rule reads, where
    present, has a type the rule's operations accept. *)
Definition field_ok (d : list (pystr * value)) (key : pystr) (ok : value -> bool)
  : bool :=
  match dict_lookup key d with
  | Some v => ok v
  | None => true
  end.

Definition checkable (d : list (pystr * value)) : bool :=
  field_ok d (py "id") (fun v => negb (truthy v) || is_str v)
  && field_ok d (py "version") is_str
  && field_ok d (py "description") is_sized
  && field_ok d (py "name") is_sized
  && field_ok d (py "author") is_sized.

(** Every field a rule reads is, where present, a string. *)
Definition string_fields (d : list (pystr * value)) : Prop :=
  forall key v,
    In key (map py ["id"; "version"; "description"; "name"; "author"]%string) ->
    dict_lookup key d = Some v -> is_str v = true.

(** Which messages speak of the version, and which of the category. *)
Definition is_version_diagnostic (msg : pystr) : bool := is_prefix (py "Version ") msg.
Definition is_category_diagnostic (msg : pystr) : bool :=
  is_prefix (py "Invalid category: ") msg.

Definition is_id_diagnostic (msg : pystr) : bool :=
  is_prefix (py "Invalid plugin ID format: ") msg.

(** A message that speaks of neither. *)
Definition unrelated (msg : pystr) : Prop :=
  is_version_diagnostic msg = false /\ is_category_diagnostic msg = false.

(** The version rule as the code has it: at least three pieces between dots,
    the first three of which [int()] accepts. *)
Definition int_triplet_prefix (rt : runtime) (version : pystr) : Prop :=
  exists a b c rest,
    split_on 46 version = a :: b :: c :: rest /\
    py_int rt a <> None /\ py_int rt b <> None /\ py_int rt c <> None.

(** The version rule as the specification words it: the first three pieces
    are non-negative integers. *)
Definition nonnegative_int (rt : runtime) (part : pystr) : Prop :=
  exists z, py_int rt part = Some z /\ (0 <= z)%Z.

Definition nonnegative_triplet_prefix (rt : runtime) (version : pystr) : Prop :=
  exists a b c rest,
    split_on 46 version = a :: b :: c :: rest /\
    nonnegative_int rt a /\ nonnegative_int rt b /\ nonnegative_int rt c.

(** What one entry of [plugins/] adds to [all_errors] and [all_warnings] when
    its validation returns. *)
Definition recorded (rt : runtime) (plugin_dir : dirent) : list pystr * list pystr :=
  match dirent_kind plugin_dir with
  | PlainFile => ([], [])
  | Directory None => ([], [dirent_name plugin_dir ++ py ": Missing plugin.json"])
  | Directory (Some manifest_file) =>
      match ValidatePlugins.validate_plugin_manifest rt manifest_file with
      | Ok diagnostics => diagnostics
      | Raise _ => ([], [])
      end
  end.

(** Every message the validations of the run return is text that [print]
    takes. *)
Definition diagnostics_print (rt : runtime) (plugins_dir : listing) : Prop :=
  forall plugin_dir manifest_file errors warnings,
    In plugin_dir plugins_dir ->
    dirent_kind plugin_dir = Directory (Some manifest_file) ->
    ValidatePlugins.validate_plugin_manifest rt manifest_file = Ok (errors, warnings) ->
    forallb (printable rt) errors = true /\ forallb (printable rt) warnings = true.

(** No validation of the run raises. *)
Definition validations_return (rt : runtime) (plugins_dir : listing) : Prop :=
  forall plugin_dir manifest_file,
    In plugin_dir plugins_dir ->
    dirent_kind plugin_dir = Directory (Some manifest_file) ->
    exists diagnostics,
      ValidatePlugins.validate_plugin_manifest rt manifest_file = Ok diagnostics.





(** Validation of the document yields exactly one category error. *)
Definition yields_one_category_error (rt : runtime) (data : value) : Prop :=
  exists errors warnings,
    ValidatePlugins.validate_plugin_manifest rt (Document data) = Ok (errors, warnings) /\
    length (filter is_category_diagnostic errors) = 1.

(** Validation of the document yields a version warning. *)
Definition yields_version_warning (rt : runtime) (data : value) : Prop :=
  exists errors warnings,
    ValidatePlugins.validate_plugin_manifest rt (Document data) = Ok (errors, warnings) /\
    existsb is_version_diagnostic warnings = true.

(** The version rule in the specification's words, for the document [d] with
    the version string [version]: a version warning exactly when the version
    is not a non-negative triplet prefix. *)
Definition warns_unless_nonnegative_triplet (rt : runtime)
    (d : list (pystr * value)) (version : pystr) : Prop :=
  yields_version_warning rt (VDict d) <-> ~ nonnegative_triplet_prefix rt version.

End Statements.

(** ** Sample inputs *)

Module Samples.
Import Py Files.

(** An interpreter without a digit limit whose tables know no space and no
    digit beyond ASCII. *)
Definition plain_runtime : runtime :=
  {| repr_composite := fun _ => py "...";
     unicode_isspace := fun _ => false;
     unicode_todecimal := fun _ => None;
     int_max_str_digits := 0;
     stdout_surrogateescape := false |}.

Definition field (key text : string) : pystr * value := (py key, VStr (py text)).

Definition acme_fields (version category : value) : list (pystr * value) :=
  [field "id" "com.acme.tool";
   field "name" "Tool";
   (py "version", version);
   field "author" "Acme";
   field "description" "AAAAAAAAAAAAAAAAAAAAAAAAA";
   (py "icon", VStr [128295%N]);
   (py "category", category)].

(** The valid manifest of the specification's scenario. *)
Definition acme_tool : list (pystr * value) :=
  acme_fields (VStr (py "1.2.3")) (VStr (py "utilities")).

(** The same with the version written as a JSON number. *)
Definition numeric_version : list (pystr * value) :=
  acme_fields (VInt 1) (VStr (py "utilities")).

(** The same with a negative first component. *)
Definition negative_version : list (pystr * value) :=
  acme_fields (VStr (py "-1.0.0")) (VStr (py "utilities")).

(** The invalid manifest of the specification's scenario. *)
Definition sloppy_tool : list (pystr * value) :=
  [field "id" "tool";
   field "name" "Tool";
   field "version" "1";
   field "author" "a@b.com";
   field "description" "short";
   (py "icon", VStr [128295%N]);
   field "category" "bogus"].

(** A manifest without an icon. *)
Definition no_icon : list (pystr * value) :=
  [field "id" "com.acme.tool"; field "name" "Tool"; field "version" "1.2.3"].

(** A one-piece version next to an id written as a number. *)
Definition short_version_numeric_id : list (pystr * value) :=
  [(py "id", VInt 5); field "version" "1"].

(** An unknown category next to a numeric version. *)
Definition bogus_category_numeric_version : list (pystr * value) :=
  acme_fields (VInt 1) (VStr (py "bogus")).

(** An unknown category in an otherwise valid manifest. *)
Definition bogus_category : list (pystr * value) :=
  acme_fields (VStr (py "1.2.3")) (VStr (py "bogus")).

Definition plugin (plugin_dir : string) (file : manifest) : dirent :=
  {| dirent_name := py plugin_dir; dirent_kind := Directory (Some file) |}.

(** A manifest with nothing but a name and a version. *)
Definition named (name version : string) : manifest :=
  Document (VDict [field "name" name; field "version" version]).

(** Three plugins whose names are not in order. *)
Definition three_plugins : listing :=
  [plugin "zulu" (named "backup" "2.0.0");
   plugin "alpha" (named "Media" "1.0.0");
   plugin "mike" (named "archive" "0.3.1")].


(** Two plugins whose manifests are the empty object. *)
Definition two_nameless_plugins : listing :=
  [plugin "alpha" (Document (VDict [])); plugin "beta" (Document (VDict []))].

(** A manifest that declares neither version nor links. *)
Definition bare_manifest : list (pystr * value) := [field "name" "Tool"].

(** A valid plugin, a directory without a manifest and a plain file. *)
Definition tool_and_strays : listing :=
  [plugin "tool" (Document (VDict acme_tool));
   {| dirent_name := py "drafts"; dirent_kind := Directory None |};
   {| dirent_name := py "README.md"; dirent_kind := PlainFile |}].

(** One plugin, whose manifest writes the version as a number. *)
Definition numeric_version_plugin : listing :=
  [plugin "tool" (Document (VDict numeric_version))].

(** A manifest that declares two tags. *)
Definition tagged_manifest : list (pystr * value) :=
  [field "name" "Tool";
   field "category" "media";
   (py "tags", VList [VStr (py "video"); VStr (py "audio")])].

Definition tagged_plugins : listing := [plugin "tool" (Document (VDict tagged_manifest))].

(** The entry the generator builds for [plugins/tool] from a manifest with
    the given name, category and declared tags and nothing else. *)
Definition tool_entry (category : string) (declared : list value)
  : GenerateRegistry.entry :=
  {| GenerateRegistry.entry_id := VNone;
     GenerateRegistry.entry_name := VStr (py "Tool");
     GenerateRegistry.entry_version := VStr (py "1.0.0");
     GenerateRegistry.entry_author := VNone;
     GenerateRegistry.entry_description := VNone;
     GenerateRegistry.entry_icon := VStr [128268%N];
     GenerateRegistry.entry_category := VStr (py category);
     GenerateRegistry.entry_repository_url :=
       py "https://github.com/Stumpf-works/stumpfworks-nas-apps/tree/main/plugins/tool";
     GenerateRegistry.entry_download_url :=
       py "https://github.com/Stumpf-works/stumpfworks-nas-apps/releases/download/tool-v1.0.0/tool-v1.0.0.tar.gz";
     GenerateRegistry.entry_homepage :=
       VStr (py "https://github.com/Stumpf-works/stumpfworks-nas-apps/tree/main/plugins/tool");
     GenerateRegistry.entry_min_nas_version := VStr (py "0.1.0");
     GenerateRegistry.entry_require_docker := VBool false;
     GenerateRegistry.entry_required_ports := VList [];
     GenerateRegistry.entry_screenshots := [];
     GenerateRegistry.entry_tags := VStr (py category) :: declared |}.

(** The entry the generator builds in [plugins/<plugin_dir>] from a manifest
    with nothing but a name and a version. *)
Definition named_entry (plugin_dir name version : string) : GenerateRegistry.entry :=
  {| GenerateRegistry.entry_id := VNone;
     GenerateRegistry.entry_name := VStr (py name);
     GenerateRegistry.entry_version := VStr (py version);
     GenerateRegistry.entry_author := VNone;
     GenerateRegistry.entry_description := VNone;
     GenerateRegistry.entry_icon := VStr [128268%N];
     GenerateRegistry.entry_category := VStr (py "utilities");
     GenerateRegistry.entry_repository_url :=
       py "https://github.com/Stumpf-works/stumpfworks-nas-apps/tree/main/plugins/"
         ++ py plugin_dir;
     GenerateRegistry.entry_download_url :=
       py "https://github.com/Stumpf-works/stumpfworks-nas-apps/releases/download/"
         ++ py plugin_dir ++ py "-v" ++ py version ++ py "/"
         ++ py plugin_dir ++ py "-v" ++ py version ++ py ".tar.gz";
     GenerateRegistry.entry_homepage :=
       VStr (py "https://github.com/Stumpf-works/stumpfworks-nas-apps/tree/main/plugins/"
               ++ py plugin_dir);
     GenerateRegistry.entry_min_nas_version := VStr (py "0.1.0");
     GenerateRegistry.entry_require_docker := VBool false;
     GenerateRegistry.entry_required_ports := VList [];
     GenerateRegistry.entry_screenshots := [];
     GenerateRegistry.entry_tags := [VStr (py "utilities")] |}.

Definition tagged_entry : GenerateRegistry.entry :=
  tool_entry "media" [VStr (py "video"); VStr (py "audio")].

Definition bare_entry : GenerateRegistry.entry := tool_entry "utilities" [].

Definition noon : pystr := py "2024-05-01T12:00:00".

Definition tagged_registry : GenerateRegistry.registry :=
  {| GenerateRegistry.registry_version := py "1.0.0";
     GenerateRegistry.registry_updated := py "2024-05-01T12:00:00Z";
     GenerateRegistry.registry_repository :=
       py "https://github.com/Stumpf-works/stumpfworks-nas-apps";
     GenerateRegistry.registry_plugins := [tagged_entry] |}.

(** The valid manifest with a name that holds the surrogate U+D800, as the
    JSON text ["To\ud800l"] gives it. *)
Definition surrogate_name : list (pystr * value) :=
  [field "id" "com.acme.tool";
   (py "name", VStr (py "To" ++ [55296%N] ++ py "l"));
   field "version" "1.2.3";
   field "author" "Acme";
   field "description" "AAAAAAAAAAAAAAAAAAAAAAAAA";
   (py "icon", VStr [128295%N]);
   field "category" "utilities"].

Definition surrogate_name_plugin : listing :=
  [plugin "tool" (Document (VDict surrogate_name))].

(** The valid manifest with the version ["\ud800"]. *)
Definition surrogate_version : list (pystr * value) :=
  acme_fields (VStr [55296%N]) (VStr (py "utilities")).

Definition surrogate_version_plugin : listing :=
  [plugin "tool" (Document (VDict surrogate_version))].



(** The registry of the three plugins at noon: "Media" comes before
    "archive", capitals before small letters. *)
Definition three_registry : GenerateRegistry.registry :=
  {| GenerateRegistry.registry_version := py "1.0.0";
     GenerateRegistry.registry_updated := py "2024-05-01T12:00:00Z";
     GenerateRegistry.registry_repository :=
       py "https://github.com/Stumpf-works/stumpfworks-nas-apps";
     GenerateRegistry.registry_plugins :=
       [named_entry "alpha" "Media" "1.0.0";
        named_entry "mike" "archive" "0.3.1";
        named_entry "zulu" "backup" "2.0.0"] |}.




End Samples.

(** ** Vocabulary of the further properties *)

Module Further.
Import Py Files Statements.
Local Open Scope py_scope.

Definition is_dict (v : value) : bool :=
  match v with
  | VDict _ => true
  | _ => false
  end.

(** *** The generator *)

(** The exception that ends [load_plugin_manifest] on a manifest, [None] for
    a manifest that loads: what the read raises; [AttributeError] for a
    document that has no [get], or whose [links] or [requires] has none;
    [TypeError] for [tags] that [extend] cannot iterate over. *)
Definition load_failure (file : manifest) : option exn :=
  match file with
  | Unreadable msg => Some (ReadError msg)
  | Malformed msg => Some (JSONDecodeError msg)
  | Document (VDict d) =>
      if field_ok d (py "links") is_dict && field_ok d (py "requires") is_dict
      then (if field_ok d (py "tags") is_sized then None else Some TypeError)
      else Some AttributeError
  | Document _ => Some AttributeError
  end.

(** [d.get(outer, {}).get(inner, default)] where [outer] is absent or an
    object. *)
Definition nested_or (d : list (pystr * value)) (outer inner : pystr) (default : value)
  : value :=
  match dict_lookup outer d with
  | Some (VDict m) => lookup_or inner m default
  | _ => default
  end.

(** The entries the loop of [generate_registry] has appended when it ends. *)
Definition loaded_entries (rt : runtime) (plugins_dir : listing)
  : list GenerateRegistry.entry :=
  fst (GenerateRegistry.load_all rt (GenerateRegistry.find_plugin_manifests plugins_dir)).

(** The line the loop prints for one manifest: that it has loaded the
    plugin, with the name and the version, or that it could not, with the
    exception of the load, or of the [print] that should have shown a name or
    a version that does not print. *)
Definition line_of (rt : runtime) (manifest_file : GenerateRegistry.manifest_path)
  : GenerateRegistry.line :=
  match GenerateRegistry.load_plugin_manifest rt manifest_file with
  | Ok e =>
      if GenerateRegistry.loaded_prints rt (GenerateRegistry.entry_name e)
           (GenerateRegistry.entry_version e)
      then GenerateRegistry.Loaded (GenerateRegistry.entry_name e)
             (GenerateRegistry.entry_version e)
      else GenerateRegistry.ErrorLoading (fst manifest_file) UnicodeEncodeError
  | Raise ex => GenerateRegistry.ErrorLoading (fst manifest_file) ex
  end.

(** The registry can be written: no string of its plugins holds a
    surrogate. *)
Definition writable (plugins : list GenerateRegistry.entry) : bool :=
  forallb GenerateRegistry.entry_writable plugins.



(** The registry document of a run at [utcnow] with the given plugins. *)
Definition registry_of (utcnow : pystr) (plugins : list GenerateRegistry.entry)
  : GenerateRegistry.registry :=
  {| GenerateRegistry.registry_version := py "1.0.0";
     GenerateRegistry.registry_updated := utcnow ++ py "Z";
     GenerateRegistry.registry_repository := GenerateRegistry.REPO_URL;
     GenerateRegistry.registry_plugins := plugins |}.

(** The release tag [<plugin_dir>-v<version>] of the download URL. *)
Definition release_tag (plugin_dir version : pystr) : pystr :=
  plugin_dir ++ py "-v" ++ version.

(** *** The validator *)

Definition count_dots (s : pystr) : nat := length (filter (N.eqb 46) s).

Definition is_missing_diagnostic (msg : pystr) : bool :=
  is_prefix (py "Missing required field: ") msg.
Definition is_description_diagnostic (msg : pystr) : bool :=
  is_prefix (py "Description is very ") msg.
Definition is_name_diagnostic (msg : pystr) : bool :=
  is_prefix (py "Plugin name is too short") msg.
Definition is_author_diagnostic (msg : pystr) : bool :=
  is_prefix (py "Author field should not contain email") msg.

(** The required fields the object lacks, in the order of [REQUIRED_FIELDS]. *)
Definition absent_fields (d : list (pystr * value)) : list pystr :=
  filter (fun field => negb (dict_has field d)) ValidatePlugins.REQUIRED_FIELDS.

(** The objects whose validation, when it returns, returns no error: the
    seven required fields are there, the id is a string with two dots or
    more, the category is one of the nine, and the name has a length of 3 or
    more. *)
Definition error_free (d : list (pystr * value)) : bool :=
  forallb (fun field => dict_has field d) ValidatePlugins.REQUIRED_FIELDS
  && match dict_lookup (py "id") d with
     | Some (VStr plugin_id) => 2 <=? count_dots plugin_id
     | _ => false
     end
  && match dict_lookup (py "category") d with
     | Some category => ValidatePlugins.valid_category category
     | None => false
     end
  && match dict_lookup (py "name") d with
     | Some name =>
         match py_len name with
         | Ok name_len => 3 <=? name_len
         | Raise _ => false
         end
     | None => false
     end.

(** The keys whose value a rule reads with [data[key]]. *)
Definition subscripted_keys : list pystr :=
  map py ["id"; "version"; "category"; "description"; "name"; "author"]%string.

(** [key in data] for a document that is a list or a string. *)
Definition mentions (data : value) (key : pystr) : bool :=
  match py_contains key data with
  | Ok present => present
  | Raise _ => false
  end.

(** An ASCII character that [int()] takes for neither a digit, a sign, an
    underscore nor white space. *)
Definition ascii_junk (c : N) : bool :=
  ((c <=? 127)
   && negb (((48 <=? c) && (c <=? 57)) || (c =? 43) || (c =? 45) || (c =? 95)
            || ((9 <=? c) && (c <=? 13)) || (c =? 32)))%N.

Definition is_digit (c : N) : bool := ((48 <=? c) && (c <=? 57))%N.

(** A non-empty run of ASCII digits, short enough for every digit limit. *)
Definition digits (s : pystr) : Prop :=
  s <> [] /\ forallb is_digit s = true /\ length s <= 640.

(** The exception that ends the loop of [main] at an entry of [plugins/],
    if one does: what the validation of the manifest raises, or what [print]
    raises on a message of the validation. *)
Definition raises_at (rt : runtime) (plugin_dir : dirent) : option exn :=
  match dirent_kind plugin_dir with
  | Directory (Some manifest_file) =>
      match ValidatePlugins.validate_plugin_manifest rt manifest_file with
      | Raise e => Some e
      | Ok (errors, warnings) =>
          if forallb (printable rt) errors && forallb (printable rt) warnings
          then None
          else Some UnicodeEncodeError
      end
  | _ => None
  end.

(** The exception of the first entry of [plugins/] at which the loop ends. *)
Fixpoint first_raise (rt : runtime) (plugins_dir : listing) : option exn :=
  match plugins_dir with
  | [] => None
  | plugin_dir :: rest =>
      match raises_at rt plugin_dir with
      | Some e => Some e
      | None => first_raise rt rest
      end
  end.

(** The entries of [plugins/] before that one. *)
Fixpoint before_raise (rt : runtime) (plugins_dir : listing) : listing :=
  match plugins_dir with
  | [] => []
  | plugin_dir :: rest =>
      match raises_at rt plugin_dir with
      | Some _ => []
      | None => plugin_dir :: before_raise rt rest
      end
  end.

(** What the entry at which the loop ends has left behind: the lines printed
    before the exception, and the errors added to [all_errors] (those of the
    plugin, when it is a warning that does not print). *)
Definition interrupted (rt : runtime) (plugin_dir : dirent)
  : list ValidatePlugins.line * list pystr :=
  match dirent_kind plugin_dir with
  | Directory (Some manifest_file) =>
      match ValidatePlugins.validate_plugin_manifest rt manifest_file with
      | Raise _ => ([], [])
      | Ok (errors, warnings) =>
          if forallb (printable rt) errors
          then ((if negb (Nat.eqb (length errors) 0)
                 then [ValidatePlugins.ErrorsOf (dirent_name plugin_dir) errors]
                 else [])
                ++ [ValidatePlugins.WarningsOf (dirent_name plugin_dir)
                      (ValidatePlugins.printed_before rt warnings)],
                errors)
          else ([ValidatePlugins.ErrorsOf (dirent_name plugin_dir)
                   (ValidatePlugins.printed_before rt errors)],
                [])
      end
  | _ => ([], [])
  end.

(** The same for the whole directory: nothing when the loop ends of
    itself. *)
Fixpoint at_raise (rt : runtime) (plugins_dir : listing)
  : list ValidatePlugins.line * list pystr :=
  match plugins_dir with
  | [] => ([], [])
  | plugin_dir :: rest =>
      match raises_at rt plugin_dir with
      | Some _ => interrupted rt plugin_dir
      | None => at_raise rt rest
      end
  end.



(** The lines [main] prints for one entry of [plugins/] whose validation
    returns. *)
Definition lines_of (rt : runtime) (plugin_dir : dirent) : list ValidatePlugins.line :=
  match dirent_kind plugin_dir with
  | PlainFile => []
  | Directory None => [ValidatePlugins.MissingManifest (dirent_name plugin_dir)]
  | Directory (Some _) =>
      ValidatePlugins.report (dirent_name plugin_dir)
        (fst (recorded rt plugin_dir)) (snd (recorded rt plugin_dir))
  end.

End Further.

(** ** Sample inputs of the further properties *)

Module Cases.
Import Py Files.

(** A manifest with a home page and requirements of its own. *)
Definition linked_manifest : list (pystr * value) :=
  [Samples.field "id" "com.acme.tool";
   Samples.field "name" "Tool";
   (py "links", VDict [Samples.field "homepage" "https://acme.example/tool"]);
   (py "requires",
    VDict [Samples.field "minNasVersion" "0.4.0";
           (py "docker", VBool true);
           (py "ports", VList [VInt 8080])])].

(** The entry the generator builds from it in [plugins/tool]. *)
Definition linked_entry : GenerateRegistry.entry :=
  {| GenerateRegistry.entry_id := VStr (py "com.acme.tool");
     GenerateRegistry.entry_name := VStr (py "Tool");
     GenerateRegistry.entry_version := VStr (py "1.0.0");
     GenerateRegistry.entry_author := VNone;
     GenerateRegistry.entry_description := VNone;
     GenerateRegistry.entry_icon := VStr [128268%N];
     GenerateRegistry.entry_category := VStr (py "utilities");
     GenerateRegistry.entry_repository_url :=
       py "https://github.com/Stumpf-works/stumpfworks-nas-apps/tree/main/plugins/tool";
     GenerateRegistry.entry_download_url :=
       py "https://github.com/Stumpf-works/stumpfworks-nas-apps/releases/download/tool-v1.0.0/tool-v1.0.0.tar.gz";
     GenerateRegistry.entry_homepage := VStr (py "https://acme.example/tool");
     GenerateRegistry.entry_min_nas_version := VStr (py "0.4.0");
     GenerateRegistry.entry_require_docker := VBool true;
     GenerateRegistry.entry_required_ports := VList [VInt 8080];
     GenerateRegistry.entry_screenshots := [];
     GenerateRegistry.entry_tags := [VStr (py "utilities")] |}.




(** A manifest with a name of two characters and nothing else. *)
Definition short_name : list (pystr * value) := [Samples.field "name" "ab"].

(** The valid manifest with links that are no object. *)
Definition acme_tool_with_links : list (pystr * value) :=
  Samples.acme_tool ++ [(py "links", VStr (py "https://acme.example"))].




(** A manifest whose document is a list. *)
Definition list_document : value := VList [VStr (py "icon"); VInt 1].

End Cases.

(** * Proofs *)

Import Py Files Statements Further.
Local Open Scope py_scope.

(** The literals of the source stay folded while a proof simplifies. *)
#[local] Arguments py : simpl never.

(** ** The result monad *)

Lemma bind_ok (A B : Type) (m : result A) (k : A -> result B) (b : B) :
  bind m k = Ok b -> exists a, m = Ok a /\ k a = Ok b.
Proof.
  destruct m as [a | e]; simpl; intros H.
  - exists a. split; [reflexivity | exact H].
  - discriminate H.
Qed.

(** ** The order of strings *)

Lemma str_eqb_eq (s t : pystr) : str_eqb s t = true <-> s = t.
Proof.
  revert t. induction s as [| a s IH]; intros [| b t]; simpl; split; intros H;
    try reflexivity; try discriminate.
  - apply andb_prop in H. destruct H as [Hab Hst].
    apply N.eqb_eq in Hab. apply IH in Hst. now subst.
  - injection H as -> ->. rewrite N.eqb_refl. simpl. now apply IH.
Qed.

Lemma str_eqb_refl (s : pystr) : str_eqb s s = true.
Proof. now apply str_eqb_eq. Qed.

Lemma str_compare_antisym (s t : pystr) :
  str_compare t s = CompOpp (str_compare s t).
Proof.
  revert t. induction s as [| a s IH]; intros [| b t]; simpl; try reflexivity.
  rewrite (N.compare_antisym a b).
  destruct (N.compare a b); simpl; try reflexivity. apply IH.
Qed.

Lemma str_compare_eq (s t : pystr) : str_compare s t = Eq -> s = t.
Proof.
  revert t. induction s as [| a s IH]; intros [| b t]; simpl; intros H;
    try reflexivity; try discriminate.
  destruct (N.compare a b) eqn:Hab; try discriminate.
  apply N.compare_eq in Hab. apply IH in H. now subst.
Qed.


Lemma str_compare_lt_trans (a b c : pystr) :
  str_compare a b = Lt -> str_compare b c = Lt -> str_compare a c = Lt.
Proof.
  revert b c. induction a as [| x a IH]; intros [| y b] [| z c]; simpl;
    intros Hab Hbc; try reflexivity; try discriminate.
  destruct (N.compare x y) eqn:Hxy; try discriminate.
  - apply N.compare_eq in Hxy. subst y.
    destruct (N.compare x z) eqn:Hxz; try discriminate; try reflexivity.
    now apply IH with b.
  - destruct (N.compare y z) eqn:Hyz; try discriminate.
    + apply N.compare_eq in Hyz. subst z. now rewrite Hxy.
    + rewrite N.compare_lt_iff in Hxy, Hyz.
      assert (Hxz : (x < z)%N) by lia.
      apply N.compare_lt_iff in Hxz. now rewrite Hxz.
Qed.

Lemma str_compare_le_trans (a b c : pystr) :
  str_compare a b <> Gt -> str_compare b c <> Gt -> str_compare a c <> Gt.
Proof.
  intros Hab Hbc.
  destruct (str_compare a b) eqn:Eab; try congruence.
  - apply str_compare_eq in Eab. now subst.
  - destruct (str_compare b c) eqn:Ebc; try congruence.
    + apply str_compare_eq in Ebc. subst. now rewrite Eab.
    + now rewrite (str_compare_lt_trans _ _ _ Eab Ebc).
Qed.

Lemma not_ltb_le (s t : pystr) : str_ltb s t = false -> str_compare t s <> Gt.
Proof.
  unfold str_ltb. rewrite (str_compare_antisym s t).
  destruct (str_compare s t); simpl; congruence.
Qed.

Lemma ltb_le (s t : pystr) : str_ltb s t = true -> str_compare s t <> Gt.
Proof.
  unfold str_ltb. destruct (str_compare s t); congruence.
Qed.

(** ** list.sort *)

Section SortFacts.
Import ListSort.
Variable A : Type.
Variable key : A -> value.

Lemma insert_permutation (x : A) (sorted sorted' : list A) :
  ListSort.insert key x sorted = Ok sorted' -> Permutation (x :: sorted) sorted'.
Proof.
  revert sorted'. induction sorted as [| y rest IH]; simpl; intros sorted' H.
  - injection H as <-. apply Permutation_refl.
  - apply bind_ok in H. destruct H as [less [_ H]].
    destruct less.
    + injection H as <-. apply Permutation_refl.
    + apply bind_ok in H. destruct H as [rest' [Hrest H]].
      injection H as <-.
      apply perm_trans with (y :: x :: rest); [apply perm_swap |].
      apply perm_skip. now apply IH.
Qed.

Lemma fold_step_raise (l : list A) (e : exn) :
  fold_left (step key) l (Raise e) = Raise e.
Proof. induction l as [| x l IH]; simpl; [reflexivity | exact IH]. Qed.

Lemma fold_step_permutation (l acc sorted : list A) :
  fold_left (step key) l (Ok acc) = Ok sorted -> Permutation (acc ++ l) sorted.
Proof.
  revert acc. induction l as [| x l IH]; simpl; intros acc H.
  - injection H as <-. rewrite app_nil_r. apply Permutation_refl.
  - destruct (ListSort.insert key x acc) as [acc' |] eqn:Hins.
    + apply IH in H. apply insert_permutation in Hins.
      apply perm_trans with (acc' ++ l); [| exact H].
      apply perm_trans with ((x :: acc) ++ l).
      * apply Permutation_sym. apply Permutation_middle.
      * now apply Permutation_app_tail.
    + rewrite fold_step_raise in H. discriminate H.
Qed.

(** A sort that returns has rearranged the list and nothing else. *)
Lemma sort_permutation (l sorted : list A) :
  ListSort.sort key l = Ok sorted -> Permutation l sorted.
Proof. intros H. now apply (fold_step_permutation l []) in H. Qed.

(** *** Keys that are strings *)

Lemma key_le_trans (x y z : A) : key_le key x y -> key_le key y z -> key_le key x z.
Proof.
  intros [s [t [Hx [Hy Hst]]]] [t' [u [Hy' [Hz Htu]]]].
  rewrite Hy in Hy'. injection Hy' as <-.
  exists s, u. repeat split; try assumption.
  now apply str_compare_le_trans with t.
Qed.

Lemma insert_sorted (x : A) (sorted : list A) :
  str_key key x -> Forall (str_key key) sorted -> StronglySorted (key_le key) sorted ->
  exists sorted',
    ListSort.insert key x sorted = Ok sorted' /\
    Forall (str_key key) sorted' /\
    StronglySorted (key_le key) sorted' /\
    (forall z, Forall (key_le key z) sorted -> key_le key z x -> Forall (key_le key z) sorted').
Proof.
  intros [s Hx]. induction sorted as [| y rest IH]; intros Hkeys Hsorted.
  - exists [x]. simpl. repeat split.
    + constructor; [now exists s | constructor].
    + constructor; constructor.
    + intros z _ Hz. now constructor.
  - inversion Hkeys as [| ? ? [t Hy] Hrest]; subst.
    inversion Hsorted as [| ? ? Hsorted' Hle]; subst.
    simpl. rewrite Hx, Hy. simpl.
    destruct (str_ltb s t) eqn:Hlt.
    + exists (x :: y :: rest). repeat split.
      * constructor; [now exists s | assumption].
      * constructor; [assumption |].
        assert (Hxy : key_le key x y).
        { exists s, t. repeat split; try assumption. now apply ltb_le. }
        constructor; [exact Hxy |].
        eapply Forall_impl; [| exact Hle].
        intros z Hyz. now apply key_le_trans with y.
      * intros z Hz Hzx. now constructor.
    + destruct (IH Hrest Hsorted') as [rest' [Hins [Hkeys' [Hsorted'' Hbound]]]].
      rewrite Hins. simpl. exists (y :: rest'). repeat split.
      * constructor; [now exists t | assumption].
      * constructor; [assumption |].
        apply Hbound; [assumption |].
        exists t, s. repeat split; try assumption. now apply not_ltb_le.
      * intros z Hz Hzx. inversion Hz; subst.
        constructor; [assumption |]. now apply Hbound.
Qed.

Lemma fold_step_sorted (l acc : list A) :
  Forall (str_key key) l -> Forall (str_key key) acc -> StronglySorted (key_le key) acc ->
  exists sorted,
    fold_left (step key) l (Ok acc) = Ok sorted /\ StronglySorted (key_le key) sorted.
Proof.
  revert acc. induction l as [| x l IH]; intros acc Hl Hacc Hsorted.
  - exists acc. split; [reflexivity | assumption].
  - inversion Hl as [| ? ? Hx Hl']; subst.
    destruct (insert_sorted Hx Hacc Hsorted) as [acc' [Hins [Hkeys [Hsorted' _]]]].
    simpl. rewrite Hins. now apply IH.
Qed.

(** Keys that are all strings never make the sort raise, and come out in
    ascending order. *)
Lemma sort_strings (l : list A) :
  Forall (str_key key) l ->
  exists sorted,
    ListSort.sort key l = Ok sorted /\
    StronglySorted (key_le key) sorted /\
    Permutation l sorted.
Proof.
  intros Hl.
  destruct (@fold_step_sorted l [] Hl (Forall_nil _) (SSorted_nil _))
    as [sorted [Hsort Hsorted]].
  exists sorted. repeat split; try assumption.
  now apply sort_permutation.
Qed.
(** *** Stability *)











End SortFacts.

(** ** The registry generator *)

Lemma py_get_dict (d : list (pystr * value)) (key : pystr) (default : value) :
  py_get (VDict d) key default = Ok (lookup_or key d default).
Proof. unfold py_get, lookup_or. now destruct (dict_lookup key d). Qed.

Lemma py_get_ok (c : value) (key : pystr) (default v : value) :
  py_get c key default = Ok v ->
  exists d, c = VDict d /\ v = lookup_or key d default.
Proof.
  destruct c; simpl; try discriminate. intros H. exists d.
  split; [reflexivity |]. unfold lookup_or.
  destruct (dict_lookup key d); congruence.
Qed.

(** Only a document that is an object loads. *)
Lemma load_needs_object (rt : runtime) (plugin_dir : pystr) (data : value)
    (e : GenerateRegistry.entry) :
  GenerateRegistry.load_plugin_manifest rt (plugin_dir, Document data) = Ok e ->
  exists d, data = VDict d.
Proof.
  unfold GenerateRegistry.load_plugin_manifest. cbn [read_manifest bind]. intros H.
  apply bind_ok in H. destruct H as [plugin_id [Hid _]].
  apply py_get_ok in Hid. destruct Hid as [d [-> _]]. now exists d.
Qed.

(** What an entry holds when its manifest has loaded. *)
Lemma load_document (rt : runtime) (plugin_dir : pystr) (d : list (pystr * value))
    (e : GenerateRegistry.entry) :
  GenerateRegistry.load_plugin_manifest rt (plugin_dir, Document (VDict d)) = Ok e ->
  let version := lookup_or (py "version") d (VStr (py "1.0.0")) in
  let category := lookup_or (py "category") d (VStr (py "utilities")) in
  GenerateRegistry.entry_name e = lookup_or (py "name") d VNone /\
  GenerateRegistry.entry_version e = version /\
  GenerateRegistry.entry_category e = category /\
  GenerateRegistry.entry_repository_url e = GenerateRegistry.repository_url_of plugin_dir /\
  GenerateRegistry.entry_download_url e
    = GenerateRegistry.download_url_of plugin_dir (py_str rt version) /\
  py_get (lookup_or (py "links") d (VDict [])) (py "homepage")
    (VStr (GenerateRegistry.repository_url_of plugin_dir))
    = Ok (GenerateRegistry.entry_homepage e) /\
  GenerateRegistry.entry_screenshots e = [] /\
  (if dict_has (py "tags") d
   then exists declared items,
       dict_lookup (py "tags") d = Some declared /\
       py_iter declared = Ok items /\
       GenerateRegistry.entry_tags e = category :: items
   else GenerateRegistry.entry_tags e = [category]).
Proof.
  unfold GenerateRegistry.load_plugin_manifest. cbn [read_manifest bind].
  rewrite !py_get_dict. cbn [bind py_contains]. intros H.
  apply bind_ok in H. destruct H as [homepage [Hhome H]].
  apply bind_ok in H. destruct H as [min_nas [_ H]].
  apply bind_ok in H. destruct H as [docker [_ H]].
  apply bind_ok in H. destruct H as [ports [_ H]].
  apply bind_ok in H. destruct H as [tags [Htags H]].
  injection H as <-. cbn.
  repeat split; try assumption.
  destruct (dict_has (py "tags") d) eqn:Hhas.
  - apply bind_ok in Htags. destruct Htags as [declared [Hget Htags]].
    apply bind_ok in Htags. destruct Htags as [items [Hiter Htags]].
    injection Htags as <-. exists declared, items. repeat split; try assumption.
    unfold py_getitem in Hget. destruct (dict_lookup (py "tags") d); congruence.
  - now injection Htags as <-.
Qed.

(** The entries the loop appends are those of the manifests that load, in
    the order of the directory. *)
Lemma load_all_fst (rt : runtime) (manifests : list GenerateRegistry.manifest_path) :
  fst (GenerateRegistry.load_all rt manifests)
    = flat_map
        (fun manifest_file =>
           match GenerateRegistry.load_plugin_manifest rt manifest_file with
           | Ok e => [e]
           | Raise _ => []
           end)
        manifests.
Proof.
  induction manifests as [| m rest IH]; cbn [GenerateRegistry.load_all flat_map];
    [reflexivity |].
  destruct (GenerateRegistry.load_all rt rest) as [plugins printed]. cbn [fst] in IH.
  unfold GenerateRegistry.load_one.
  destruct (GenerateRegistry.load_plugin_manifest rt m); cbn [fst app]; now rewrite IH.
Qed.

(** Every entry the loop has appended is the entry of a manifest that loaded. *)
Lemma load_all_in (rt : runtime) (manifests : list GenerateRegistry.manifest_path)
    (e : GenerateRegistry.entry) :
  In e (fst (GenerateRegistry.load_all rt manifests)) ->
  exists manifest_file,
    In manifest_file manifests /\
    GenerateRegistry.load_plugin_manifest rt manifest_file = Ok e.
Proof.
  rewrite load_all_fst, in_flat_map. intros [m [Hin He]]. exists m.
  split; [exact Hin |].
  destruct (GenerateRegistry.load_plugin_manifest rt m) as [entry |]; [| contradiction].
  destruct He as [<- | []]. reflexivity.
Qed.

(** Manifests that all load give one entry each, in the order of the
    directory. *)
Lemma load_all_valid (rt : runtime) (manifests : list GenerateRegistry.manifest_path) :
  Forall (valid_manifest rt) manifests ->
  Forall2
    (fun manifest_file e =>
       exists version,
         loads_as rt manifest_file version e /\
         has_template_urls (fst manifest_file) version e)
    manifests (fst (GenerateRegistry.load_all rt manifests)).
Proof.
  rewrite load_all_fst.
  induction 1 as [| m rest Hm Hrest IH]; cbn [flat_map]; [constructor |].
  destruct Hm as [version [e He]].
  assert (Hloads := He).
  destruct He as [d [name [Hdoc [Hname [Hversion Hload]]]]].
  rewrite Hload. cbn [app]. constructor; [| exact IH].
  exists version. split; [exact Hloads |].
  destruct m as [plugin_dir file]. simpl in Hdoc. subst file.
  apply load_document in Hload. cbv zeta in Hload.
  destruct Hload as [_ [_ [_ [Hrepo [Hdown _]]]]].
  unfold lookup_or in Hdown. rewrite Hversion in Hdown.
  split; [exact Hrepo | exact Hdown].
Qed.

(** The entries of such manifests have strings for names. *)
Lemma loaded_names_are_strings (rt : runtime)
    (manifests : list GenerateRegistry.manifest_path)
    (plugins : list GenerateRegistry.entry) :
  Forall2
    (fun manifest_file e =>
       exists version,
         loads_as rt manifest_file version e /\
         has_template_urls (fst manifest_file) version e)
    manifests plugins ->
  Forall (ListSort.str_key GenerateRegistry.entry_name) plugins.
Proof.
  induction 1 as [| m e ms es [version [He _]] _ IH]; constructor; [| exact IH].
  destruct He as [d [name [Hdoc [Hname [_ Hload]]]]].
  destruct m as [plugin_dir file]. simpl in Hdoc. subst file.
  apply load_document in Hload. destruct Hload as [Hn _].
  exists name. rewrite Hn. unfold lookup_or. now rewrite Hname.
Qed.

(** The lines of the loop, manifest after manifest. *)
Lemma load_all_snd (rt : runtime) (manifests : list GenerateRegistry.manifest_path) :
  snd (GenerateRegistry.load_all rt manifests) = map (line_of rt) manifests.
Proof.
  induction manifests as [| m rest IH]; cbn [GenerateRegistry.load_all map];
    [reflexivity |].
  destruct (GenerateRegistry.load_all rt rest) as [plugins printed]. cbn [snd] in IH.
  unfold line_of, GenerateRegistry.load_one.
  destruct (GenerateRegistry.load_plugin_manifest rt m); cbn [snd]; now rewrite IH.
Qed.

(** How a run unfolds, in terms of the entries loaded, the sort and the
    write. *)
Lemma generate_registry_unfold (rt : runtime) (plugins_dir : listing) (utcnow : pystr) :
  GenerateRegistry.generate_registry rt plugins_dir utcnow =
  match ListSort.sort GenerateRegistry.entry_name (loaded_entries rt plugins_dir) with
  | Raise e =>
      {| GenerateRegistry.stdout :=
           GenerateRegistry.Found
             (length (GenerateRegistry.find_plugin_manifests plugins_dir))
           :: map (line_of rt) (GenerateRegistry.find_plugin_manifests plugins_dir);
         GenerateRegistry.written := [];
         GenerateRegistry.returned := Raise e |}
  | Ok plugins =>
      if writable plugins
      then
        {| GenerateRegistry.stdout :=
             (GenerateRegistry.Found
                (length (GenerateRegistry.find_plugin_manifests plugins_dir))
              :: map (line_of rt) (GenerateRegistry.find_plugin_manifests plugins_dir))
             ++ [GenerateRegistry.Generated (length plugins)];
           GenerateRegistry.written := [registry_of utcnow plugins];
           GenerateRegistry.returned := Ok (registry_of utcnow plugins) |}
      else
        {| GenerateRegistry.stdout :=
             GenerateRegistry.Found
               (length (GenerateRegistry.find_plugin_manifests plugins_dir))
             :: map (line_of rt) (GenerateRegistry.find_plugin_manifests plugins_dir);
           GenerateRegistry.written := [];
           GenerateRegistry.returned := Raise UnicodeEncodeError |}
  end.
Proof.
  unfold GenerateRegistry.generate_registry, loaded_entries, writable, registry_of.
  rewrite <- (load_all_snd rt (GenerateRegistry.find_plugin_manifests plugins_dir)).
  destruct (GenerateRegistry.load_all rt (GenerateRegistry.find_plugin_manifests plugins_dir))
    as [plugins printed]. cbn [fst snd].
  destruct (ListSort.sort GenerateRegistry.entry_name plugins) as [sorted |];
    [| reflexivity].
  destruct (forallb GenerateRegistry.entry_writable sorted); reflexivity.
Qed.

(** *** What can be written *)

Lemma encodable_app (s t : pystr) : encodable (s ++ t) = encodable s && encodable t.
Proof. apply forallb_app. Qed.

Lemma value_writable_list (l : list value) :
  GenerateRegistry.value_writable (VList l) = forallb GenerateRegistry.value_writable l.
Proof.
  induction l as [| x l IH]; [reflexivity |].
  cbn [forallb]. rewrite <- IH. reflexivity.
Qed.

Lemma value_writable_dict (d : list (pystr * value)) :
  GenerateRegistry.value_writable (VDict d)
    = forallb (fun kv => encodable (fst kv) && GenerateRegistry.value_writable (snd kv)) d.
Proof.
  induction d as [| [k x] d IH]; [reflexivity |].
  cbn [forallb fst snd]. rewrite <- IH. reflexivity.
Qed.

Lemma lookup_writable (d : list (pystr * value)) (key : pystr) (v : value) :
  GenerateRegistry.value_writable (VDict d) = true ->
  dict_lookup key d = Some v -> GenerateRegistry.value_writable v = true.
Proof.
  rewrite value_writable_dict. induction d as [| [k x] d IH]; [discriminate 2 |].
  cbn [forallb fst snd dict_lookup]. intros H. apply andb_true_iff in H.
  destruct H as [Hx Hd]. apply andb_true_iff in Hx. destruct Hx as [_ Hx].
  destruct (str_eqb key k); [| now apply IH]. intros Hv. now injection Hv as <-.
Qed.

Lemma lookup_or_writable (d : list (pystr * value)) (key : pystr) (default : value) :
  GenerateRegistry.value_writable (VDict d) = true ->
  GenerateRegistry.value_writable default = true ->
  GenerateRegistry.value_writable (lookup_or key d default) = true.
Proof.
  intros Hd Hdefault. unfold lookup_or.
  destruct (dict_lookup key d) as [v |] eqn:Hv; [| exact Hdefault].
  exact (@lookup_writable d key v Hd Hv).
Qed.

Lemma py_get_writable (c : value) (key : pystr) (default v : value) :
  py_get c key default = Ok v ->
  GenerateRegistry.value_writable c = true ->
  GenerateRegistry.value_writable default = true ->
  GenerateRegistry.value_writable v = true.
Proof.
  intros Hget Hc Hdefault. apply py_get_ok in Hget. destruct Hget as [d [-> ->]].
  now apply lookup_or_writable.
Qed.

Lemma py_iter_writable (declared : value) (items : list value) :
  py_iter declared = Ok items ->
  GenerateRegistry.value_writable declared = true ->
  forallb GenerateRegistry.value_writable items = true.
Proof.
  destruct declared as [| b | z | f | s | l | d]; try discriminate 1;
    cbn [py_iter]; intros H; injection H as <-.
  - cbn [GenerateRegistry.value_writable]. unfold encodable.
    induction s as [| c s IH]; [reflexivity |].
    cbn [forallb map GenerateRegistry.value_writable encodable].
    intros H. apply andb_true_iff in H. destruct H as [Hc Hs].
    unfold encodable. cbn [forallb]. rewrite Hc. cbn [andb]. now apply IH.
  - now rewrite value_writable_list.
  - rewrite value_writable_dict. induction d as [| [k x] d IH]; [reflexivity |].
    cbn [forallb map fst snd GenerateRegistry.value_writable].
    intros H. apply andb_true_iff in H. destruct H as [Hk Hd].
    apply andb_true_iff in Hk. destruct Hk as [Hk _]. rewrite Hk. cbn [andb].
    now apply IH.
Qed.

(** An object without a surrogate in its strings, in a directory without
    one in its name, gives an entry that can be written, if its version is a
    string (the download URL shows the version as [str()] does). *)
Lemma load_writable (rt : runtime) (plugin_dir : pystr) (d : list (pystr * value))
    (version : pystr) (e : GenerateRegistry.entry) :
  GenerateRegistry.load_plugin_manifest rt (plugin_dir, Document (VDict d)) = Ok e ->
  dict_lookup (py "version") d = Some (VStr version) ->
  GenerateRegistry.value_writable (VDict d) = true ->
  encodable plugin_dir = true ->
  GenerateRegistry.entry_writable e = true.
Proof.
  intros Hload Hversion Hd Hdir.
  assert (Hv : encodable version = true)
    by exact (@lookup_writable d (py "version") (VStr version) Hd Hversion).
  unfold GenerateRegistry.load_plugin_manifest in Hload.
  cbn [read_manifest bind] in Hload. rewrite !py_get_dict in Hload.
  cbn [bind py_contains] in Hload.
  apply bind_ok in Hload. destruct Hload as [homepage [Hhome Hload]].
  apply bind_ok in Hload. destruct Hload as [min_nas [Hmin Hload]].
  apply bind_ok in Hload. destruct Hload as [docker [Hdocker Hload]].
  apply bind_ok in Hload. destruct Hload as [ports [Hports Hload]].
  apply bind_ok in Hload. destruct Hload as [tags [Htags Hload]].
  injection Hload as <-.
  assert (Hrepo : encodable (GenerateRegistry.repository_url_of plugin_dir) = true).
  { unfold GenerateRegistry.repository_url_of. rewrite !encodable_app, Hdir.
    reflexivity. }
  assert (Hlinks : GenerateRegistry.value_writable (lookup_or (py "links") d (VDict []))
                   = true) by now apply lookup_or_writable.
  assert (Hrequires : GenerateRegistry.value_writable
                        (lookup_or (py "requires") d (VDict [])) = true)
    by now apply lookup_or_writable.
  assert (Hcategory : GenerateRegistry.value_writable
                        (lookup_or (py "category") d (VStr (py "utilities"))) = true)
    by now apply lookup_or_writable.
  unfold GenerateRegistry.entry_writable.
  cbn [GenerateRegistry.entry_id GenerateRegistry.entry_name GenerateRegistry.entry_version
       GenerateRegistry.entry_author GenerateRegistry.entry_description
       GenerateRegistry.entry_icon GenerateRegistry.entry_category
       GenerateRegistry.entry_repository_url GenerateRegistry.entry_download_url
       GenerateRegistry.entry_homepage GenerateRegistry.entry_min_nas_version
       GenerateRegistry.entry_require_docker GenerateRegistry.entry_required_ports
       GenerateRegistry.entry_screenshots GenerateRegistry.entry_tags].
  rewrite !lookup_or_writable by (exact Hd || reflexivity).
  rewrite Hrepo.
  rewrite (@py_get_writable _ _ _ _ Hhome Hlinks Hrepo).
  rewrite (@py_get_writable _ _ _ _ Hmin Hrequires eq_refl).
  rewrite (@py_get_writable _ _ _ _ Hdocker Hrequires eq_refl).
  rewrite (@py_get_writable _ _ _ _ Hports Hrequires eq_refl).
  assert (Hdown : encodable
                    (GenerateRegistry.download_url_of plugin_dir
                       (py_str rt (lookup_or (py "version") d (VStr (py "1.0.0")))))
                  = true).
  { unfold lookup_or. rewrite Hversion. cbn [py_str].
    unfold GenerateRegistry.download_url_of. rewrite !encodable_app, Hdir, Hv.
    reflexivity. }
  rewrite Hdown.
  assert (Htagged : GenerateRegistry.value_writable (VList tags) = true).
  { rewrite value_writable_list.
    destruct (dict_has (py "tags") d) eqn:Hhas.
    - apply bind_ok in Htags. destruct Htags as [declared [Hget Htags]].
      apply bind_ok in Htags. destruct Htags as [items [Hiter Htags]].
      injection Htags as <-. cbn [forallb]. rewrite Hcategory. cbn [andb].
      apply (@py_iter_writable declared items Hiter). unfold py_getitem in Hget.
      destruct (dict_lookup (py "tags") d) as [v |] eqn:Hv'; [| discriminate Hget].
      injection Hget as <-. exact (@lookup_writable d (py "tags") v Hd Hv').
    - injection Htags as <-. cbn [forallb]. now rewrite Hcategory. }
  rewrite Htagged. reflexivity.
Qed.

(** *** The plugins of the directory *)

Lemma loaded_entries_cons (rt : runtime) (plugin_dir : dirent) (rest : listing) :
  loaded_entries rt (plugin_dir :: rest)
    = match dirent_kind plugin_dir with
      | Directory (Some file) =>
          match GenerateRegistry.load_plugin_manifest rt (dirent_name plugin_dir, file) with
          | Ok e => [e]
          | Raise _ => []
          end
      | _ => []
      end ++ loaded_entries rt rest.
Proof.
  unfold loaded_entries. rewrite !load_all_fst.
  unfold GenerateRegistry.find_plugin_manifests. cbn [flat_map]. rewrite flat_map_app.
  f_equal. destruct (dirent_kind plugin_dir) as [| [file |]]; try reflexivity.
  cbn [flat_map]. now rewrite app_nil_r.
Qed.

(** Valid plugins load, one entry each in the order of the directory, and
    their entries can be written. *)
Lemma valid_plugins_load (rt : runtime) (plugins_dir : listing) :
  Forall (fun plugin_dir => exists version e, valid_plugin rt plugin_dir version e)
    (plugin_dirs plugins_dir) ->
  Forall2
    (fun plugin_dir e =>
       exists version,
         valid_plugin rt plugin_dir version e /\
         has_template_urls (dirent_name plugin_dir) version e)
    (plugin_dirs plugins_dir) (loaded_entries rt plugins_dir) /\
  writable (loaded_entries rt plugins_dir) = true.
Proof.
  induction plugins_dir as [| plugin_dir rest IH]; [intros _; split; constructor |].
  rewrite loaded_entries_cons. unfold plugin_dirs. cbn [filter].
  fold (plugin_dirs rest). unfold is_plugin.
  destruct (dirent_kind plugin_dir) as [| [file |]] eqn:Hkind; try exact IH.
  intros Hvalid. inversion Hvalid as [| ? ? Hhead Hrest]; subst.
  destruct (IH Hrest) as [Hall Hwritable].
  destruct Hhead as [version [e Hplugin]]. assert (Hvalid_plugin := Hplugin).
  destruct Hplugin as [file' [Hkind' [Hloads [Hclean Hdir]]]].
  rewrite Hkind in Hkind'. injection Hkind' as <-.
  assert (Hloads' := Hloads).
  destruct Hloads as [d [name [Hdoc [Hname [Hversion Hload]]]]].
  cbn [snd] in Hdoc. subst file. rewrite Hload. cbn [app]. split.
  - constructor; [| exact Hall]. exists version. split.
    + exists (Document (VDict d)). rewrite Hkind. auto.
    + apply load_document in Hload. cbv zeta in Hload.
      destruct Hload as [_ [_ [_ [Hrepo [Hdown _]]]]].
      unfold lookup_or in Hdown. rewrite Hversion in Hdown.
      split; [exact Hrepo | exact Hdown].
  - unfold writable in *. cbn [forallb]. rewrite Hwritable.
    rewrite (@load_writable rt _ _ _ _ Hload Hversion Hclean Hdir). reflexivity.
Qed.

Lemma valid_plugin_names (rt : runtime) (plugin_dirs : listing)
    (plugins : list GenerateRegistry.entry) :
  Forall2
    (fun plugin_dir e =>
       exists version,
         valid_plugin rt plugin_dir version e /\
         has_template_urls (dirent_name plugin_dir) version e)
    plugin_dirs plugins ->
  Forall (ListSort.str_key GenerateRegistry.entry_name) plugins.
Proof.
  induction 1 as [| p e ps es [version [Hplugin _]] _ IH]; constructor; [| exact IH].
  destruct Hplugin as [file [_ [Hloads _]]].
  destruct Hloads as [d [name [Hdoc [Hname [_ Hload]]]]].
  cbn [snd] in Hdoc. subst file.
  apply load_document in Hload. destruct Hload as [Hn _].
  exists name. rewrite Hn. unfold lookup_or. now rewrite Hname.
Qed.

Lemma forallb_permutation (A : Type) (f : A -> bool) (l l' : list A) :
  Permutation l l' -> forallb f l = forallb f l'.
Proof.
  induction 1 as [| x l l' _ IH | x y l | l l' l'' _ IH1 _ IH2]; cbn [forallb].
  - reflexivity.
  - now rewrite IH.
  - now rewrite !andb_assoc, (andb_comm (f y)).
  - now rewrite IH1.
Qed.

(** C1: two plugin directories whose manifests are the empty object load,
    each with [None] for its name; the sort then compares the two names and
    the run ends with a [TypeError], before anything is written. *)
Theorem generate_registry_raises_on_missing_names (rt : runtime) (utcnow : pystr) :
  GenerateRegistry.generate_registry rt Samples.two_nameless_plugins utcnow =
  {| GenerateRegistry.stdout :=
       [GenerateRegistry.Found 2;
        GenerateRegistry.Loaded VNone (VStr (py "1.0.0"));
        GenerateRegistry.Loaded VNone (VStr (py "1.0.0"))];
     GenerateRegistry.written := [];
     GenerateRegistry.returned := Raise TypeError |}.
Proof. reflexivity. Qed.

(** C2, as the code has it: when every directory of [plugins/] that holds
    a [plugin.json] is a valid plugin (the manifest loads, its name and its
    version are strings, and no string of the manifest nor the name of the
    directory holds a surrogate), the run returns and writes one registry; its
    plugins are the entries of those directories, one each, rearranged into
    ascending order of name, and every entry carries the two template URLs
    for the name of its directory and its version. *)
Theorem generate_registry_of_valid_manifests (rt : runtime) (plugins_dir : listing)
    (utcnow : pystr) :
  Forall (fun plugin_dir => exists version e, valid_plugin rt plugin_dir version e)
    (plugin_dirs plugins_dir) ->
  exists registry entries,
    GenerateRegistry.returned (GenerateRegistry.generate_registry rt plugins_dir utcnow)
      = Ok registry /\
    GenerateRegistry.written (GenerateRegistry.generate_registry rt plugins_dir utcnow)
      = [registry] /\
    length (GenerateRegistry.registry_plugins registry)
      = length (plugin_dirs plugins_dir) /\
    StronglySorted name_le (GenerateRegistry.registry_plugins registry) /\
    Forall2
      (fun plugin_dir e =>
         exists version,
           valid_plugin rt plugin_dir version e /\
           has_template_urls (dirent_name plugin_dir) version e)
      (plugin_dirs plugins_dir) entries /\
    Permutation entries (GenerateRegistry.registry_plugins registry).
Proof.
  intros Hvalid. destruct (@valid_plugins_load rt plugins_dir Hvalid) as [Hall Hwritable].
  pose proof (valid_plugin_names Hall) as Hnames.
  destruct (sort_strings Hnames) as [sorted [Hsort [Hsorted Hperm]]].
  rewrite generate_registry_unfold, Hsort.
  unfold writable in *.
  rewrite <- (forallb_permutation GenerateRegistry.entry_writable Hperm), Hwritable.
  exists (registry_of utcnow sorted), (loaded_entries rt plugins_dir).
  cbn [GenerateRegistry.returned GenerateRegistry.written registry_of
       GenerateRegistry.registry_plugins].
  split; [reflexivity |]. split; [reflexivity |]. repeat split.
  - rewrite <- (Permutation_length Hperm). symmetry. exact (Forall2_length Hall).
  - exact Hsorted.
  - exact Hall.
  - exact Hperm.
Qed.

(** C6: two runs over the same plugins directory print the same lines and
    either both end with the same exception, nothing written, or both write
    one registry, and the two registries agree on the version, the repository
    and the plugins: only the timestamp can differ. *)
Theorem generate_registry_twice (rt : runtime) (plugins_dir : listing)
    (first second : pystr) :
  same_but_updated
    (GenerateRegistry.generate_registry rt plugins_dir first)
    (GenerateRegistry.generate_registry rt plugins_dir second).
Proof.
  unfold same_but_updated, GenerateRegistry.generate_registry.
  destruct (GenerateRegistry.load_all rt (GenerateRegistry.find_plugin_manifests plugins_dir))
    as [plugins printed].
  destruct (ListSort.sort GenerateRegistry.entry_name plugins) as [sorted | e]; simpl.
  - destruct (forallb GenerateRegistry.entry_writable sorted); simpl; repeat split.
  - repeat split.
Qed.

(** C7: every entry of a registry the run returns was built from the
    manifest of one of the plugin directories; its screenshots are the empty
    list, and its tags are the category (the manifest's, or the default)
    followed by what the manifest declares as tags, in order. *)
Theorem registry_entry_screenshots_and_tags (rt : runtime) (plugins_dir : listing)
    (utcnow : pystr) (registry : GenerateRegistry.registry)
    (e : GenerateRegistry.entry) :
  GenerateRegistry.returned (GenerateRegistry.generate_registry rt plugins_dir utcnow)
    = Ok registry ->
  In e (GenerateRegistry.registry_plugins registry) ->
  GenerateRegistry.entry_screenshots e = [] /\
  exists plugin_dir d,
    In (plugin_dir, Document (VDict d)) (GenerateRegistry.find_plugin_manifests plugins_dir) /\
    GenerateRegistry.load_plugin_manifest rt (plugin_dir, Document (VDict d)) = Ok e /\
    tags_follow_category d e /\
    (forall declared,
        dict_lookup (py "tags") d = Some (VList declared) ->
        GenerateRegistry.entry_tags e = GenerateRegistry.entry_category e :: declared).
Proof.
  unfold GenerateRegistry.generate_registry.
  destruct (GenerateRegistry.load_all rt (GenerateRegistry.find_plugin_manifests plugins_dir))
    as [plugins printed] eqn:Hall.
  destruct (ListSort.sort GenerateRegistry.entry_name plugins) as [sorted | ex] eqn:Hsort;
    simpl; [| discriminate].
  destruct (forallb GenerateRegistry.entry_writable sorted); simpl; [| discriminate].
  intros Hreg Hin. injection Hreg as <-. simpl in Hin.
  apply sort_permutation in Hsort.
  apply (Permutation_in _ (Permutation_sym Hsort)) in Hin.
  assert (Hin' : In e (fst (GenerateRegistry.load_all rt
                              (GenerateRegistry.find_plugin_manifests plugins_dir)))).
  { now rewrite Hall. }
  apply load_all_in in Hin'. destruct Hin' as [[plugin_dir file] [Hm Hload]].
  destruct file as [msg | msg | data]; try discriminate Hload.
  destruct (load_needs_object _ _ _ Hload) as [d ->].
  pose proof (load_document _ _ _ Hload) as Hfields. cbv zeta in Hfields.
  destruct Hfields as [_ [_ [Hcat [_ [_ [_ [Hshots Htags]]]]]]].
  split; [exact Hshots |].
  exists plugin_dir, d. split; [exact Hm |]. split; [exact Hload |].
  unfold tags_follow_category, dict_has in *. rewrite Hcat.
  destruct (dict_lookup (py "tags") d) as [declared |].
  - destruct Htags as [declared' [items [Hd [Hiter Htags]]]].
    injection Hd as <-. split.
    + split; [reflexivity |]. exists items. auto.
    + intros l Hl. injection Hl as ->. simpl in Hiter. injection Hiter as <-.
      exact Htags.
  - split; [split; [reflexivity | exact Htags] |]. intros l Hl. discriminate Hl.
Qed.

(** C8: an entry built from a manifest without a [version] has the string
    "1.0.0" for its version, and "1.0.0" stands in both places of the
    download URL. *)
Theorem load_plugin_manifest_default_version (rt : runtime) (plugin_dir : pystr)
    (d : list (pystr * value)) (e : GenerateRegistry.entry) :
  dict_lookup (py "version") d = None ->
  GenerateRegistry.load_plugin_manifest rt (plugin_dir, Document (VDict d)) = Ok e ->
  GenerateRegistry.entry_version e = VStr (py "1.0.0") /\
  GenerateRegistry.entry_download_url e
    = GenerateRegistry.REPO_URL ++ py "/releases/download/"
        ++ plugin_dir ++ py "-v" ++ py "1.0.0" ++ py "/"
        ++ plugin_dir ++ py "-v" ++ py "1.0.0" ++ py ".tar.gz".
Proof.
  intros Hversion Hload. apply load_document in Hload. cbv zeta in Hload.
  destruct Hload as [_ [Hv [_ [_ [Hdown _]]]]].
  unfold lookup_or in Hv, Hdown. rewrite Hversion in Hv, Hdown.
  split; [exact Hv | exact Hdown].
Qed.

(** C9: an entry built from a manifest without [links], or whose [links]
    object has no [homepage], has the repository URL of its plugin directory
    for its homepage. *)
Theorem load_plugin_manifest_default_homepage (rt : runtime) (plugin_dir : pystr)
    (d : list (pystr * value)) (e : GenerateRegistry.entry) :
  dict_lookup (py "links") d = None \/
  (exists links,
      dict_lookup (py "links") d = Some (VDict links) /\
      dict_lookup (py "homepage") links = None) ->
  GenerateRegistry.load_plugin_manifest rt (plugin_dir, Document (VDict d)) = Ok e ->
  GenerateRegistry.entry_repository_url e
    = GenerateRegistry.REPO_URL ++ py "/tree/main/plugins/" ++ plugin_dir /\
  GenerateRegistry.entry_homepage e = VStr (GenerateRegistry.entry_repository_url e).
Proof.
  intros Hlinks Hload. apply load_document in Hload. cbv zeta in Hload.
  destruct Hload as [_ [_ [_ [Hrepo [_ [Hhome _]]]]]].
  split; [exact Hrepo |]. rewrite Hrepo.
  unfold lookup_or in Hhome.
  destruct Hlinks as [Hnone | [links [Hsome Hnone]]].
  - rewrite Hnone in Hhome. simpl in Hhome. now injection Hhome as <-.
  - rewrite Hsome in Hhome. simpl in Hhome. rewrite Hnone in Hhome.
    now injection Hhome as <-.
Qed.

(** ** The validator *)

Lemma check_required_dict (fields : list pystr) (d : list (pystr * value))
    (errors : list pystr) :
  ValidatePlugins.check_required fields (VDict d) errors =
  Ok (errors ++ map ValidatePlugins.missing_field_error
                  (filter (fun field => negb (dict_has field d)) fields)).
Proof.
  revert errors. induction fields as [| field rest IH]; intros errors; simpl.
  - now rewrite app_nil_r.
  - rewrite IH. destruct (dict_has field d); simpl; [reflexivity |].
    now rewrite <- app_assoc.
Qed.

Lemma when_present_dict (key : pystr) (d : list (pystr * value)) (lst : list pystr)
    (f : value -> result (list pystr)) :
  ValidatePlugins.when_present key (VDict d) lst f =
  match dict_lookup key d with
  | Some v => f v
  | None => Ok lst
  end.
Proof.
  unfold ValidatePlugins.when_present, dict_has. simpl.
  unfold dict_has. destruct (dict_lookup key d); reflexivity.
Qed.

(** A rule that appends to a list adds its own messages behind it. *)
Lemma rule_appends (d : list (pystr * value)) (key : pystr) (lst : list pystr)
    (f g : value -> result (list pystr)) :
  (forall v, f v = (added <- g v ;; Ok (lst ++ added))) ->
  ValidatePlugins.when_present key (VDict d) lst f =
  (added <- rule d key g ;; Ok (lst ++ added)).
Proof.
  intros Hf. rewrite when_present_dict. unfold rule.
  destruct (dict_lookup key d) as [v |]; [apply Hf |].
  simpl. now rewrite app_nil_r.
Qed.

(** The rules one after the other: the errors are the missing fields, then
    what the id, category and name rules add; the warnings what the version,
    description and author rules add. *)
Lemma validate_document_rules (rt : runtime) (d : list (pystr * value)) :
  ValidatePlugins.validate_document rt (VDict d) =
  (from_id <- id_errors rt d ;;
   from_version <- version_warnings rt d ;;
   from_description <- description_warnings d ;;
   from_name <- name_errors d ;;
   from_author <- author_warnings d ;;
   Ok (missing_errors d ++ from_id ++ category_errors rt d ++ from_name,
       from_version ++ from_description ++ from_author)).
Proof.
  unfold ValidatePlugins.validate_document.
  rewrite check_required_dict. cbn [bind app].
  fold (missing_errors d).
  rewrite (@rule_appends d (py "id") (missing_errors d) _
             (fun plugin_id =>
                ok <- ValidatePlugins.validate_plugin_id plugin_id ;;
                Ok (if ok then [] else [ValidatePlugins.id_format_error rt plugin_id]))).
  2: { intros v. destruct (ValidatePlugins.validate_plugin_id v) as [[|] |]; simpl;
       try reflexivity. now rewrite app_nil_r. }
  fold (id_errors rt d). destruct (id_errors rt d) as [from_id |]; [| reflexivity].
  cbn [bind].
  rewrite (@rule_appends d (py "version") [] _
             (fun version =>
                ok <- ValidatePlugins.validate_semver rt version ;;
                Ok (if ok then [] else [ValidatePlugins.version_warning rt version]))).
  2: { intros v. destruct (ValidatePlugins.validate_semver rt v) as [[|] |];
       reflexivity. }
  fold (version_warnings rt d).
  destruct (version_warnings rt d) as [from_version |]; [| reflexivity].
  cbn [bind app].
  rewrite (@rule_appends d (py "category") (missing_errors d ++ from_id) _
             (fun category =>
                Ok (if ValidatePlugins.valid_category category then []
                    else [ValidatePlugins.category_error rt category]))).
  2: { intros v. destruct (ValidatePlugins.valid_category v); simpl;
       try reflexivity. now rewrite app_nil_r. }
  replace (rule d (py "category")
             (fun category =>
                Ok (if ValidatePlugins.valid_category category then []
                    else [ValidatePlugins.category_error rt category])))
    with (Ok (A := list pystr) (category_errors rt d)).
  2: { unfold rule, category_errors. destruct (dict_lookup (py "category") d); reflexivity. }
  cbn [bind].
  rewrite (@rule_appends d (py "description") from_version _
             (fun description =>
                desc_len <- py_len description ;;
                Ok (if desc_len <? 20
                    then [ValidatePlugins.short_description_warning desc_len]
                    else if 200 <? desc_len
                         then [ValidatePlugins.long_description_warning desc_len]
                         else []))).
  2: { intros v. destruct (py_len v) as [n |]; simpl; [| reflexivity].
       destruct (n <? 20); [reflexivity |].
       destruct (200 <? n); [reflexivity |]. now rewrite app_nil_r. }
  fold (description_warnings d).
  destruct (description_warnings d) as [from_description |]; [| reflexivity].
  cbn [bind].
  rewrite (@rule_appends d (py "name")
             ((missing_errors d ++ from_id) ++ category_errors rt d) _
             (fun name =>
                name_len <- py_len name ;;
                Ok (if name_len <? 3 then [ValidatePlugins.name_error] else []))).
  2: { intros v. destruct (py_len v) as [n |]; simpl; [| reflexivity].
       destruct (n <? 3); [reflexivity |]. now rewrite app_nil_r. }
  fold (name_errors d). destruct (name_errors d) as [from_name |]; [| reflexivity].
  cbn [bind].
  rewrite (@rule_appends d (py "author") (from_version ++ from_description) _
             (fun author =>
                has_at <- py_contains (py "@") author ;;
                Ok (if has_at then [ValidatePlugins.author_warning] else []))).
  2: { intros v. destruct (py_contains (py "@") v) as [[|] |]; simpl;
       try reflexivity. now rewrite app_nil_r. }
  fold (author_warnings d). destruct (author_warnings d) as [from_author |];
    [| reflexivity].
  cbn [bind]. now rewrite <- !app_assoc.
Qed.

(** *** When the rules return *)

Lemma rule_returns (d : list (pystr * value)) (key : pystr)
    (f : value -> result (list pystr)) (ok : value -> bool) :
  (forall v, ok v = true <-> exists added, f v = Ok added) ->
  field_ok d key ok = true <-> exists added, rule d key f = Ok added.
Proof.
  intros Hf. unfold field_ok, rule. destruct (dict_lookup key d) as [v |].
  - apply Hf.
  - split; [intros _; now exists [] | reflexivity].
Qed.

Lemma id_errors_return (rt : runtime) (d : list (pystr * value)) :
  field_ok d (py "id") (fun v => negb (truthy v) || is_str v) = true <->
  exists added, id_errors rt d = Ok added.
Proof.
  apply rule_returns. intros v. unfold ValidatePlugins.validate_plugin_id.
  destruct v as [| b | z | f | s | l | m]; simpl;
    try (split; [intros _; eexists; reflexivity | reflexivity]).
  - destruct b; simpl; split; try discriminate; try (intros [added H]; discriminate H);
      try reflexivity; intros _; eexists; reflexivity.
  - destruct (z =? 0)%Z; simpl; split; try discriminate;
      try (intros [added H]; discriminate H); try reflexivity;
      intros _; eexists; reflexivity.
  - destruct f; simpl; split; try discriminate;
      try (intros [added H]; discriminate H); try reflexivity;
      intros _; eexists; reflexivity.
  - destruct s; simpl; split; intros _; try reflexivity; eexists; reflexivity.
  - destruct l; simpl; split; try discriminate;
      try (intros [added H]; discriminate H); try reflexivity;
      intros _; eexists; reflexivity.
  - destruct m; simpl; split; try discriminate;
      try (intros [added H]; discriminate H); try reflexivity;
      intros _; eexists; reflexivity.
Qed.

Lemma version_warnings_return (rt : runtime) (d : list (pystr * value)) :
  field_ok d (py "version") is_str = true <->
  exists added, version_warnings rt d = Ok added.
Proof.
  apply rule_returns. intros v. unfold ValidatePlugins.validate_semver.
  destruct v; simpl; split; try discriminate;
    try (intros [added H]; discriminate H); try reflexivity.
  intros _. destruct (length (split_on 46 s) <? 3); simpl; eexists; reflexivity.
Qed.

Lemma description_warnings_return (d : list (pystr * value)) :
  field_ok d (py "description") is_sized = true <->
  exists added, description_warnings d = Ok added.
Proof.
  apply rule_returns. intros v.
  destruct v; simpl; split; try discriminate;
    try (intros [added H]; discriminate H); try reflexivity;
    intros _; eexists; reflexivity.
Qed.

Lemma name_errors_return (d : list (pystr * value)) :
  field_ok d (py "name") is_sized = true <->
  exists added, name_errors d = Ok added.
Proof.
  apply rule_returns. intros v.
  destruct v; simpl; split; try discriminate;
    try (intros [added H]; discriminate H); try reflexivity;
    intros _; eexists; reflexivity.
Qed.

Lemma author_warnings_return (d : list (pystr * value)) :
  field_ok d (py "author") is_sized = true <->
  exists added, author_warnings d = Ok added.
Proof.
  apply rule_returns. intros v.
  destruct v; simpl; split; try discriminate;
    try (intros [added H]; discriminate H); try reflexivity;
    intros _; eexists; reflexivity.
Qed.

(** Validation of an object returns exactly when every field a rule reads
    has a type the rule accepts. *)
Lemma validate_document_returns (rt : runtime) (d : list (pystr * value)) :
  checkable d = true <->
  exists errors warnings,
    ValidatePlugins.validate_document rt (VDict d) = Ok (errors, warnings).
Proof.
  rewrite validate_document_rules. unfold checkable.
  rewrite !andb_true_iff.
  rewrite (id_errors_return rt), (version_warnings_return rt),
    description_warnings_return, name_errors_return, author_warnings_return.
  split.
  - intros [[[[[a Ha] [b Hb]] [c Hc]] [e He]] [f Hf]].
    rewrite Ha, Hb, Hc, He, Hf. simpl. eexists. eexists. reflexivity.
  - intros [errors [warnings H]]. invert_binds.
    repeat split; eexists; reflexivity.
Qed.

(** Fields that are strings are fields the rules accept. *)
Lemma string_fields_checkable (d : list (pystr * value)) :
  string_fields d -> checkable d = true.
Proof.
  intros H. unfold checkable, field_ok. rewrite !andb_true_iff.
  assert (Hstr : forall key,
             In key (map py ["id"; "version"; "description"; "name"; "author"]%string) ->
             forall ok : value -> bool,
               (forall v, is_str v = true -> ok v = true) ->
               match dict_lookup key d with Some v => ok v | None => true end = true).
  { intros key Hkey ok Hok. destruct (dict_lookup key d) as [v |] eqn:Hv;
      [| reflexivity]. apply Hok. now apply (H key). }
  repeat split; apply Hstr; simpl; auto 10;
    intros [] Hv; try discriminate Hv; try reflexivity.
  simpl. apply orb_true_r.
Qed.

(** *** The version rule *)

Lemma parses_as_int_true (rt : runtime) (part : pystr) :
  ValidatePlugins.parses_as_int rt part = true <-> py_int rt part <> None.
Proof.
  unfold ValidatePlugins.parses_as_int. destruct (py_int rt part); split;
    congruence.
Qed.

(** [validate_semver] returns on every string, and returns [True] exactly for
    the strings with at least three pieces whose first three [int()] accepts. *)
Lemma validate_semver_str (rt : runtime) (version : pystr) :
  exists ok,
    ValidatePlugins.validate_semver rt (VStr version) = Ok ok /\
    (ok = true <-> int_triplet_prefix rt version).
Proof.
  unfold ValidatePlugins.validate_semver, int_triplet_prefix. simpl.
  destruct (split_on 46 version) as [| a [| b [| c rest]]]; simpl.
  - exists false. split; [reflexivity |]. split; [discriminate |].
    intros [a [b [c [rest [H _]]]]]. discriminate H.
  - exists false. split; [reflexivity |]. split; [discriminate |].
    intros [a' [b [c [rest [H _]]]]]. discriminate H.
  - exists false. split; [reflexivity |]. split; [discriminate |].
    intros [a' [b' [c [rest [H _]]]]]. discriminate H.
  - eexists. split; [reflexivity |].
    rewrite !andb_true_iff, !parses_as_int_true. split.
    + intros [Ha [Hb [Hc _]]]. exists a, b, c, rest. auto.
    + intros [a' [b' [c' [rest' [H [Ha [Hb Hc]]]]]]].
      injection H as <- <- <- <-. auto.
Qed.

(** *** Which rule a message comes from *)

Lemma filter_none (P : pystr -> bool) (l : list pystr) :
  Forall (fun msg => P msg = false) l -> filter P l = [].
Proof.
  induction 1 as [| msg l Hmsg _ IH]; simpl; [reflexivity |]. now rewrite Hmsg.
Qed.

Lemma missing_errors_unrelated (d : list (pystr * value)) :
  Forall unrelated (missing_errors d).
Proof.
  unfold missing_errors.
  induction (filter (fun field => negb (dict_has field d)) ValidatePlugins.REQUIRED_FIELDS)
    as [| field rest IH]; simpl; constructor; [| exact IH].
  split; reflexivity.
Qed.

Lemma rule_unrelated (d : list (pystr * value)) (key : pystr)
    (f : value -> result (list pystr)) (added : list pystr) :
  (forall v l, f v = Ok l -> Forall unrelated l) ->
  rule d key f = Ok added -> Forall unrelated added.
Proof.
  intros Hf. unfold rule. destruct (dict_lookup key d) as [v |].
  - apply Hf.
  - intros H. injection H as <-. constructor.
Qed.

Lemma id_errors_unrelated (rt : runtime) (d : list (pystr * value))
    (added : list pystr) :
  id_errors rt d = Ok added -> Forall unrelated added.
Proof.
  apply rule_unrelated. intros v l H. invert_binds. subst l.
  destruct a; repeat constructor.
Qed.

Lemma description_warnings_unrelated (d : list (pystr * value)) (added : list pystr) :
  description_warnings d = Ok added -> Forall unrelated added.
Proof.
  apply rule_unrelated. intros v l H. invert_binds. subst l.
  destruct (a <? 20); [repeat constructor |].
  destruct (200 <? a); repeat constructor.
Qed.

Lemma name_errors_unrelated (d : list (pystr * value)) (added : list pystr) :
  name_errors d = Ok added -> Forall unrelated added.
Proof.
  apply rule_unrelated. intros v l H. invert_binds. subst l.
  destruct (a <? 3); repeat constructor.
Qed.

Lemma author_warnings_unrelated (d : list (pystr * value)) (added : list pystr) :
  author_warnings d = Ok added -> Forall unrelated added.
Proof.
  apply rule_unrelated. intros v l H. invert_binds. subst l.
  destruct a; repeat constructor.
Qed.

Lemma unrelated_version (l : list pystr) :
  Forall unrelated l -> filter is_version_diagnostic l = [].
Proof.
  intros H. apply filter_none. eapply Forall_impl; [| exact H].
  now intros msg [Hv _].
Qed.

Lemma unrelated_category (l : list pystr) :
  Forall unrelated l -> filter is_category_diagnostic l = [].
Proof.
  intros H. apply filter_none. eapply Forall_impl; [| exact H].
  now intros msg [_ Hc].
Qed.

Lemma category_errors_version (rt : runtime) (d : list (pystr * value)) :
  filter is_version_diagnostic (category_errors rt d) = [].
Proof.
  unfold category_errors. destruct (dict_lookup (py "category") d) as [c |];
    [| reflexivity].
  destruct (ValidatePlugins.valid_category c); reflexivity.
Qed.

Lemma version_warnings_category (rt : runtime) (d : list (pystr * value))
    (added : list pystr) :
  version_warnings rt d = Ok added -> filter is_category_diagnostic added = [].
Proof.
  unfold version_warnings, rule. destruct (dict_lookup (py "version") d) as [v |].
  - intros H. invert_binds. subst added. destruct a; reflexivity.
  - intros H. now injection H as <-.
Qed.

(** *** The loop of main *)

(** The loop, entry by entry: the entries before the one at which an
    exception ends it are printed and recorded in full, that one in part. *)
Lemma main_loop_outcome (rt : runtime) (plugins_dir : listing)
    (t : ValidatePlugins.tally) :
  ValidatePlugins.main_loop rt plugins_dir t =
  ({| ValidatePlugins.stdout :=
        ValidatePlugins.stdout t
          ++ flat_map (lines_of rt) (before_raise rt plugins_dir)
          ++ fst (at_raise rt plugins_dir);
      ValidatePlugins.all_errors :=
        ValidatePlugins.all_errors t
          ++ flat_map (fun entry => fst (recorded rt entry)) (before_raise rt plugins_dir)
          ++ snd (at_raise rt plugins_dir);
      ValidatePlugins.all_warnings :=
        ValidatePlugins.all_warnings t
          ++ flat_map (fun entry => snd (recorded rt entry)) (before_raise rt plugins_dir) |},
   first_raise rt plugins_dir).
Proof.
  revert t. induction plugins_dir as [| entry rest IH]; intros t.
  - destruct t. cbn. now rewrite !app_nil_r.
  - cbn [ValidatePlugins.main_loop before_raise first_raise at_raise].
    unfold raises_at, interrupted.
    destruct (dirent_kind entry) as [| [file |]] eqn:Hkind.
    + assert (Hrec : recorded rt entry = ([], []))
        by (unfold recorded; now rewrite Hkind).
      assert (Hlines : lines_of rt entry = [])
        by (unfold lines_of; now rewrite Hkind).
      rewrite IH. cbn [flat_map]. rewrite Hrec, Hlines. reflexivity.
    + destruct (ValidatePlugins.validate_plugin_manifest rt file)
        as [[errors warnings] | e] eqn:Hv.
      * assert (Hrec : recorded rt entry = (errors, warnings))
          by (unfold recorded; now rewrite Hkind, Hv).
        assert (Hlines : lines_of rt entry
                         = ValidatePlugins.report (dirent_name entry) errors warnings)
          by (unfold lines_of; now rewrite Hkind, Hrec).
        destruct (forallb (printable rt) errors); cbn [negb andb].
        -- destruct (forallb (printable rt) warnings); cbn [negb].
           ++ rewrite IH. cbn [flat_map ValidatePlugins.stdout ValidatePlugins.all_errors
                                 ValidatePlugins.all_warnings].
              rewrite Hrec, Hlines. cbn [fst snd]. now rewrite <- !app_assoc.
           ++ cbn [flat_map fst snd app]. now rewrite !app_nil_r.
        -- cbn [flat_map fst snd app]. now rewrite !app_nil_r.
      * destruct t. cbn. now rewrite !app_nil_r.
    + assert (Hrec : recorded rt entry
                     = ([], [dirent_name entry ++ py ": Missing plugin.json"]))
        by (unfold recorded; now rewrite Hkind).
      assert (Hlines : lines_of rt entry
                       = [ValidatePlugins.MissingManifest (dirent_name entry)])
        by (unfold lines_of; now rewrite Hkind).
      rewrite IH. cbn [flat_map ValidatePlugins.stdout ValidatePlugins.all_errors
                         ValidatePlugins.all_warnings].
      rewrite Hrec, Hlines. cbn [fst snd app]. now rewrite <- !app_assoc.
Qed.

(** The loop comes to its end when every validation returns what [print]
    takes, and only then. *)
Lemma first_raise_none (rt : runtime) (plugins_dir : listing) :
  first_raise rt plugins_dir = None <->
  validations_return rt plugins_dir /\ diagnostics_print rt plugins_dir.
Proof.
  induction plugins_dir as [| entry rest IH]; cbn [first_raise].
  - split; [intros _; split; [intros p m [] | intros p m errors warnings []]
           | reflexivity].
  - unfold raises_at. split.
    + intros H.
      assert (Hrest : first_raise rt rest = None).
      { destruct (dirent_kind entry) as [| [file |]]; try exact H.
        destruct (ValidatePlugins.validate_plugin_manifest rt file) as [[errors warnings] |];
          [| discriminate H].
        destruct (forallb (printable rt) errors && forallb (printable rt) warnings);
          [exact H | discriminate H]. }
      apply IH in Hrest. destruct Hrest as [Hret Hprint]. split.
      * intros p m [<- | Hin] Hkind; [| now apply (Hret p m)].
        rewrite Hkind in H.
        destruct (ValidatePlugins.validate_plugin_manifest rt m) as [diagnostics |];
          [now exists diagnostics | discriminate H].
      * intros p m errors warnings [<- | Hin] Hkind Hv;
          [| now apply (Hprint p m errors warnings)].
        rewrite Hkind, Hv in H.
        destruct (forallb (printable rt) errors && forallb (printable rt) warnings)
          eqn:Hboth; [| discriminate H].
        now apply andb_true_iff in Hboth.
    + intros [Hret Hprint].
      assert (Hrest : first_raise rt rest = None).
      { apply IH. split.
        - intros p m Hin. apply Hret. now right.
        - intros p m errors warnings Hin. apply Hprint. now right. }
      destruct (dirent_kind entry) as [| [file |]] eqn:Hkind; try exact Hrest.
      destruct (Hret entry file (or_introl eq_refl) Hkind) as [[errors warnings] Hv].
      rewrite Hv.
      destruct (Hprint entry file errors warnings (or_introl eq_refl) Hkind Hv)
        as [-> ->].
      exact Hrest.
Qed.

Lemma before_raise_all (rt : runtime) (plugins_dir : listing) :
  first_raise rt plugins_dir = None ->
  before_raise rt plugins_dir = plugins_dir /\ at_raise rt plugins_dir = ([], []).
Proof.
  induction plugins_dir as [| entry rest IH]; [now split |].
  cbn [first_raise before_raise at_raise].
  destruct (raises_at rt entry); [discriminate |].
  intros H. destruct (IH H) as [-> ->]. now split.
Qed.

(** A run in which every validation returns what [print] takes: every entry
    is reported and recorded, then the summary, then [sys.exit] with 1 when
    [all_errors] is not empty, with 0 otherwise. *)
Lemma main_completes (rt : runtime) (plugins_dir : listing) :
  validations_return rt plugins_dir -> diagnostics_print rt plugins_dir ->
  ValidatePlugins.main rt plugins_dir =
  {| ValidatePlugins.final :=
       {| ValidatePlugins.stdout :=
            (ValidatePlugins.Validating :: flat_map (lines_of rt) plugins_dir)
            ++ [ValidatePlugins.Summary (length plugins_dir)
                  (length (flat_map (fun entry => fst (recorded rt entry)) plugins_dir))
                  (length (flat_map (fun entry => snd (recorded rt entry)) plugins_dir));
                match flat_map (fun entry => fst (recorded rt entry)) plugins_dir with
                | [] => ValidatePlugins.AllValid
                | _ :: _ => ValidatePlugins.ValidationFailed
                end];
          ValidatePlugins.all_errors :=
            flat_map (fun entry => fst (recorded rt entry)) plugins_dir;
          ValidatePlugins.all_warnings :=
            flat_map (fun entry => snd (recorded rt entry)) plugins_dir |};
     ValidatePlugins.ended :=
       ValidatePlugins.Exit
         match flat_map (fun entry => fst (recorded rt entry)) plugins_dir with
         | [] => 0
         | _ :: _ => 1
         end |}.
Proof.
  intros Hret Hprint.
  assert (Hnone : first_raise rt plugins_dir = None) by (apply first_raise_none; now split).
  destruct (before_raise_all _ _ Hnone) as [Hbefore Hat].
  unfold ValidatePlugins.main. rewrite main_loop_outcome, Hnone, Hbefore, Hat.
  cbn [ValidatePlugins.stdout ValidatePlugins.all_errors ValidatePlugins.all_warnings
       app fst snd].
  rewrite !app_nil_r.
  destruct (flat_map (fun entry => fst (recorded rt entry)) plugins_dir); reflexivity.
Qed.

(** A run that an exception ends: the traceback, no summary. *)
Lemma main_raises (rt : runtime) (plugins_dir : listing) (e : exn) :
  first_raise rt plugins_dir = Some e ->
  ValidatePlugins.main rt plugins_dir =
  {| ValidatePlugins.final :=
       {| ValidatePlugins.stdout :=
            ValidatePlugins.Validating
            :: flat_map (lines_of rt) (before_raise rt plugins_dir)
               ++ fst (at_raise rt plugins_dir);
          ValidatePlugins.all_errors :=
            flat_map (fun entry => fst (recorded rt entry)) (before_raise rt plugins_dir)
              ++ snd (at_raise rt plugins_dir);
          ValidatePlugins.all_warnings :=
            flat_map (fun entry => snd (recorded rt entry))
              (before_raise rt plugins_dir) |};
     ValidatePlugins.ended := ValidatePlugins.Traceback e |}.
Proof.
  intros Hraise. unfold ValidatePlugins.main. rewrite main_loop_outcome, Hraise.
  reflexivity.
Qed.


(** C4, as the code has it: for an object whose [version] is a string, the
    validation returns whenever the fields the rules read have types the
    rules accept; when it returns, no error speaks of the version, and the
    warnings hold the version warning, once, if the version does not split at
    its dots into at least three pieces whose first three [int()] accepts,
    and no version warning if it does. *)
Theorem version_warning_iff_not_int_triplet (rt : runtime)
    (d : list (pystr * value)) (version : pystr) :
  dict_lookup (py "version") d = Some (VStr version) ->
  (checkable d = true ->
   exists errors warnings,
     ValidatePlugins.validate_plugin_manifest rt (Document (VDict d))
       = Ok (errors, warnings)) /\
  (forall errors warnings,
      ValidatePlugins.validate_plugin_manifest rt (Document (VDict d))
        = Ok (errors, warnings) ->
      filter is_version_diagnostic errors = [] /\
      (int_triplet_prefix rt version ->
       filter is_version_diagnostic warnings = []) /\
      (~ int_triplet_prefix rt version ->
       filter is_version_diagnostic warnings
         = [ValidatePlugins.version_warning rt (VStr version)])).
Proof.
  intros Hversion. split.
  - intros Hc. now apply validate_document_returns.
  - intros errors warnings H. simpl in H. rewrite validate_document_rules in H.
    invert_binds. subst errors warnings.
    rename a into from_id, a0 into from_version, a1 into from_description,
      a2 into from_name, a3 into from_author.
    rewrite !filter_app.
    rewrite (unrelated_version (missing_errors_unrelated d)).
    rewrite (unrelated_version (id_errors_unrelated _ _ Ha)).
    rewrite category_errors_version.
    rewrite (unrelated_version (name_errors_unrelated _ Ha2)).
    rewrite (unrelated_version (description_warnings_unrelated _ Ha1)).
    rewrite (unrelated_version (author_warnings_unrelated _ Ha3)).
    rewrite !app_nil_r.
    split; [reflexivity |].
    unfold version_warnings, rule in Ha0. rewrite Hversion in Ha0.
    destruct (validate_semver_str rt version) as [ok [Hok Hiff]].
    rewrite Hok in Ha0. simpl in Ha0. injection Ha0 as <-.
    destruct ok.
    + split; [reflexivity |]. intros Hnot. elim Hnot. now apply Hiff.
    + split; [| reflexivity]. intros Htrip. apply Hiff in Htrip. discriminate Htrip.
Qed.

(** *** The category rule *)

Lemma py_eq_str (valid : pystr) (category : value) :
  py_eq (VStr valid) category = true <-> category = VStr valid.
Proof.
  destruct category; simpl; split; try discriminate.
  - intros H. apply str_eqb_eq in H. now subst.
  - intros H. injection H as ->. apply str_eqb_refl.
Qed.

(** The categories that pass are the nine strings of the list. *)
Lemma valid_category_iff (category : value) :
  ValidatePlugins.valid_category category = true <->
  exists s, category = VStr s /\ In s ValidatePlugins.VALID_CATEGORIES.
Proof.
  unfold ValidatePlugins.valid_category. rewrite existsb_exists. split.
  - intros [valid [Hin Heq]]. apply py_eq_str in Heq. now exists valid.
  - intros [s [-> Hin]]. exists s. split; [exact Hin |]. now apply py_eq_str.
Qed.

(** C5, as the code has it: for an object with a [category], the validation
    returns whenever the fields the rules read have types the rules accept;
    when it returns, no warning speaks of the category, the errors hold no
    category error if the category is one of the nine of the list, and
    exactly one if it is not: the message that names the category and then
    lists the nine. *)
Theorem category_error_iff_not_valid (rt : runtime) (d : list (pystr * value))
    (category : value) :
  dict_lookup (py "category") d = Some category ->
  (checkable d = true ->
   exists errors warnings,
     ValidatePlugins.validate_plugin_manifest rt (Document (VDict d))
       = Ok (errors, warnings)) /\
  (forall errors warnings,
      ValidatePlugins.validate_plugin_manifest rt (Document (VDict d))
        = Ok (errors, warnings) ->
      filter is_category_diagnostic warnings = [] /\
      (ValidatePlugins.valid_category category = true ->
       filter is_category_diagnostic errors = []) /\
      (ValidatePlugins.valid_category category = false ->
       filter is_category_diagnostic errors
         = [ValidatePlugins.category_error rt category])) /\
  ValidatePlugins.category_error rt category
    = py "Invalid category: " ++ py_str rt category
        ++ py ". Must be one of: storage, media, communication, development, monitoring, networking, productivity, security, utilities" /\
  length ValidatePlugins.VALID_CATEGORIES = 9 /\
  (ValidatePlugins.valid_category category = true <->
   exists s, category = VStr s /\ In s ValidatePlugins.VALID_CATEGORIES).
Proof.
  intros Hcategory. split; [| split; [| split; [| split]]].
  - intros Hc. now apply validate_document_returns.
  - intros errors warnings H. simpl in H. rewrite validate_document_rules in H.
    invert_binds. subst errors warnings.
    rename a into from_id, a0 into from_version, a1 into from_description,
      a2 into from_name, a3 into from_author.
    rewrite !filter_app.
    rewrite (unrelated_category (missing_errors_unrelated d)).
    rewrite (unrelated_category (id_errors_unrelated _ _ Ha)).
    rewrite (unrelated_category (name_errors_unrelated _ Ha2)).
    rewrite (unrelated_category (description_warnings_unrelated _ Ha1)).
    rewrite (unrelated_category (author_warnings_unrelated _ Ha3)).
    rewrite (version_warnings_category _ _ Ha0).
    rewrite !app_nil_r. simpl.
    split; [reflexivity |].
    unfold category_errors. rewrite Hcategory.
    split; intros Hvalid; rewrite Hvalid; reflexivity.
  - reflexivity.
  - reflexivity.
  - apply valid_category_iff.
Qed.


(** ** The theorems at sample inputs *)

(** The manifests of this lemma hold ASCII strings and whole numbers only, so
    what they show does not depend on the interpreter's tables: they behave
    alike under every [runtime]. *)
Lemma samples_under_any_runtime (rt : runtime) :
  ValidatePlugins.validate_plugin_manifest rt (Document (VDict Samples.numeric_version))
    = Raise AttributeError /\
  ValidatePlugins.ended (ValidatePlugins.main rt Samples.numeric_version_plugin)
    = ValidatePlugins.Traceback AttributeError /\
  ValidatePlugins.all_errors
    (ValidatePlugins.final (ValidatePlugins.main rt Samples.numeric_version_plugin)) = [] /\
  ValidatePlugins.validate_plugin_manifest rt (Document (VDict Samples.negative_version))
    = Ok ([], []) /\
  py_int rt (py "-1") = Some (-1)%Z /\
  ValidatePlugins.validate_plugin_manifest rt
    (Document (VDict Samples.short_version_numeric_id)) = Raise AttributeError /\
  ValidatePlugins.validate_plugin_manifest rt
    (Document (VDict Samples.bogus_category_numeric_version)) = Raise AttributeError.
Proof. repeat split. Qed.

(** No error handler of standard output takes U+D800, and the file takes no
    surrogate: the manifests with one behave alike under every [runtime]. *)
Lemma surrogates_under_any_runtime (rt : runtime) :
  printable rt [55296%N] = false /\
  ValidatePlugins.main rt Samples.surrogate_version_plugin
    = {| ValidatePlugins.final :=
           {| ValidatePlugins.stdout :=
                [ValidatePlugins.Validating; ValidatePlugins.WarningsOf (py "tool") []];
              ValidatePlugins.all_errors := [];
              ValidatePlugins.all_warnings := [] |};
         ValidatePlugins.ended := ValidatePlugins.Traceback UnicodeEncodeError |} /\
  GenerateRegistry.generate_registry rt Samples.surrogate_name_plugin Samples.noon
    = {| GenerateRegistry.stdout :=
           [GenerateRegistry.Found 1;
            GenerateRegistry.ErrorLoading (py "tool") UnicodeEncodeError];
         GenerateRegistry.written := [];
         GenerateRegistry.returned := Raise UnicodeEncodeError |}.
Proof. destruct rt as [repr isspace todecimal digits []]; repeat split. Qed.

(** Three manifests with names out of order: the registry lists "Media",
    "archive", "backup". *)
Lemma generate_registry_of_three_plugins :
  GenerateRegistry.generate_registry Samples.plain_runtime Samples.three_plugins Samples.noon
    = {| GenerateRegistry.stdout :=
           [GenerateRegistry.Found 3;
            GenerateRegistry.Loaded (VStr (py "backup")) (VStr (py "2.0.0"));
            GenerateRegistry.Loaded (VStr (py "Media")) (VStr (py "1.0.0"));
            GenerateRegistry.Loaded (VStr (py "archive")) (VStr (py "0.3.1"));
            GenerateRegistry.Generated 3];
         GenerateRegistry.written := [Samples.three_registry];
         GenerateRegistry.returned := Ok Samples.three_registry |} /\
  length (plugin_dirs Samples.three_plugins) = 3 /\
  exists registry entries,
    GenerateRegistry.returned
      (GenerateRegistry.generate_registry Samples.plain_runtime Samples.three_plugins
         Samples.noon) = Ok registry /\
    GenerateRegistry.written
      (GenerateRegistry.generate_registry Samples.plain_runtime Samples.three_plugins
         Samples.noon) = [registry] /\
    length (GenerateRegistry.registry_plugins registry)
      = length (plugin_dirs Samples.three_plugins) /\
    StronglySorted name_le (GenerateRegistry.registry_plugins registry) /\
    Forall2
      (fun plugin_dir e =>
         exists version,
           valid_plugin Samples.plain_runtime plugin_dir version e /\
           has_template_urls (dirent_name plugin_dir) version e)
      (plugin_dirs Samples.three_plugins) entries /\
    Permutation entries (GenerateRegistry.registry_plugins registry).
Proof.
  split; [reflexivity |]. split; [reflexivity |].
  apply (@generate_registry_of_valid_manifests Samples.plain_runtime
           Samples.three_plugins Samples.noon).
  change (plugin_dirs Samples.three_plugins) with Samples.three_plugins.
  repeat apply Forall_cons; try apply Forall_nil;
    (eexists; eexists; eexists; split; [reflexivity |];
     split; [eexists; eexists; repeat split; reflexivity | split; reflexivity]).
Defined.

(** A valid manifest whose name holds a surrogate: the validator finds
    nothing to say and the manifest loads, but [print] does not take the
    name, and neither does the file: the run ends with the
    [UnicodeEncodeError] of [json.dump], and no registry is written. *)
Lemma surrogate_name_not_written :
  ValidatePlugins.validate_plugin_manifest Samples.plain_runtime
    (Document (VDict Samples.surrogate_name)) = Ok ([], []) /\
  valid_manifest Samples.plain_runtime (py "tool", Document (VDict Samples.surrogate_name)) /\
  GenerateRegistry.generate_registry Samples.plain_runtime Samples.surrogate_name_plugin
    Samples.noon
    = {| GenerateRegistry.stdout :=
           [GenerateRegistry.Found 1;
            GenerateRegistry.ErrorLoading (py "tool") UnicodeEncodeError];
         GenerateRegistry.written := [];
         GenerateRegistry.returned := Raise UnicodeEncodeError |} /\
  ~ exists registry,
      GenerateRegistry.returned
        (GenerateRegistry.generate_registry Samples.plain_runtime
           Samples.surrogate_name_plugin Samples.noon) = Ok registry.
Proof.
  split; [reflexivity |]. split; [| split; [reflexivity |]].
  - eexists. eexists. eexists. eexists. repeat split; reflexivity.
  - intros [registry H]. discriminate H.
Qed.



(** The valid manifest of the scenario: version "1.2.3", no version
    diagnostic. *)
Lemma version_rule_on_acme_tool :
  (checkable Samples.acme_tool = true ->
   exists errors warnings,
     ValidatePlugins.validate_plugin_manifest Samples.plain_runtime
       (Document (VDict Samples.acme_tool)) = Ok (errors, warnings)) /\
  (forall errors warnings,
      ValidatePlugins.validate_plugin_manifest Samples.plain_runtime
        (Document (VDict Samples.acme_tool)) = Ok (errors, warnings) ->
      filter is_version_diagnostic errors = [] /\
      (int_triplet_prefix Samples.plain_runtime (py "1.2.3") ->
       filter is_version_diagnostic warnings = []) /\
      (~ int_triplet_prefix Samples.plain_runtime (py "1.2.3") ->
       filter is_version_diagnostic warnings
         = [ValidatePlugins.version_warning Samples.plain_runtime (VStr (py "1.2.3"))])).
Proof.
  apply (@version_warning_iff_not_int_triplet Samples.plain_runtime Samples.acme_tool
           (py "1.2.3")).
  reflexivity.
Defined.

(** "-1.0.0": [int()] reads "-1" as the integer -1, so the validation returns
    no warning, although -1 is not a non-negative integer.  And the version
    "1" next to an id written as a number: the id rule raises before the
    version rule is reached, and no warning is returned. *)
Lemma negative_version_not_warned :
  (ValidatePlugins.validate_plugin_manifest Samples.plain_runtime
     (Document (VDict Samples.negative_version)) = Ok ([], []) /\
   split_on 46 (py "-1.0.0") = [py "-1"; py "0"; py "0"] /\
   py_int Samples.plain_runtime (py "-1") = Some (-1)%Z /\
   ~ nonnegative_triplet_prefix Samples.plain_runtime (py "-1.0.0") /\
   ~ warns_unless_nonnegative_triplet Samples.plain_runtime Samples.negative_version
       (py "-1.0.0")) /\
  (ValidatePlugins.validate_plugin_manifest Samples.plain_runtime
     (Document (VDict Samples.short_version_numeric_id)) = Raise AttributeError /\
   ~ nonnegative_triplet_prefix Samples.plain_runtime (py "1") /\
   ~ warns_unless_nonnegative_triplet Samples.plain_runtime
       Samples.short_version_numeric_id (py "1")).
Proof.
  assert (Hnot : ~ nonnegative_triplet_prefix Samples.plain_runtime (py "-1.0.0")).
  { intros [a [b [c [rest [Hsplit [[z [Hz Hpos]] _]]]]]].
    vm_compute in Hsplit. injection Hsplit as <- <- <- <-.
    vm_compute in Hz. injection Hz as <-. lia. }
  assert (Hshort : ~ nonnegative_triplet_prefix Samples.plain_runtime (py "1")).
  { intros [a [b [c [rest [Hsplit _]]]]]. vm_compute in Hsplit. discriminate Hsplit. }
  split.
  - split; [reflexivity |]. split; [reflexivity |]. split; [reflexivity |].
    split; [exact Hnot |].
    intros [_ Hwarns]. destruct (Hwarns Hnot) as [errors [warnings [Hv Hw]]].
    vm_compute in Hv. injection Hv as <- <-. discriminate Hw.
  - split; [reflexivity |]. split; [exact Hshort |].
    intros [_ Hwarns]. destruct (Hwarns Hshort) as [errors [warnings [Hv _]]].
    vm_compute in Hv. discriminate Hv.
Qed.

(** An unknown category in an otherwise valid manifest: one category error. *)
Lemma category_rule_on_bogus_category :
  (checkable Samples.bogus_category = true ->
   exists errors warnings,
     ValidatePlugins.validate_plugin_manifest Samples.plain_runtime
       (Document (VDict Samples.bogus_category)) = Ok (errors, warnings)) /\
  (forall errors warnings,
      ValidatePlugins.validate_plugin_manifest Samples.plain_runtime
        (Document (VDict Samples.bogus_category)) = Ok (errors, warnings) ->
      filter is_category_diagnostic warnings = [] /\
      (ValidatePlugins.valid_category (VStr (py "bogus")) = true ->
       filter is_category_diagnostic errors = []) /\
      (ValidatePlugins.valid_category (VStr (py "bogus")) = false ->
       filter is_category_diagnostic errors
         = [ValidatePlugins.category_error Samples.plain_runtime (VStr (py "bogus"))])) /\
  ValidatePlugins.category_error Samples.plain_runtime (VStr (py "bogus"))
    = py "Invalid category: " ++ py_str Samples.plain_runtime (VStr (py "bogus"))
        ++ py ". Must be one of: storage, media, communication, development, monitoring, networking, productivity, security, utilities" /\
  length ValidatePlugins.VALID_CATEGORIES = 9 /\
  (ValidatePlugins.valid_category (VStr (py "bogus")) = true <->
   exists s, VStr (py "bogus") = VStr s /\ In s ValidatePlugins.VALID_CATEGORIES).
Proof.
  apply (@category_error_iff_not_valid Samples.plain_runtime Samples.bogus_category
           (VStr (py "bogus"))).
  reflexivity.
Defined.

(** An unknown category next to a version written as a number: the version
    rule raises before the category rule is reached, and no category error
    is returned. *)
Lemma category_error_lost_to_numeric_version :
  dict_lookup (py "category") Samples.bogus_category_numeric_version
    = Some (VStr (py "bogus")) /\
  ValidatePlugins.valid_category (VStr (py "bogus")) = false /\
  ValidatePlugins.validate_plugin_manifest Samples.plain_runtime
    (Document (VDict Samples.bogus_category_numeric_version)) = Raise AttributeError /\
  ~ yields_one_category_error Samples.plain_runtime
      (VDict Samples.bogus_category_numeric_version).
Proof.
  split; [reflexivity |]. split; [reflexivity |]. split; [reflexivity |].
  intros [errors [warnings [Hv _]]]. vm_compute in Hv. discriminate Hv.
Qed.

(** A manifest with category "media" and two declared tags. *)
Lemma tags_of_tagged_plugin :
  GenerateRegistry.entry_screenshots Samples.tagged_entry = [] /\
  exists plugin_dir d,
    In (plugin_dir, Document (VDict d))
      (GenerateRegistry.find_plugin_manifests Samples.tagged_plugins) /\
    GenerateRegistry.load_plugin_manifest Samples.plain_runtime
      (plugin_dir, Document (VDict d)) = Ok Samples.tagged_entry /\
    tags_follow_category d Samples.tagged_entry /\
    (forall declared,
        dict_lookup (py "tags") d = Some (VList declared) ->
        GenerateRegistry.entry_tags Samples.tagged_entry
          = GenerateRegistry.entry_category Samples.tagged_entry :: declared).
Proof.
  apply (@registry_entry_screenshots_and_tags Samples.plain_runtime
           Samples.tagged_plugins Samples.noon Samples.tagged_registry
           Samples.tagged_entry).
  - reflexivity.
  - simpl. left. reflexivity.
Defined.

(** A manifest that declares no version. *)
Lemma default_version_of_bare_manifest :
  GenerateRegistry.entry_version Samples.bare_entry = VStr (py "1.0.0") /\
  GenerateRegistry.entry_download_url Samples.bare_entry
    = GenerateRegistry.REPO_URL ++ py "/releases/download/"
        ++ py "tool" ++ py "-v" ++ py "1.0.0" ++ py "/"
        ++ py "tool" ++ py "-v" ++ py "1.0.0" ++ py ".tar.gz".
Proof.
  apply (@load_plugin_manifest_default_version Samples.plain_runtime (py "tool")
           Samples.bare_manifest Samples.bare_entry).
  - reflexivity.
  - reflexivity.
Defined.

(** A manifest that declares no links. *)
Lemma default_homepage_of_bare_manifest :
  GenerateRegistry.entry_repository_url Samples.bare_entry
    = GenerateRegistry.REPO_URL ++ py "/tree/main/plugins/" ++ py "tool" /\
  GenerateRegistry.entry_homepage Samples.bare_entry
    = VStr (GenerateRegistry.entry_repository_url Samples.bare_entry).
Proof.
  apply (@load_plugin_manifest_default_homepage Samples.plain_runtime (py "tool")
           Samples.bare_manifest Samples.bare_entry).
  - left. reflexivity.
  - reflexivity.
Defined.



(** ** Further properties *)

(** X1: the validation of an object returns exactly when [id], where present, is
    a string or false in a condition, [version] a string, and [description],
    [name] and [author] each a string, a list or an object. *)
Theorem validation_returns_iff_checkable (rt : runtime) (d : list (pystr * value)) :
  checkable d = true <->
  exists errors warnings,
    ValidatePlugins.validate_plugin_manifest rt (Document (VDict d))
      = Ok (errors, warnings).
Proof. apply validate_document_returns. Qed.

(** X2: the validation of an object returns when every field a rule reads
    is, where present, a string. *)
Theorem validation_returns_on_string_fields (rt : runtime) (d : list (pystr * value)) :
  string_fields d ->
  exists errors warnings,
    ValidatePlugins.validate_plugin_manifest rt (Document (VDict d))
      = Ok (errors, warnings).
Proof.
  intros Hstrings. apply validate_document_returns.
  now apply string_fields_checkable.
Qed.

(** On a string, [validate_plugin_id] counts the pieces between dots. *)
Lemma validate_plugin_id_str (plugin_id : pystr) :
  ValidatePlugins.validate_plugin_id (VStr plugin_id)
    = Ok (3 <=? length (split_on 46 plugin_id)).
Proof. destruct plugin_id; reflexivity. Qed.

(** The fields of the valid scenario are strings. *)
Lemma validation_returns_on_acme_tool :
  exists errors warnings,
    ValidatePlugins.validate_plugin_manifest Samples.plain_runtime
      (Document (VDict Samples.acme_tool)) = Ok (errors, warnings).
Proof.
  apply (@validation_returns_on_string_fields Samples.plain_runtime Samples.acme_tool).
  intros key v [<- | [<- | [<- | [<- | [<- | []]]]]] Hv;
    vm_compute in Hv; injection Hv as <-; reflexivity.
Defined.

(** ** Further properties of the generator *)

Lemma load_outcome (rt : runtime) (plugin_dir : pystr) (file : manifest) :
  match load_failure file with
  | Some e => GenerateRegistry.load_plugin_manifest rt (plugin_dir, file) = Raise e
  | None =>
      exists entry, GenerateRegistry.load_plugin_manifest rt (plugin_dir, file) = Ok entry
  end.
Proof.
  destruct file as [msg | msg | data]; try reflexivity.
  destruct data as [| b | z | f | s | l | d]; try reflexivity.
  unfold load_failure, GenerateRegistry.load_plugin_manifest.
  cbn [read_manifest bind]. rewrite !py_get_dict. cbn [bind py_contains].
  unfold field_ok, lookup_or, dict_has, py_getitem.
  destruct (dict_lookup (py "links") d) as [[| ? | ? | ? | ? | ? | links] |];
    try reflexivity;
    rewrite ?py_get_dict; cbn [bind andb is_dict];
    (destruct (dict_lookup (py "requires") d) as [[| ? | ? | ? | ? | ? | requires] |];
     try reflexivity;
     rewrite ?py_get_dict; cbn [bind andb is_dict];
     (destruct (dict_lookup (py "tags") d) as [[| ? | ? | ? | ? | ? | ?] |];
      try reflexivity; cbn; eexists; reflexivity)).
Qed.

(** X3: which manifests load: the read must succeed, the document must be an
    object, its [links] and [requires], where present, objects, and its
    [tags], where present, a list, a string or an object; every other
    manifest ends [load_plugin_manifest] with the exception [load_failure]
    names. *)
Theorem load_plugin_manifest_outcome (rt : runtime) (plugin_dir : pystr)
    (file : manifest) :
  match load_failure file with
  | Some e => GenerateRegistry.load_plugin_manifest rt (plugin_dir, file) = Raise e
  | None =>
      exists entry, GenerateRegistry.load_plugin_manifest rt (plugin_dir, file) = Ok entry
  end.
Proof. apply load_outcome. Qed.

Lemma nested_or_get (d : list (pystr * value)) (outer inner : pystr)
    (default v : value) :
  py_get (lookup_or outer d (VDict [])) inner default = Ok v ->
  v = nested_or d outer inner default.
Proof.
  unfold lookup_or, nested_or.
  destruct (dict_lookup outer d) as [[| ? | ? | ? | ? | ? | m] |]; simpl;
    try discriminate.
  - unfold lookup_or. destruct (dict_lookup inner m); congruence.
  - congruence.
Qed.

(** X4: an entry mirrors its manifest: [id], [name], [author] and [description]
    are the manifest's, [None] where it has none; the icon and the category
    are the manifest's or the defaults; the homepage and the three
    requirements are read from [links] and [requires], with their
    defaults. *)
Theorem entry_mirrors_manifest (rt : runtime) (plugin_dir : pystr)
    (d : list (pystr * value)) (e : GenerateRegistry.entry) :
  GenerateRegistry.load_plugin_manifest rt (plugin_dir, Document (VDict d)) = Ok e ->
  GenerateRegistry.entry_id e = lookup_or (py "id") d VNone /\
  GenerateRegistry.entry_name e = lookup_or (py "name") d VNone /\
  GenerateRegistry.entry_author e = lookup_or (py "author") d VNone /\
  GenerateRegistry.entry_description e = lookup_or (py "description") d VNone /\
  GenerateRegistry.entry_icon e = lookup_or (py "icon") d (VStr [128268%N]) /\
  GenerateRegistry.entry_category e = lookup_or (py "category") d (VStr (py "utilities")) /\
  GenerateRegistry.entry_homepage e
    = nested_or d (py "links") (py "homepage")
        (VStr (GenerateRegistry.REPO_URL ++ py "/tree/main/plugins/" ++ plugin_dir)) /\
  GenerateRegistry.entry_min_nas_version e
    = nested_or d (py "requires") (py "minNasVersion") (VStr (py "0.1.0")) /\
  GenerateRegistry.entry_require_docker e
    = nested_or d (py "requires") (py "docker") (VBool false) /\
  GenerateRegistry.entry_required_ports e
    = nested_or d (py "requires") (py "ports") (VList []).
Proof.
  unfold GenerateRegistry.load_plugin_manifest. cbn [read_manifest bind].
  rewrite !py_get_dict. cbn [bind py_contains]. intros H.
  apply bind_ok in H. destruct H as [homepage [Hhome H]].
  apply bind_ok in H. destruct H as [min_nas [Hmin H]].
  apply bind_ok in H. destruct H as [docker [Hdocker H]].
  apply bind_ok in H. destruct H as [ports [Hports H]].
  apply bind_ok in H. destruct H as [tags [_ H]].
  injection H as <-. cbn.
  apply nested_or_get in Hhome, Hmin, Hdocker, Hports.
  repeat split; assumption.
Qed.

(** *** The loop and the lines *)



(** *** When the sort raises *)



Section SortRaises.
Variable A : Type.
Variable key : A -> value.








End SortRaises.




(** *** The order of the directory *)

Section SortOrder.
Variable A : Type.
Variable key : A -> value.






End SortOrder.



(** *** The URLs *)

Lemma app_same_length (A : Type) (x y u v : list A) :
  length x = length y -> x ++ u = y ++ v -> x = y /\ u = v.
Proof.
  revert y. induction x as [| a x IH]; intros [| b y]; simpl; try discriminate.
  - intros _ H. now split.
  - intros Hlen H. injection Hlen as Hlen. injection H as -> H.
    destruct (IH y Hlen H) as [-> ->]. now split.
Qed.

Lemma download_url_of_tag (plugin_dir version : pystr) :
  GenerateRegistry.download_url_of plugin_dir version
    = GenerateRegistry.REPO_URL ++ py "/releases/download/"
        ++ release_tag plugin_dir version ++ py "/"
        ++ release_tag plugin_dir version ++ py ".tar.gz".
Proof.
  unfold GenerateRegistry.download_url_of, release_tag. now rewrite <- !app_assoc.
Qed.

(** X10: the repository URL tells plugin directories apart.  The download URL
    tells apart exactly the release tags [<plugin_dir>-v<version>]: it does
    so for the directories at one version, but the directory [a-vb] at
    version [c] and the directory [a] at version [b-vc] share their URL. *)
Theorem plugin_urls_tell_apart (plugin_dir plugin_dir' version version' : pystr) :
  (GenerateRegistry.repository_url_of plugin_dir
     = GenerateRegistry.repository_url_of plugin_dir' <->
   plugin_dir = plugin_dir') /\
  (GenerateRegistry.download_url_of plugin_dir version
     = GenerateRegistry.download_url_of plugin_dir' version' <->
   release_tag plugin_dir version = release_tag plugin_dir' version') /\
  (GenerateRegistry.download_url_of plugin_dir version
     = GenerateRegistry.download_url_of plugin_dir' version <->
   plugin_dir = plugin_dir') /\
  GenerateRegistry.download_url_of (plugin_dir ++ py "-v" ++ version) version'
    = GenerateRegistry.download_url_of plugin_dir (version ++ py "-v" ++ version').
Proof.
  assert (Htag : GenerateRegistry.download_url_of plugin_dir version
                   = GenerateRegistry.download_url_of plugin_dir' version' <->
                 release_tag plugin_dir version = release_tag plugin_dir' version').
  { rewrite !download_url_of_tag. split; [| now intros ->].
    intros H. apply app_inv_head in H. apply app_inv_head in H.
    apply app_same_length in H; [now destruct H |].
    apply (f_equal (@length N)) in H. rewrite !length_app in H. simpl in H. lia. }
  split; [| split; [exact Htag | split]].
  - unfold GenerateRegistry.repository_url_of. split; [| now intros ->].
    intros H. apply app_inv_head in H. now apply app_inv_head in H.
  - split; [| now intros ->]. rewrite !download_url_of_tag. intros H.
    apply app_inv_head in H. apply app_inv_head in H.
    assert (Hlen : length (release_tag plugin_dir version)
                   = length (release_tag plugin_dir' version)).
    { apply (f_equal (@length N)) in H. rewrite !length_app in H. simpl in H. lia. }
    apply app_same_length in H; [| exact Hlen]. destruct H as [H _].
    unfold release_tag in H. rewrite !app_assoc in H. apply app_inv_tail in H.
    now apply app_inv_tail in H.
  - rewrite !download_url_of_tag. unfold release_tag. now rewrite <- !app_assoc.
Qed.

(** ** Further properties of the validator *)

(** *** The messages of each rule *)

Lemma filter_all (P : pystr -> bool) (l : list pystr) :
  Forall (fun msg => P msg = true) l -> filter P l = l.
Proof.
  induction 1 as [| msg l Hmsg _ IH]; simpl; [reflexivity |]. now rewrite Hmsg, IH.
Qed.

Lemma missing_errors_filters (d : list (pystr * value)) :
  filter is_missing_diagnostic (missing_errors d) = missing_errors d /\
  filter is_id_diagnostic (missing_errors d) = [] /\
  filter is_category_diagnostic (missing_errors d) = [] /\
  filter is_name_diagnostic (missing_errors d) = [].
Proof.
  unfold missing_errors.
  induction (filter (fun field => negb (dict_has field d)) ValidatePlugins.REQUIRED_FIELDS)
    as [| field rest [IH1 [IH2 [IH3 IH4]]]]; [repeat split |].
  cbn [map filter].
  change (is_missing_diagnostic (ValidatePlugins.missing_field_error field)) with true.
  change (is_id_diagnostic (ValidatePlugins.missing_field_error field)) with false.
  change (is_category_diagnostic (ValidatePlugins.missing_field_error field)) with false.
  change (is_name_diagnostic (ValidatePlugins.missing_field_error field)) with false.
  rewrite IH1. repeat split; assumption.
Qed.

Lemma id_errors_filters (rt : runtime) (d : list (pystr * value)) (added : list pystr) :
  id_errors rt d = Ok added ->
  filter is_missing_diagnostic added = [] /\
  filter is_id_diagnostic added = added /\
  filter is_category_diagnostic added = [] /\
  filter is_name_diagnostic added = [].
Proof.
  unfold id_errors, rule. destruct (dict_lookup (py "id") d) as [v |].
  - intros H. invert_binds. subst added. destruct a; repeat split.
  - intros H. injection H as <-. repeat split.
Qed.

Lemma category_errors_filters (rt : runtime) (d : list (pystr * value)) :
  filter is_missing_diagnostic (category_errors rt d) = [] /\
  filter is_id_diagnostic (category_errors rt d) = [] /\
  filter is_category_diagnostic (category_errors rt d) = category_errors rt d /\
  filter is_name_diagnostic (category_errors rt d) = [].
Proof.
  unfold category_errors. destruct (dict_lookup (py "category") d) as [c |];
    [| repeat split].
  destruct (ValidatePlugins.valid_category c); repeat split.
Qed.

Lemma name_errors_filters (d : list (pystr * value)) (added : list pystr) :
  name_errors d = Ok added ->
  filter is_missing_diagnostic added = [] /\
  filter is_id_diagnostic added = [] /\
  filter is_category_diagnostic added = [] /\
  filter is_name_diagnostic added = added.
Proof.
  unfold name_errors, rule. destruct (dict_lookup (py "name") d) as [v |].
  - intros H. invert_binds. subst added. destruct (a <? 3); repeat split.
  - intros H. injection H as <-. repeat split.
Qed.

Lemma version_warnings_filters (rt : runtime) (d : list (pystr * value))
    (added : list pystr) :
  version_warnings rt d = Ok added ->
  filter is_version_diagnostic added = added /\
  filter is_description_diagnostic added = [] /\
  filter is_author_diagnostic added = [].
Proof.
  unfold version_warnings, rule. destruct (dict_lookup (py "version") d) as [v |].
  - intros H. invert_binds. subst added. destruct a; repeat split.
  - intros H. injection H as <-. repeat split.
Qed.

Lemma description_warnings_filters (d : list (pystr * value)) (added : list pystr) :
  description_warnings d = Ok added ->
  filter is_version_diagnostic added = [] /\
  filter is_description_diagnostic added = added /\
  filter is_author_diagnostic added = [].
Proof.
  unfold description_warnings, rule.
  destruct (dict_lookup (py "description") d) as [v |].
  - intros H. invert_binds. subst added.
    destruct (a <? 20); [repeat split |]. destruct (200 <? a); repeat split.
  - intros H. injection H as <-. repeat split.
Qed.

Lemma author_warnings_filters (d : list (pystr * value)) (added : list pystr) :
  author_warnings d = Ok added ->
  filter is_version_diagnostic added = [] /\
  filter is_description_diagnostic added = [] /\
  filter is_author_diagnostic added = added.
Proof.
  unfold author_warnings, rule. destruct (dict_lookup (py "author") d) as [v |].
  - intros H. invert_binds. subst added. destruct a; repeat split.
  - intros H. injection H as <-. repeat split.
Qed.

(** The messages of a validation that returns, rule by rule: each rule's
    messages are those that begin with the rule's words. *)
Lemma diagnostics_by_rule (rt : runtime) (d : list (pystr * value))
    (errors warnings : list pystr) :
  ValidatePlugins.validate_plugin_manifest rt (Document (VDict d)) = Ok (errors, warnings) ->
  errors = filter is_missing_diagnostic errors ++ filter is_id_diagnostic errors
             ++ filter is_category_diagnostic errors ++ filter is_name_diagnostic errors /\
  warnings = filter is_version_diagnostic warnings
               ++ filter is_description_diagnostic warnings
               ++ filter is_author_diagnostic warnings /\
  filter is_missing_diagnostic errors = missing_errors d /\
  id_errors rt d = Ok (filter is_id_diagnostic errors) /\
  filter is_category_diagnostic errors = category_errors rt d /\
  name_errors d = Ok (filter is_name_diagnostic errors) /\
  version_warnings rt d = Ok (filter is_version_diagnostic warnings) /\
  description_warnings d = Ok (filter is_description_diagnostic warnings) /\
  author_warnings d = Ok (filter is_author_diagnostic warnings).
Proof.
  intros H. simpl in H. rewrite validate_document_rules in H. invert_binds.
  rename a into from_id, a0 into from_version, a1 into from_description,
    a2 into from_name, a3 into from_author.
  subst errors warnings.
  destruct (missing_errors_filters d) as [M1 [M2 [M3 M4]]].
  destruct (id_errors_filters _ _ Ha) as [I1 [I2 [I3 I4]]].
  destruct (category_errors_filters rt d) as [C1 [C2 [C3 C4]]].
  destruct (name_errors_filters _ Ha2) as [N1 [N2 [N3 N4]]].
  destruct (version_warnings_filters _ _ Ha0) as [V1 [V2 V3]].
  destruct (description_warnings_filters _ Ha1) as [D1 [D2 D3]].
  destruct (author_warnings_filters _ Ha3) as [A1 [A2 A3]].
  rewrite !filter_app.
  rewrite M1, M2, M3, M4, I1, I2, I3, I4, C1, C2, C3, C4, N1, N2, N3, N4.
  rewrite V1, V2, V3, D1, D2, D3, A1, A2, A3.
  cbn [app]. rewrite !app_nil_r. repeat split.
Qed.

(** *** The required fields *)

(** X11: every required field the object lacks is named by one error, in the
    order of [REQUIRED_FIELDS] and before every other error; no other error
    speaks of a missing field. *)
Theorem missing_field_errors_exact (rt : runtime) (d : list (pystr * value))
    (errors warnings : list pystr) :
  ValidatePlugins.validate_plugin_manifest rt (Document (VDict d)) = Ok (errors, warnings) ->
  filter is_missing_diagnostic errors
    = map ValidatePlugins.missing_field_error (absent_fields d) /\
  exists others,
    errors = map ValidatePlugins.missing_field_error (absent_fields d) ++ others /\
    filter is_missing_diagnostic others = [].
Proof.
  intros H. destruct (diagnostics_by_rule _ _ H) as [He [_ [Hm _]]].
  split; [exact Hm |].
  exists (filter is_id_diagnostic errors ++ filter is_category_diagnostic errors
            ++ filter is_name_diagnostic errors).
  split.
  - change (map ValidatePlugins.missing_field_error (absent_fields d))
      with (missing_errors d).
    rewrite <- Hm. exact He.
  - apply (f_equal (filter is_missing_diagnostic)) in He.
    rewrite filter_app in He.
    assert (Hidem : filter is_missing_diagnostic (filter is_missing_diagnostic errors)
                    = filter is_missing_diagnostic errors).
    { rewrite Hm. exact (proj1 (missing_errors_filters d)). }
    rewrite Hidem in He.
    apply (f_equal (@length pystr)) in He. rewrite length_app in He.
    apply length_zero_iff_nil. lia.
Qed.

(** *** The id rule *)

Lemma split_on_length (s : pystr) : length (split_on 46 s) = S (count_dots s).
Proof.
  unfold count_dots. induction s as [| c s IH]; [reflexivity |].
  cbn [split_on filter]. rewrite N.eqb_sym. destruct (N.eqb 46 c).
  - simpl. now rewrite IH.
  - destruct (split_on 46 s) as [| piece pieces]; [discriminate IH | exact IH].
Qed.

(** X12: for an object with an [id], whenever the validation returns: an id that
    is a string passes with two dots or more, whatever stands between them,
    and gets the id-format error with fewer; an id that is not a string (it
    is then [None], [False], zero or empty) gets the id-format error. *)
Theorem id_format_error_iff_fewer_than_two_dots (rt : runtime)
    (d : list (pystr * value)) (plugin_id : value) (errors warnings : list pystr) :
  dict_lookup (py "id") d = Some plugin_id ->
  ValidatePlugins.validate_plugin_manifest rt (Document (VDict d)) = Ok (errors, warnings) ->
  filter is_id_diagnostic errors
    = match plugin_id with
      | VStr s =>
          if 2 <=? count_dots s then []
          else [py "Invalid plugin ID format: " ++ s
                  ++ py " (should be reverse domain notation)"]
      | _ => [ValidatePlugins.id_format_error rt plugin_id]
      end /\
  (is_str plugin_id = false -> truthy plugin_id = false).
Proof.
  intros Hid H. destruct (diagnostics_by_rule _ _ H) as [_ [_ [_ [Hrule _]]]].
  unfold id_errors, rule in Hrule. rewrite Hid in Hrule.
  destruct plugin_id as [| b | z | f | s | l | m].
  6, 7: (unfold ValidatePlugins.validate_plugin_id in Hrule;
         destruct (truthy _) eqn:Ht; cbn [negb bind py_split_dots] in Hrule;
         [discriminate Hrule | injection Hrule as <-; now split]).
  5: { rewrite validate_plugin_id_str, split_on_length in Hrule.
       cbn [bind] in Hrule. injection Hrule as <-.
       split; [| discriminate].
       destruct (count_dots s) as [| [| dots]]; reflexivity. }
  all: unfold ValidatePlugins.validate_plugin_id in Hrule;
    destruct (truthy _) eqn:Ht; cbn [negb bind py_split_dots] in Hrule;
    [discriminate Hrule | injection Hrule as <-; now split].
Qed.

(** *** The description, name and author rules *)

(** X13: for an object with a [description], whenever the validation returns: the
    description has a length, and the warnings speak of it once, as very
    short, below 20, once, as very long, above 200, and not at all from 20
    to 200. *)
Theorem description_warning_by_length (rt : runtime) (d : list (pystr * value))
    (description : value) (errors warnings : list pystr) :
  dict_lookup (py "description") d = Some description ->
  ValidatePlugins.validate_plugin_manifest rt (Document (VDict d)) = Ok (errors, warnings) ->
  exists desc_len,
    py_len description = Ok desc_len /\
    filter is_description_diagnostic warnings
      = (if desc_len <? 20
         then [py "Description is very short (" ++ str_of_nat desc_len
                 ++ py " characters)"]
         else if 200 <? desc_len
              then [py "Description is very long (" ++ str_of_nat desc_len
                      ++ py " characters)"]
              else []) /\
    filter is_description_diagnostic errors = [].
Proof.
  intros Hdesc H.
  destruct (diagnostics_by_rule _ _ H) as [He [_ [Hm [Hi [Hc [Hn [_ [Hrule _]]]]]]]].
  unfold description_warnings, rule in Hrule. rewrite Hdesc in Hrule.
  destruct (py_len description) as [desc_len |]; [| discriminate Hrule].
  cbn [bind] in Hrule. injection Hrule as Hrule. exists desc_len.
  split; [reflexivity |]. split.
  - rewrite <- Hrule. destruct (desc_len <? 20); [reflexivity |].
    destruct (200 <? desc_len); reflexivity.
  - rewrite He, !filter_app, Hm, Hc.
    assert (M : filter is_description_diagnostic (missing_errors d) = []).
    { apply filter_none. unfold missing_errors.
      induction (filter (fun field => negb (dict_has field d))
                   ValidatePlugins.REQUIRED_FIELDS); constructor; [reflexivity | assumption]. }
    assert (I : filter is_description_diagnostic (filter is_id_diagnostic errors) = []).
    { unfold id_errors, rule in Hi. destruct (dict_lookup (py "id") d);
        [| injection Hi as <-; reflexivity].
      destruct (ValidatePlugins.validate_plugin_id v) as [[|] |]; cbn [bind] in Hi;
        try discriminate Hi; injection Hi as <-; reflexivity. }
    assert (C : filter is_description_diagnostic (category_errors rt d) = []).
    { unfold category_errors. destruct (dict_lookup (py "category") d); [| reflexivity].
      destruct (ValidatePlugins.valid_category v); reflexivity. }
    assert (N : filter is_description_diagnostic (filter is_name_diagnostic errors) = []).
    { unfold name_errors, rule in Hn. destruct (dict_lookup (py "name") d);
        [| injection Hn as <-; reflexivity].
      destruct (py_len v) as [n |]; cbn [bind] in Hn; [| discriminate Hn].
      injection Hn as <-. destruct (n <? 3); reflexivity. }
    now rewrite M, I, C, N.
Qed.

(** X14: for an object with a [name], whenever the validation returns: the name
    has a length, and the errors hold the name error, once, below 3, and not
    from 3 on. *)
Theorem name_error_iff_shorter_than_three (rt : runtime) (d : list (pystr * value))
    (name : value) (errors warnings : list pystr) :
  dict_lookup (py "name") d = Some name ->
  ValidatePlugins.validate_plugin_manifest rt (Document (VDict d)) = Ok (errors, warnings) ->
  exists name_len,
    py_len name = Ok name_len /\
    filter is_name_diagnostic errors
      = if name_len <? 3 then [py "Plugin name is too short"] else [].
Proof.
  intros Hname H.
  destruct (diagnostics_by_rule _ _ H) as [_ [_ [_ [_ [_ [Hrule _]]]]]].
  unfold name_errors, rule in Hrule. rewrite Hname in Hrule.
  destruct (py_len name) as [name_len |]; [| discriminate Hrule].
  cbn [bind] in Hrule. injection Hrule as Hrule. exists name_len.
  split; [reflexivity |]. rewrite <- Hrule. destruct (name_len <? 3); reflexivity.
Qed.

(** X15: for an object with an [author], whenever the validation returns: the
    warnings hold the author warning, once, if ["@" in author] holds (an at
    sign in a string, the item ["@"] in a list, the key ["@"] in an
    object), and not otherwise. *)
Theorem author_warning_iff_at_sign (rt : runtime) (d : list (pystr * value))
    (author : value) (errors warnings : list pystr) :
  dict_lookup (py "author") d = Some author ->
  ValidatePlugins.validate_plugin_manifest rt (Document (VDict d)) = Ok (errors, warnings) ->
  exists has_at,
    py_contains (py "@") author = Ok has_at /\
    filter is_author_diagnostic warnings
      = if has_at
        then [py "Author field should not contain email (use links section instead)"]
        else [].
Proof.
  intros Hauthor H.
  destruct (diagnostics_by_rule _ _ H) as [_ [_ [_ [_ [_ [_ [_ [_ Hrule]]]]]]]].
  unfold author_warnings, rule in Hrule. rewrite Hauthor in Hrule.
  destruct (py_contains (py "@") author) as [has_at |]; [| discriminate Hrule].
  cbn [bind] in Hrule. injection Hrule as Hrule. exists has_at.
  split; [reflexivity |]. rewrite <- Hrule. destruct has_at; reflexivity.
Qed.

(** *** A validation without errors *)

Lemma none_missing (d : list (pystr * value)) (fields : list pystr) :
  map ValidatePlugins.missing_field_error
    (filter (fun field => negb (dict_has field d)) fields) = [] <->
  forallb (fun field => dict_has field d) fields = true.
Proof.
  induction fields as [| field rest IH]; cbn [filter map forallb]; [tauto |].
  destruct (dict_has field d); cbn [negb map andb]; [exact IH | split; discriminate].
Qed.

(** X16: whenever the validation of an object returns, it returns no error
    exactly when the object is [error_free]: it has the seven required
    fields, its id is a string with two dots or more, its category is one
    of the nine, and its name has a length of 3 or more. *)
Theorem no_error_iff_error_free (rt : runtime) (d : list (pystr * value))
    (errors warnings : list pystr) :
  ValidatePlugins.validate_plugin_manifest rt (Document (VDict d)) = Ok (errors, warnings) ->
  errors = [] <-> error_free d = true.
Proof.
  intros H. destruct (diagnostics_by_rule _ _ H) as [He [_ [Hm [Hi [Hc [Hn _]]]]]].
  unfold error_free. split.
  - intros E. subst errors. cbn [filter] in Hm, Hi, Hc, Hn.
    assert (Hall : forallb (fun field => dict_has field d) ValidatePlugins.REQUIRED_FIELDS
                   = true) by (apply none_missing; symmetry; exact Hm).
    rewrite Hall. cbn [andb].
    unfold ValidatePlugins.REQUIRED_FIELDS in Hall. cbn [map forallb] in Hall.
    rewrite !andb_true_iff in Hall.
    destruct Hall as [Hid [Hname [_ [_ [_ [_ [Hcat _]]]]]]].
    unfold dict_has in Hid, Hname, Hcat.
    unfold id_errors, rule in Hi. unfold category_errors in Hc.
    unfold name_errors, rule in Hn.
    destruct (dict_lookup (py "id") d) as [plugin_id |]; [| discriminate Hid].
    destruct (dict_lookup (py "category") d) as [category |]; [| discriminate Hcat].
    destruct (dict_lookup (py "name") d) as [name |]; [| discriminate Hname].
    destruct (ValidatePlugins.valid_category category); [| discriminate Hc].
    destruct (py_len name) as [name_len |]; [| discriminate Hn].
    cbn [bind] in Hn. destruct (name_len <? 3) eqn:Hshort; [discriminate Hn |].
    apply Nat.ltb_ge in Hshort. apply Nat.leb_le in Hshort. rewrite Hshort.
    rewrite !andb_true_r.
    destruct plugin_id as [| b | z | f | s | l | m].
    5: { rewrite validate_plugin_id_str, split_on_length in Hi. cbn [bind] in Hi.
         destruct (count_dots s) as [| [| dots]]; try discriminate Hi; reflexivity. }
    all: unfold ValidatePlugins.validate_plugin_id in Hi;
      destruct (truthy _); cbn [negb bind py_split_dots] in Hi; discriminate Hi.
  - intros E. rewrite !andb_true_iff in E. destruct E as [[[Hall Hid] Hcat] Hname].
    assert (M : filter is_missing_diagnostic errors = []).
    { rewrite Hm. unfold missing_errors. now apply none_missing. }
    assert (I : filter is_id_diagnostic errors = []).
    { unfold id_errors, rule in Hi.
      destruct (dict_lookup (py "id") d) as [[| | | | s | |] |]; try discriminate Hid.
      rewrite validate_plugin_id_str, split_on_length in Hi. cbn [bind] in Hi.
      injection Hi as <-.
      destruct (count_dots s) as [| [| dots]]; try discriminate Hid; reflexivity. }
    assert (C : filter is_category_diagnostic errors = []).
    { rewrite Hc. unfold category_errors.
      destruct (dict_lookup (py "category") d); [| discriminate Hcat].
      now rewrite Hcat. }
    assert (N : filter is_name_diagnostic errors = []).
    { unfold name_errors, rule in Hn.
      destruct (dict_lookup (py "name") d) as [name |]; [| discriminate Hname].
      destruct (py_len name) as [name_len |]; [| discriminate Hname].
      cbn [bind] in Hn. injection Hn as <-. apply Nat.leb_le in Hname.
      destruct (name_len <? 3) eqn:Hshort; [| reflexivity].
      apply Nat.ltb_lt in Hshort. lia. }
    rewrite He, M, I, C, N. reflexivity.
Qed.

(** *** What the validation reads *)

(** X17: the validation of an object reads the seven required fields and nothing
    else: two objects that agree on them get the same errors and warnings,
    or the same exception. *)
Theorem validation_reads_required_fields_only (rt : runtime)
    (d d' : list (pystr * value)) :
  (forall field,
      In field ValidatePlugins.REQUIRED_FIELDS ->
      dict_lookup field d = dict_lookup field d') ->
  ValidatePlugins.validate_plugin_manifest rt (Document (VDict d))
    = ValidatePlugins.validate_plugin_manifest rt (Document (VDict d')).
Proof.
  intros Hsame. cbn [ValidatePlugins.validate_plugin_manifest].
  rewrite !validate_document_rules.
  assert (Hmissing : missing_errors d = missing_errors d').
  { unfold missing_errors. f_equal. apply filter_ext_in. intros field Hin.
    unfold dict_has. now rewrite (Hsame field Hin). }
  assert (Hin : forall key, In key (map py ["id"; "version"; "category"; "description";
                                             "name"; "author"]%string) ->
                            dict_lookup key d = dict_lookup key d').
  { intros key Hkey. apply Hsame. unfold ValidatePlugins.REQUIRED_FIELDS.
    cbn [map In] in Hkey |- *. tauto. }
  cbn [map In] in Hin.
  unfold id_errors, version_warnings, description_warnings, name_errors,
    author_warnings, category_errors, rule.
  rewrite Hmissing.
  rewrite (Hin (py "id")), (Hin (py "version")), (Hin (py "category")),
    (Hin (py "description")), (Hin (py "name")), (Hin (py "author")) by tauto.
  reflexivity.
Qed.

(** *** Documents that are not objects *)

Lemma check_required_sequence (fields : list pystr) (data : value)
    (errors : list pystr) :
  is_dict data = false -> is_sized data = true ->
  ValidatePlugins.check_required fields data errors =
  Ok (errors ++ map ValidatePlugins.missing_field_error
                  (filter (fun field => negb (mentions data field)) fields)).
Proof.
  intros Hdict Hsized. revert errors.
  induction fields as [| field rest IH]; intros errors; cbn [ValidatePlugins.check_required].
  - cbn [filter map]. now rewrite app_nil_r.
  - cbn [filter map]. unfold mentions at 1.
    destruct data; try discriminate Hdict; try discriminate Hsized;
      cbn [py_contains bind]; rewrite IH;
      match goal with
      | |- context [negb ?b] => destruct b
      end; cbn [negb map]; try reflexivity; now rewrite <- app_assoc.
Qed.

Lemma when_present_sequence (key : pystr) (data : value) (lst : list pystr)
    (f : value -> result (list pystr)) :
  is_dict data = false -> is_sized data = true ->
  ValidatePlugins.when_present key data lst f
    = if mentions data key then Raise TypeError else Ok lst.
Proof.
  intros Hdict Hsized. unfold ValidatePlugins.when_present, mentions.
  destruct data; try discriminate Hdict; try discriminate Hsized;
    cbn [py_contains bind py_getitem];
    match goal with
    | |- context [if ?b then _ else _] => destruct b
    end; reflexivity.
Qed.

(** X18: a manifest whose document is not an object.  A list or a string passes
    for an object as long as it mentions none of the six keys whose value a
    rule reads ([in] looks for an item of the list, for a part of the
    string): the validation then returns a missing-field error for every
    required field not mentioned and no warning.  Otherwise, and for a
    number, a boolean or [null], the validation raises a [TypeError], which
    nothing catches. *)
Theorem validation_of_non_object (rt : runtime) (data : value) :
  is_dict data = false ->
  ValidatePlugins.validate_plugin_manifest rt (Document data)
    = if is_sized data && negb (existsb (mentions data) subscripted_keys)
      then Ok (map ValidatePlugins.missing_field_error
                 (filter (fun field => negb (mentions data field))
                    ValidatePlugins.REQUIRED_FIELDS),
               [])
      else Raise TypeError.
Proof.
  intros Hdict. cbn [ValidatePlugins.validate_plugin_manifest].
  destruct (is_sized data) eqn:Hsized.
  - unfold ValidatePlugins.validate_document.
    rewrite (@check_required_sequence _ data _ Hdict Hsized). cbn [bind app].
    rewrite ?(fun key lst f => @when_present_sequence key data lst f Hdict Hsized).
    unfold subscripted_keys. cbn [map existsb andb].
    destruct (mentions data (py "id")); [reflexivity |]. cbn [bind orb].
    rewrite ?(fun key lst f => @when_present_sequence key data lst f Hdict Hsized).
    destruct (mentions data (py "version")); [reflexivity |]. cbn [bind orb].
    rewrite ?(fun key lst f => @when_present_sequence key data lst f Hdict Hsized).
    destruct (mentions data (py "category")); [reflexivity |]. cbn [bind orb].
    rewrite ?(fun key lst f => @when_present_sequence key data lst f Hdict Hsized).
    destruct (mentions data (py "description")); [reflexivity |]. cbn [bind orb].
    rewrite ?(fun key lst f => @when_present_sequence key data lst f Hdict Hsized).
    destruct (mentions data (py "name")); [reflexivity |]. cbn [bind orb].
    rewrite ?(fun key lst f => @when_present_sequence key data lst f Hdict Hsized).
    destruct (mentions data (py "author")); reflexivity.
  - destruct data; try discriminate Hdict; try discriminate Hsized; reflexivity.
Qed.

(** *** The run of main *)




(** *** A plugins directory without manifests *)




(** *** The version rule, piece by piece *)

Lemma split_on_app (sep : N) (v rest : pystr) :
  split_on sep (v ++ sep :: rest) = split_on sep v ++ split_on sep rest.
Proof.
  induction v as [| c v IH]; cbn [app split_on].
  - now rewrite N.eqb_refl.
  - destruct (N.eqb c sep); [now rewrite IH |].
    rewrite IH. destruct (split_on sep v) as [| piece pieces] eqn:Hv; [| reflexivity].
    destruct v; cbn [split_on] in Hv; [discriminate Hv |].
    destruct (N.eqb n sep); [discriminate Hv |].
    destruct (split_on sep v); discriminate Hv.
Qed.

Lemma validate_semver_app (rt : runtime) (v rest : pystr) :
  2 <= count_dots v ->
  ValidatePlugins.validate_semver rt (VStr (v ++ 46%N :: rest))
    = ValidatePlugins.validate_semver rt (VStr v).
Proof.
  intros Hdots. unfold ValidatePlugins.validate_semver. cbn [py_split_dots bind].
  rewrite split_on_app, length_app, firstn_app.
  pose proof (split_on_length v) as Hlen.
  replace (3 - length (split_on 46 v)) with 0 by lia.
  cbn [firstn]. rewrite app_nil_r.
  destruct (length (split_on 46 v) + length (split_on 46 rest) <? 3) eqn:H1;
    [apply Nat.ltb_lt in H1; lia |].
  destruct (length (split_on 46 v) <? 3) eqn:H2; [apply Nat.ltb_lt in H2; lia |].
  reflexivity.
Qed.

(** X22: only the first three pieces of a version are looked at: what follows a
    third dot changes nothing. *)
Theorem semver_reads_three_pieces (rt : runtime) (v rest : pystr) :
  2 <= count_dots v ->
  ValidatePlugins.validate_semver rt (VStr (v ++ 46%N :: rest))
    = ValidatePlugins.validate_semver rt (VStr v).
Proof. intros Hdots. now apply validate_semver_app. Qed.

Lemma is_digit_classify (rt : runtime) (c : N) :
  is_digit c = true -> classify rt c = CDigit (Z.of_N (c - 48)).
Proof. unfold is_digit, classify. now intros ->. Qed.

Lemma scan_all_digits (rt : runtime) (s : pystr) (acc : Z) (n : N) :
  forallb is_digit s = true ->
  exists z,
    scan_digits (map (classify rt) s) acc n false
      = Some (z, (n + N.of_nat (length s))%N, []).
Proof.
  revert acc n. induction s as [| c s IH]; intros acc n; cbn [forallb map length].
  - intros _. exists acc. cbn. now rewrite N.add_0_r.
  - intros H. apply andb_true_iff in H. destruct H as [Hc Hs].
    rewrite (is_digit_classify rt c Hc). cbn [scan_digits].
    destruct (IH (10 * acc + Z.of_N (c - 48))%Z (n + 1)%N Hs) as [z Hz].
    exists z. rewrite Hz. do 2 f_equal. f_equal. lia.
Qed.

Lemma py_int_digits (rt : runtime) (s : pystr) :
  digits s -> exists z, py_int rt s = Some z.
Proof.
  intros [Hne [Hall Hlen]]. destruct s as [| c s]; [now elim Hne |].
  cbn [forallb] in Hall. apply andb_true_iff in Hall. destruct Hall as [Hc Hs].
  unfold py_int. cbn [map]. rewrite (is_digit_classify rt c Hc). cbn [skip_spaces].
  destruct (scan_all_digits rt s (Z.of_N (c - 48)) 1 Hs) as [z Hz]. rewrite Hz.
  assert (Hfew : too_many_digits rt (1 + N.of_nat (length s)) = false).
  { unfold too_many_digits.
    assert (H640 : (640 <? 1 + N.of_nat (length s))%N = false).
    { apply N.ltb_ge. cbn [length] in Hlen. lia. }
    now rewrite H640. }
  rewrite Hfew. cbn [skip_spaces]. now exists z.
Qed.

Lemma split_on_digits (s : pystr) : forallb is_digit s = true -> split_on 46 s = [s].
Proof.
  induction s as [| c s IH]; cbn [forallb split_on]; [reflexivity |].
  intros H. apply andb_true_iff in H. destruct H as [Hc Hs].
  rewrite (IH Hs).
  assert (Hdot : N.eqb c 46 = false).
  { unfold is_digit in Hc. apply andb_true_iff in Hc. destruct Hc as [Hc _].
    apply N.leb_le in Hc. apply N.eqb_neq. lia. }
  now rewrite Hdot.
Qed.

Lemma count_dots_digits (s : pystr) : forallb is_digit s = true -> count_dots s = 0.
Proof.
  intros H. pose proof (split_on_length s) as Hlen. rewrite (split_on_digits s H) in Hlen.
  cbn [length] in Hlen. lia.
Qed.

Lemma count_dots_app (s t : pystr) : count_dots (s ++ t) = count_dots s + count_dots t.
Proof. unfold count_dots. now rewrite filter_app, length_app. Qed.

(** X23: three runs of ASCII digits, of one to 640 digits each, with dots
    between them pass under every interpreter, alone or followed by a dot
    and anything at all. *)
Theorem semver_accepts_numeric_triplet (rt : runtime) (major minor patch : pystr) :
  digits major -> digits minor -> digits patch ->
  ValidatePlugins.validate_semver rt (VStr (major ++ 46%N :: minor ++ 46%N :: patch))
    = Ok true /\
  forall rest,
    ValidatePlugins.validate_semver rt
      (VStr ((major ++ 46%N :: minor ++ 46%N :: patch) ++ 46%N :: rest)) = Ok true.
Proof.
  intros Hmajor Hminor Hpatch.
  assert (Hplain : ValidatePlugins.validate_semver rt
                     (VStr (major ++ 46%N :: minor ++ 46%N :: patch)) = Ok true).
  { unfold ValidatePlugins.validate_semver. cbn [py_split_dots bind].
    rewrite !split_on_app.
    rewrite (split_on_digits major), (split_on_digits minor), (split_on_digits patch)
      by (apply Hmajor || apply Hminor || apply Hpatch).
    cbn [app length firstn forallb Nat.ltb Nat.leb].
    unfold ValidatePlugins.parses_as_int.
    destruct (py_int_digits rt Hmajor) as [x ->].
    destruct (py_int_digits rt Hminor) as [y ->].
    destruct (py_int_digits rt Hpatch) as [z ->]. reflexivity. }
  split; [exact Hplain |]. intros rest. rewrite validate_semver_app; [exact Hplain |].
  rewrite count_dots_app. cbn [count_dots filter]. unfold count_dots.
  cbn [filter N.eqb Pos.eqb length]. rewrite filter_app. cbn [filter N.eqb Pos.eqb].
  rewrite length_app. cbn [length]. lia.
Qed.

Lemma ascii_junk_classify (rt : runtime) (c : N) :
  ascii_junk c = true -> classify rt c = COther.
Proof.
  unfold ascii_junk, classify.
  destruct ((48 <=? c) && (c <=? 57))%N; [now rewrite andb_false_r |].
  destruct (c =? 43)%N; [now rewrite andb_false_r |].
  destruct (c =? 45)%N; [now rewrite andb_false_r |].
  destruct (c =? 95)%N; [now rewrite andb_false_r |].
  destruct ((9 <=? c) && (c <=? 13))%N; [now rewrite andb_false_r |].
  destruct (c =? 32)%N; [now rewrite andb_false_r |].
  destruct (c <=? 127)%N; [reflexivity | discriminate].
Qed.

Lemma skip_spaces_other (cs : list int_char) :
  In COther cs -> In COther (skip_spaces cs).
Proof.
  induction cs as [| x cs IH]; [easy |].
  destruct x; cbn [skip_spaces]; try easy.
  intros [H | H]; [discriminate H | now apply IH].
Qed.

Lemma scan_digits_other (cs : list int_char) (acc : Z) (n : N) (after_underscore : bool)
    (z : Z) (m : N) (rest : list int_char) :
  scan_digits cs acc n after_underscore = Some (z, m, rest) ->
  In COther cs -> In COther rest.
Proof.
  revert acc n after_underscore.
  induction cs as [| x cs IH]; intros acc n u; [intros _ [] |].
  destruct x; cbn [scan_digits].
  1, 2, 3, 6: (destruct u; [discriminate |]; intros H; now injection H as _ _ <-).
  - destruct u; [discriminate |]. intros H [Hx | Hin]; [discriminate Hx |].
    now apply (IH _ _ _ H).
  - intros H [Hx | Hin]; [discriminate Hx |]. now apply (IH _ _ _ H).
Qed.

Lemma digits_then_other (rt : runtime) (d : Z) (cs : list int_char) (negative : bool) :
  In COther cs ->
  match scan_digits cs d 1%N false with
  | Some (z, n, rest) =>
      if too_many_digits rt n then None
      else match skip_spaces rest with
           | [] => Some (if negative then (- z)%Z else z)
           | _ :: _ => None
           end
  | None => None
  end = None.
Proof.
  intros Hin. destruct (scan_digits cs d 1%N false) as [[[z n] rest] |] eqn:Hscan;
    [| reflexivity].
  destruct (too_many_digits rt n); [reflexivity |].
  pose proof (skip_spaces_other _ (scan_digits_other _ _ _ _ Hscan Hin)) as Hrest.
  destruct (skip_spaces rest); [contradiction | reflexivity].
Qed.

(** [int()] refuses a string with a character it has no reading for. *)
Lemma py_int_other (rt : runtime) (s : pystr) :
  existsb ascii_junk s = true -> py_int rt s = None.
Proof.
  intros Hjunk. apply existsb_exists in Hjunk. destruct Hjunk as [c [Hc Hjunk]].
  assert (Hin : In COther (skip_spaces (map (classify rt) s))).
  { apply skip_spaces_other. rewrite <- (ascii_junk_classify rt c Hjunk).
    now apply in_map. }
  unfold py_int. destruct (skip_spaces (map (classify rt) s)) as [| x cs]; [easy |].
  destruct x; try reflexivity.
  - destruct Hin as [Hx | Hin]; [discriminate Hx |].
    destruct cs as [| y cs]; [reflexivity |]. destruct y; try reflexivity.
    destruct Hin as [Hy | Hin]; [discriminate Hy |].
    exact (@digits_then_other rt d cs false Hin).
  - destruct Hin as [Hx | Hin]; [discriminate Hx |].
    destruct cs as [| y cs]; [reflexivity |]. destruct y; try reflexivity.
    destruct Hin as [Hy | Hin]; [discriminate Hy |].
    exact (@digits_then_other rt d cs true Hin).
  - destruct Hin as [Hx | Hin]; [discriminate Hx |].
    exact (@digits_then_other rt d cs false Hin).
Qed.

(** X24: a version gets refused when one of its first three pieces holds an ASCII
    character that is neither a digit, a sign, an underscore nor white
    space: a letter, say, as in the pre-release version [1.2.3-beta]. *)
Theorem semver_refuses_other_characters (rt : runtime) (version : pystr)
    (major minor patch : pystr) (more : list pystr) :
  split_on 46 version = major :: minor :: patch :: more ->
  existsb ascii_junk (major ++ minor ++ patch) = true ->
  ValidatePlugins.validate_semver rt (VStr version) = Ok false.
Proof.
  intros Hsplit Hjunk. unfold ValidatePlugins.validate_semver.
  cbn [py_split_dots bind]. rewrite Hsplit. cbn [length firstn forallb Nat.ltb Nat.leb].
  rewrite !existsb_app in Hjunk. unfold ValidatePlugins.parses_as_int.
  apply orb_true_iff in Hjunk. destruct Hjunk as [H | Hjunk].
  - now rewrite (py_int_other rt _ H).
  - apply orb_true_iff in Hjunk. destruct Hjunk as [H | H];
      rewrite (py_int_other rt _ H); [now rewrite andb_false_r |].
    now rewrite !andb_false_r.
Qed.

(** ** The further properties at sample inputs *)

(** A manifest with links and requirements of its own. *)
Lemma entry_of_linked_manifest :
  GenerateRegistry.load_plugin_manifest Samples.plain_runtime
    (py "tool", Document (VDict Cases.linked_manifest)) = Ok Cases.linked_entry /\
  GenerateRegistry.entry_homepage Cases.linked_entry
    = VStr (py "https://acme.example/tool") /\
  GenerateRegistry.entry_require_docker Cases.linked_entry = VBool true.
Proof.
  split; [reflexivity |].
  destruct (@entry_mirrors_manifest Samples.plain_runtime (py "tool")
              Cases.linked_manifest Cases.linked_entry eq_refl)
    as [_ [_ [_ [_ [_ [_ [Hhome [_ [Hdocker _]]]]]]]]].
  split; [exact Hhome | exact Hdocker].
Defined.





(** The manifest without author, description, icon and category. *)
Lemma missing_fields_of_no_icon :
  filter is_missing_diagnostic
    (map ValidatePlugins.missing_field_error
       (map py ["author"; "description"; "icon"; "category"]%string))
    = map ValidatePlugins.missing_field_error (absent_fields Samples.no_icon) /\
  exists others,
    map ValidatePlugins.missing_field_error
      (map py ["author"; "description"; "icon"; "category"]%string)
      = map ValidatePlugins.missing_field_error (absent_fields Samples.no_icon) ++ others /\
    filter is_missing_diagnostic others = [].
Proof.
  exact (@missing_field_errors_exact Samples.plain_runtime Samples.no_icon
           (map ValidatePlugins.missing_field_error
              (map py ["author"; "description"; "icon"; "category"]%string))
           [] eq_refl).
Defined.

(** The id "tool" has no dot. *)
Lemma id_format_error_of_tool :
  filter is_id_diagnostic
    [py "Invalid plugin ID format: tool (should be reverse domain notation)";
     py "Invalid category: bogus. Must be one of: storage, media, communication, development, monitoring, networking, productivity, security, utilities"]
    = [py "Invalid plugin ID format: tool (should be reverse domain notation)"].
Proof.
  exact (proj1 (@id_format_error_iff_fewer_than_two_dots Samples.plain_runtime
                  Samples.sloppy_tool (VStr (py "tool")) _
                  [py "Version 1 doesn't follow semantic versioning";
                   py "Description is very short (5 characters)";
                   py "Author field should not contain email (use links section instead)"]
                  eq_refl eq_refl)).
Defined.

(** The description "short" has five characters. *)
Lemma description_warning_of_sloppy_tool :
  exists desc_len,
    py_len (VStr (py "short")) = Ok desc_len /\
    filter is_description_diagnostic
      [py "Version 1 doesn't follow semantic versioning";
       py "Description is very short (5 characters)";
       py "Author field should not contain email (use links section instead)"]
      = (if desc_len <? 20
         then [py "Description is very short (" ++ str_of_nat desc_len
                 ++ py " characters)"]
         else if 200 <? desc_len
              then [py "Description is very long (" ++ str_of_nat desc_len
                      ++ py " characters)"]
              else []) /\
    filter is_description_diagnostic
      [py "Invalid plugin ID format: tool (should be reverse domain notation)";
       py "Invalid category: bogus. Must be one of: storage, media, communication, development, monitoring, networking, productivity, security, utilities"]
      = [].
Proof.
  exact (@description_warning_by_length Samples.plain_runtime Samples.sloppy_tool
           (VStr (py "short")) _ _ eq_refl eq_refl).
Defined.

(** The name "ab" has two characters. *)
Lemma name_error_of_short_name :
  exists name_len,
    py_len (VStr (py "ab")) = Ok name_len /\
    filter is_name_diagnostic
      (map ValidatePlugins.missing_field_error
         (map py ["id"; "version"; "author"; "description"; "icon"; "category"]%string)
       ++ [py "Plugin name is too short"])
      = if name_len <? 3 then [py "Plugin name is too short"] else [].
Proof.
  exact (@name_error_iff_shorter_than_three Samples.plain_runtime Cases.short_name
           (VStr (py "ab")) _ [] eq_refl eq_refl).
Defined.

(** The author "a@b.com" holds an at sign. *)
Lemma author_warning_of_sloppy_tool :
  exists has_at,
    py_contains (py "@") (VStr (py "a@b.com")) = Ok has_at /\
    filter is_author_diagnostic
      [py "Version 1 doesn't follow semantic versioning";
       py "Description is very short (5 characters)";
       py "Author field should not contain email (use links section instead)"]
      = if has_at
        then [py "Author field should not contain email (use links section instead)"]
        else [].
Proof.
  exact (@author_warning_iff_at_sign Samples.plain_runtime Samples.sloppy_tool
           (VStr (py "a@b.com"))
           [py "Invalid plugin ID format: tool (should be reverse domain notation)";
            py "Invalid category: bogus. Must be one of: storage, media, communication, development, monitoring, networking, productivity, security, utilities"]
           _ eq_refl eq_refl).
Defined.

(** The valid manifest of the scenario is free of errors. *)
Lemma acme_tool_is_error_free :
  @nil pystr = [] <-> error_free Samples.acme_tool = true.
Proof.
  exact (@no_error_iff_error_free Samples.plain_runtime Samples.acme_tool [] [] eq_refl).
Defined.

(** Links that are no object do not change the validation. *)
Lemma validation_ignores_links :
  ValidatePlugins.validate_plugin_manifest Samples.plain_runtime
    (Document (VDict Samples.acme_tool))
  = ValidatePlugins.validate_plugin_manifest Samples.plain_runtime
      (Document (VDict Cases.acme_tool_with_links)).
Proof.
  apply (@validation_reads_required_fields_only Samples.plain_runtime Samples.acme_tool
           Cases.acme_tool_with_links).
  intros field [<- | [<- | [<- | [<- | [<- | [<- | [<- | []]]]]]]]; reflexivity.
Defined.

(** A list that mentions [icon] and none of the keys a rule reads. *)
Lemma validation_of_list_document :
  ValidatePlugins.validate_plugin_manifest Samples.plain_runtime
    (Document Cases.list_document)
  = Ok (map ValidatePlugins.missing_field_error
          (map py ["id"; "name"; "version"; "author"; "description"; "category"]%string),
        []).
Proof.
  exact (@validation_of_non_object Samples.plain_runtime Cases.list_document eq_refl).
Defined.


(** The version 1.2.3.beta passes as 1.2.3 does. *)
Lemma semver_of_dotted_suffix :
  ValidatePlugins.validate_semver Samples.plain_runtime
    (VStr (py "1.2.3" ++ 46%N :: py "beta"))
  = ValidatePlugins.validate_semver Samples.plain_runtime (VStr (py "1.2.3")).
Proof.
  apply (@semver_reads_three_pieces Samples.plain_runtime (py "1.2.3") (py "beta")).
  vm_compute. lia.
Defined.

(** The version 10.0.3. *)
Lemma semver_of_numeric_triplet :
  ValidatePlugins.validate_semver Samples.plain_runtime
    (VStr (py "10" ++ 46%N :: py "0" ++ 46%N :: py "3")) = Ok true.
Proof.
  apply (@semver_accepts_numeric_triplet Samples.plain_runtime (py "10") (py "0") (py "3"));
    (split; [discriminate | split; [reflexivity | vm_compute; lia]]).
Defined.

(** The pre-release version 1.2.3-beta. *)
Lemma semver_of_prerelease :
  ValidatePlugins.validate_semver Samples.plain_runtime (VStr (py "1.2.3-beta")) = Ok false.
Proof.
  exact (@semver_refuses_other_characters Samples.plain_runtime (py "1.2.3-beta")
           (py "1") (py "2") (py "3-beta") [] eq_refl eq_refl).
Defined.

(** ** Further properties of the two scripts together *)

Lemma flat_map_nil_in (A B : Type) (f : A -> list B) (l : list A) (x : A) :
  flat_map f l = [] -> In x l -> f x = [].
Proof.
  induction l as [| y l IH]; cbn [flat_map]; [intros _ [] |].
  intros H. apply app_eq_nil in H. destruct H as [Hy Hl].
  intros [<- | Hin]; [exact Hy | now apply IH].
Qed.

Lemma found_manifest (plugins_dir : listing) (name : pystr) (file : manifest) :
  In (name, file) (GenerateRegistry.find_plugin_manifests plugins_dir) <->
  exists plugin_dir,
    In plugin_dir plugins_dir /\
    dirent_name plugin_dir = name /\
    dirent_kind plugin_dir = Directory (Some file).
Proof.
  unfold GenerateRegistry.find_plugin_manifests. rewrite in_flat_map. split.
  - intros [plugin_dir [Hin Hfound]]. exists plugin_dir. split; [exact Hin |].
    destruct (dirent_kind plugin_dir) as [| [found |]]; try contradiction.
    destruct Hfound as [H | []]. injection H as <- <-. now split.
  - intros [plugin_dir [Hin [<- Hkind]]]. exists plugin_dir. split; [exact Hin |].
    rewrite Hkind. now left.
Qed.


(** X26: what a passing validation promises the generator.  If the run of the
    validator ends with status 0, the name of every manifest object is a
    string and no string of the entries that load holds a surrogate, the
    generator returns a registry: every manifest object has a name, so the
    sort compares strings only.  (The registry need not hold every plugin:
    the validator does not look at [links], [requires] and [tags], which
    can keep a manifest from loading.) *)
Theorem validated_plugins_generate (rt : runtime) (plugins_dir : listing)
    (utcnow : pystr) :
  ValidatePlugins.exit_status (ValidatePlugins.ended (ValidatePlugins.main rt plugins_dir))
    = 0%Z ->
  (forall name d,
      In (name, Document (VDict d)) (GenerateRegistry.find_plugin_manifests plugins_dir) ->
      field_ok d (py "name") is_str = true) ->
  writable (loaded_entries rt plugins_dir) = true ->
  exists plugins,
    GenerateRegistry.returned (GenerateRegistry.generate_registry rt plugins_dir utcnow)
      = Ok (registry_of utcnow plugins) /\
    GenerateRegistry.written (GenerateRegistry.generate_registry rt plugins_dir utcnow)
      = [registry_of utcnow plugins] /\
    Forall (ListSort.str_key GenerateRegistry.entry_name) plugins.
Proof.
  intros Hexit Hnames Hwritable.
  assert (Hstr : Forall (ListSort.str_key GenerateRegistry.entry_name)
                   (loaded_entries rt plugins_dir)).
  { apply Forall_forall. intros e He. unfold loaded_entries in He.
    apply load_all_in in He. destruct He as [[name file] [Hfound Hload]].
    destruct file as [msg | msg | data]; try discriminate Hload.
    destruct (load_needs_object _ _ _ Hload) as [d ->].
    destruct (load_document _ _ _ Hload) as [Hname _]. cbv zeta in Hname.
    specialize (Hnames name d Hfound).
    apply found_manifest in Hfound. destruct Hfound as [plugin_dir [Hin [_ Hkind]]].
    destruct (first_raise rt plugins_dir) as [raised |] eqn:Hraise;
      [rewrite (main_raises _ _ Hraise) in Hexit; discriminate Hexit |].
    apply first_raise_none in Hraise. destruct Hraise as [Hret Hprint].
    rewrite (main_completes Hret Hprint) in Hexit.
    cbn [ValidatePlugins.ended ValidatePlugins.exit_status] in Hexit.
    destruct (Hret plugin_dir _ Hin Hkind) as [[errors warnings] Hv].
    destruct (flat_map (fun entry => fst (recorded rt entry)) plugins_dir) eqn:Herrors;
      [| discriminate Hexit].
    pose proof (flat_map_nil_in _ _ _ Herrors Hin) as Hnone. cbn beta in Hnone.
    unfold recorded in Hnone. rewrite Hkind, Hv in Hnone. cbn [fst] in Hnone.
    subst errors.
    destruct (diagnostics_by_rule _ _ Hv) as [_ [_ [Hm _]]]. cbn [filter] in Hm.
    symmetry in Hm. unfold missing_errors in Hm. apply none_missing in Hm.
    unfold ValidatePlugins.REQUIRED_FIELDS in Hm. cbn [map forallb] in Hm.
    rewrite !andb_true_iff in Hm. destruct Hm as [_ [Hhas _]].
    unfold dict_has in Hhas. unfold field_ok in Hnames.
    unfold ListSort.str_key. rewrite Hname. unfold lookup_or.
    destruct (dict_lookup (py "name") d) as [v |]; [| discriminate Hhas].
    destruct v; try discriminate Hnames. now exists s. }
  rewrite generate_registry_unfold.
  destruct (sort_strings Hstr) as [sorted [Hsort [_ Hperm]]]. rewrite Hsort.
  unfold writable in *.
  rewrite <- (forallb_permutation GenerateRegistry.entry_writable Hperm), Hwritable.
  exists sorted. repeat split.
  apply Forall_forall. intros e He. rewrite Forall_forall in Hstr. apply Hstr.
  now apply (Permutation_in _ (Permutation_sym Hperm)).
Qed.


(** The valid plugin, a bare directory and a plain file. *)
Lemma registry_of_validated_plugins :
  exists plugins,
    GenerateRegistry.returned
      (GenerateRegistry.generate_registry Samples.plain_runtime Samples.tool_and_strays
         Samples.noon) = Ok (registry_of Samples.noon plugins) /\
    GenerateRegistry.written
      (GenerateRegistry.generate_registry Samples.plain_runtime Samples.tool_and_strays
         Samples.noon) = [registry_of Samples.noon plugins] /\
    Forall (ListSort.str_key GenerateRegistry.entry_name) plugins.
Proof.
  apply (@validated_plugins_generate Samples.plain_runtime Samples.tool_and_strays
           Samples.noon).
  - reflexivity.
  - intros name d [H | []]. injection H as _ <-. reflexivity.
  - reflexivity.
Defined.
